(** * Daily-Coordinator: serverless notification and sync handlers

    A shallow embedding of the five Python handlers of the repository
    (src/lambda/gcp_pubsub.py, src/cloud-function/main.py,
    src/lambda/index.py, src/lambda/slack_poster.py and
    src/lambda-whatsapp/whatsapp_sender.py) and the proofs of the properties
    stated about them.

    - Python values are the JSON values the handlers receive and return
      (floats left out); strings are byte strings, so [len], [upper] and
      [strip] are those of ASCII text.
    - An expression or call either returns or raises: [result].  Every
      exception of the model is an [Exception], so [except Exception] catches
      all of them.
    - Module globals, the lines logged and the sequence of calls made to
      managed services are an explicit process state, threaded through a
      small state-and-exception monad.
    - What a managed service answers is given by a [world]: an arbitrary
      function of the calls made so far.  The properties hold for every
      world.
    - [json], [base64] and [repr] are parameters ([pylib]).

    Definitions keep the names of the source; a definition that stands for a
    region of a function says which lines. *)

From Stdlib Require Import ZArith List String Ascii Bool Lia.
From Stdlib Require Import DecimalString.
Import ListNotations.
Local Open Scope string_scope.
Local Open Scope Z_scope.
Set Warnings "-register-all".

(** ** Python values *)

(** The values that travel through the handlers: what [json.loads] yields
    (floats left out) and what [json.dumps] accepts.  A dict keeps its
    insertion order, as Python's does. *)
Inductive pyval : Type :=
| VNone
| VBool (b : bool)
| VInt (z : Z)
| VStr (s : string)
| VList (l : list pyval)
| VDict (d : list (string * pyval)).

(** Exception classes the handlers raise or meet.  Every one of them is a
    subclass of [Exception]; [JSONDecodeError] is the only one a handler
    catches by name.  [ServiceError] stands for whatever an SDK raises. *)
Inductive exn_class : Type :=
| ImportError | ValueError | JSONDecodeError | TypeError | AttributeError
| KeyError | BinasciiError | UnicodeDecodeError | ServiceError.

(** An exception object: its class and [str(exc)]. *)
Record exn : Type := Exn { exn_cls : exn_class; exn_str : string }.

Definition is_JSONDecodeError (e : exn) : bool :=
  match exn_cls e with JSONDecodeError => true | _ => false end.

(** The outcome of evaluating a Python expression or call. *)
Inductive result (A : Type) : Type :=
| Ok (a : A)
| Raise (e : exn).
Arguments Ok {A} a.
Arguments Raise {A} e.

Definition nl : string := String (ascii_of_nat 10) EmptyString.

(** [bool(v)]. *)
Definition truthy (v : pyval) : bool :=
  match v with
  | VNone => false
  | VBool b => b
  | VInt z => negb (z =? 0)
  | VStr s => negb (String.eqb s "")
  | VList l => match l with [] => false | _ => true end
  | VDict d => match d with [] => false | _ => true end
  end.

(** [a or b]. *)
Definition py_or (a b : pyval) : pyval := if truthy a then a else b.

Definition type_name (v : pyval) : string :=
  match v with
  | VNone => "NoneType" | VBool _ => "bool" | VInt _ => "int"
  | VStr _ => "str" | VList _ => "list" | VDict _ => "dict"
  end.

Definition isinstance_dict (v : pyval) : bool :=
  match v with VDict _ => true | _ => false end.

Definition isinstance_str (v : pyval) : bool :=
  match v with VStr _ => true | _ => false end.

(** [v == s] for a string literal [s]. *)
Definition py_eq_str (v : pyval) (s : string) : bool :=
  match v with VStr t => String.eqb t s | _ => false end.

(** [v == n] for an integer literal [n]; a bool compares as 0 or 1. *)
Definition py_eq_int (v : pyval) (n : Z) : bool :=
  match v with
  | VInt z => z =? n
  | VBool b => (if b then 1 else 0) =? n
  | _ => false
  end.

(** *** Dicts *)

Fixpoint dict_lookup (k : string) (d : list (string * pyval)) : option pyval :=
  match d with
  | [] => None
  | (k', v) :: d' => if String.eqb k' k then Some v else dict_lookup k d'
  end.

Definition dict_mem (k : string) (d : list (string * pyval)) : bool :=
  match dict_lookup k d with Some _ => true | None => false end.

(** [d[k] = v]: replaces the value in place, or appends a new key. *)
Fixpoint dict_store (k : string) (v : pyval) (d : list (string * pyval))
  : list (string * pyval) :=
  match d with
  | [] => [(k, v)]
  | (k', v') :: d' =>
      if String.eqb k' k then (k', v) :: d' else (k', v') :: dict_store k v d'
  end.

Definition attribute_error (v : pyval) (attr : string) : exn :=
  Exn AttributeError
      ("'" ++ type_name v ++ "' object has no attribute '" ++ attr ++ "'").

(** [d.get(k, default)] on a dict. *)
Definition dict_get (d : list (string * pyval)) (k : string) (default : pyval)
  : pyval :=
  match dict_lookup k d with
  | Some v => v
  | None => default
  end.

(** [obj.get(k, default)]: only a dict has the method. *)
Definition py_get (obj : pyval) (k : string) (default : pyval) : result pyval :=
  match obj with
  | VDict d => Ok (dict_get d k default)
  | _ => Raise (attribute_error obj "get")
  end.

(** [obj[k]] for a string key. *)
Definition py_getitem (obj : pyval) (k : string) : result pyval :=
  match obj with
  | VDict d =>
      match dict_lookup k d with
      | Some v => Ok v
      | None => Raise (Exn KeyError ("'" ++ k ++ "'"))
      end
  | VList _ => Raise (Exn TypeError "list indices must be integers or slices, not str")
  | VStr _ => Raise (Exn TypeError "string indices must be integers, not 'str'")
  | _ => Raise (Exn TypeError ("'" ++ type_name obj ++ "' object is not subscriptable"))
  end.

Definition is_substring (s1 s2 : string) : bool :=
  match String.index 0 s1 s2 with Some _ => true | None => false end.

(** [k in obj] for a string literal [k]: key membership in a dict, element
    membership in a list, substring test in a string. *)
Definition py_contains (k : string) (obj : pyval) : result bool :=
  match obj with
  | VDict d => Ok (dict_mem k d)
  | VList l => Ok (existsb (fun v => py_eq_str v k) l)
  | VStr s => Ok (is_substring k s)
  | _ => Raise (Exn TypeError
                  ("argument of type '" ++ type_name obj ++ "' is not iterable"))
  end.

Fixpoint chars (s : string) : list pyval :=
  match s with
  | EmptyString => []
  | String c s' => VStr (String c EmptyString) :: chars s'
  end.

(** What [for x in obj] walks over. *)
Definition py_iter (obj : pyval) : result (list pyval) :=
  match obj with
  | VList l => Ok l
  | VDict d => Ok (map (fun kv => VStr (fst kv)) d)
  | VStr s => Ok (chars s)
  | _ => Raise (Exn TypeError ("'" ++ type_name obj ++ "' object is not iterable"))
  end.

(** [len(obj)]. *)
Definition py_len (obj : pyval) : result Z :=
  match obj with
  | VList l => Ok (Z.of_nat (List.length l))
  | VDict d => Ok (Z.of_nat (List.length d))
  | VStr s => Ok (Z.of_nat (String.length s))
  | _ => Raise (Exn TypeError
                  ("object of type '" ++ type_name obj ++ "' has no len()"))
  end.

(** *** Strings *)

Definition str_of_Z (z : Z) : string := NilZero.string_of_int (Z.to_int z).

Fixpoint join (sep : string) (l : list string) : string :=
  match l with
  | [] => ""
  | [s] => s
  | s :: l' => s ++ sep ++ join sep l'
  end.

(** [s.split(",")]-style splitting on one separator character. *)
Fixpoint split_on (sep : ascii) (s : string) : list string :=
  match s with
  | EmptyString => [""]
  | String c s' =>
      if Ascii.eqb c sep then "" :: split_on sep s'
      else match split_on sep s' with
           | [] => [String c ""]
           | w :: ws => String c w :: ws
           end
  end.

(** ASCII white space, as [str.isspace] has it. *)
Definition is_space (c : ascii) : bool :=
  let n := nat_of_ascii c in
  (((9 <=? n) && (n <=? 13)) || ((28 <=? n) && (n <=? 32)))%nat.

Fixpoint lstrip (s : string) : string :=
  match s with
  | EmptyString => EmptyString
  | String c s' => if is_space c then lstrip s' else s
  end.

Fixpoint rstrip (s : string) : string :=
  match s with
  | EmptyString => EmptyString
  | String c s' =>
      match rstrip s' with
      | EmptyString => if is_space c then EmptyString else String c EmptyString
      | r => String c r
      end
  end.

(** [s.strip()]. *)
Definition strip (s : string) : string := rstrip (lstrip s).

(** [s.startswith(p)]. *)
Definition startswith (p s : string) : bool := String.prefix p s.

Definition upper_ascii (c : ascii) : ascii :=
  let n := nat_of_ascii c in
  if ((97 <=? n) && (n <=? 122))%nat then ascii_of_nat (n - 32) else c.

(** [s.upper()], on ASCII letters. *)
Fixpoint upper (s : string) : string :=
  match s with
  | EmptyString => EmptyString
  | String c s' => String (upper_ascii c) (upper s')
  end.

(** ** The Python library functions the handlers call

    [json], [base64], [bytes.decode] and [repr] are not code of this
    repository: the handlers are verified for every library that has these
    signatures.  [json_loads] and the two decoders answer [None] where the
    Python function raises. *)
Record pylib : Type := {
  json_loads : string -> option pyval;
  json_dumps : pyval -> string;
  b64decode : string -> option string;
  utf8_decode : string -> option string;
  py_repr : pyval -> string
}.

(** [str(v)]: a string is itself, everything else prints as its [repr]. *)
Definition py_str (L : pylib) (v : pyval) : string :=
  match v with VStr s => s | _ => py_repr L v end.

(** [json.loads(v)]: a non-string argument is a [TypeError], malformed text a
    [JSONDecodeError]. *)
Definition py_json_loads (L : pylib) (v : pyval) : result pyval :=
  match v with
  | VStr s =>
      match json_loads L s with
      | Some j => Ok j
      | None => Raise (Exn JSONDecodeError "Expecting value")
      end
  | _ => Raise (Exn TypeError
                  ("the JSON object must be str, bytes or bytearray, not "
                     ++ type_name v))
  end.

(** ** Managed services and the process state *)

(** SDK objects (clients, credentials, futures, tables) are opaque handles. *)
Definition handle : Type := nat.

(** A field value of a document write: a plain value, or one of the two
    server-side transforms the document-sync handler uses. *)
Inductive fsvalue : Type :=
| FsValue (v : pyval)
| FsServerTimestamp
| FsIncrement (v : pyval).

(** [datetime.utcnow()], with the three views the handlers take of it. *)
Record datetime : Type := {
  isoformat : string;      (* .isoformat() *)
  timestamp_us : Z;        (* .timestamp(), in microseconds *)
  date_str : string        (* str(.date()) *)
}.

(** The calls a handler makes outside the process. *)
Inductive call : Type :=
| UtcNow
| GetSecretValue (secret_id : string)
| CredentialsFromInfo (info : pyval)
| PublisherClient (credentials : handle)
| TopicPath (client : handle) (project : option string) (topic : string)
| Publish (client : handle) (topic_path : pyval) (data : string)
          (attributes : list (string * pyval))
| FutureResult (future : handle) (timeout : Z)
| FirestoreSet (collection : string) (document : pyval)
               (data : list (string * fsvalue)) (merge : bool)
| DynamoTable (name : option string)
| PutItem (table : handle) (item : list (string * pyval))
| PutObject (bucket : option string) (key body content_type sse : string)
| SnsPublish (topic_arn : option string) (subject message : string)
| TwilioClient (account_sid auth_token : pyval)
| MessagesCreate (client : handle) (from_ to body : string).

(** What the outside answers.  The answer to a call may depend on every call
    made before it, and is otherwise arbitrary: a value or an exception for a
    call that returns data, a handle or an exception for one that builds an
    SDK object.  The clock never raises. *)
Record world : Type := {
  respond : list call -> call -> result pyval;
  construct : list call -> call -> result handle;
  clock : list call -> datetime
}.

Inductive level : Type := INFO | WARNING | ERROR.

(** The state of one handler process: its module globals [G], the calls it has
    made and the lines it has logged. *)
Record proc (G : Type) : Type := Proc {
  globals : G;
  trace : list call;
  logs : list (level * string)
}.
Arguments Proc {G} _ _ _.
Arguments globals {G} _.
Arguments trace {G} _.
Arguments logs {G} _.

(** The three ways a state moves on: a global is assigned, a call is made, a
    line is logged. *)
Definition stored {G} (p : proc G) (g : G) : proc G :=
  Proc g (trace p) (logs p).

Definition called {G} (p : proc G) (c : call) : proc G :=
  Proc (globals p) (trace p ++ [c])%list (logs p).

Definition logged {G} (p : proc G) (l : level) (msg : string) : proc G :=
  Proc (globals p) (trace p) (logs p ++ [(l, msg)])%list.

(** ** The handler monad: state and exceptions *)

Definition M (G A : Type) : Type := proc G -> result A * proc G.

Definition ret {G A} (a : A) : M G A := fun p => (Ok a, p).

Definition bind {G A B} (m : M G A) (k : A -> M G B) : M G B :=
  fun p =>
    match m p with
    | (Ok a, p') => k a p'
    | (Raise e, p') => (Raise e, p')
    end.

(** [raise e]. *)
Definition raise {G A} (e : exn) : M G A := fun p => (Raise e, p).

(** [try: body  except Exception as exc: handler exc]. *)
Definition try_except {G A} (body : M G A) (handler : exn -> M G A) : M G A :=
  fun p =>
    match body p with
    | (Ok a, p') => (Ok a, p')
    | (Raise e, p') => handler e p'
    end.

(** Lifts a pure outcome. *)
Definition lift {G A} (r : result A) : M G A := fun p => (r, p).

Definition get_globals {G} : M G G := fun p => (Ok (globals p), p).

Definition set_globals {G} (g : G) : M G unit :=
  fun p => (Ok tt, stored p g).

(** [logger.<level>(msg)]. *)
Definition log {G} (l : level) (msg : string) : M G unit :=
  fun p => (Ok tt, logged p l msg).

Declare Scope py_scope.
Delimit Scope py_scope with py.
Notation "x <- m ;; k" := (bind m (fun x => k))
  (at level 100, m at next level, right associativity) : py_scope.
Notation "m ;;; k" := (bind m (fun _ => k))
  (at level 100, right associativity) : py_scope.
Local Open Scope py_scope.

(** Sequencing of pure Python code that may raise. *)
Definition rbind {A B} (r : result A) (k : A -> result B) : result B :=
  match r with
  | Ok a => k a
  | Raise e => Raise e
  end.

Notation "x <-- r ;; k" := (rbind r (fun x => k))
  (at level 100, r at next level, right associativity) : py_scope.

Section Services.
Variable W : world.
Context {G : Type}.

(** A call that returns data. *)
Definition sdk (c : call) : M G pyval :=
  fun p => (respond W (trace p) c, called p c).

(** A call that builds an SDK object. *)
Definition sdk_new (c : call) : M G handle :=
  fun p => (construct W (trace p) c, called p c).

(** [datetime.utcnow()]. *)
Definition utcnow : M G datetime :=
  fun p => (Ok (clock W (trace p)), called p UtcNow).
End Services.

(** A module-level setting read from the environment: [None] when the
    variable is unset.  [env_value] is what passes an [if not X] guard. *)
Definition env_value (o : option string) : option string :=
  match o with
  | Some EmptyString => None
  | _ => o
  end.

(** ** src/lambda/gcp_pubsub.py *)
Module GcpPubsub.

Record config : Type := {
  GCP_PUBSUB_SECRET_NAME : option string;
  GCP_PROJECT_ID : option string;
  GCP_PUBSUB_TOPIC : string;
  (* whether [from google.cloud import pubsub_v1] succeeded *)
  pubsub_v1 : bool
}.

(** The module global [_publisher_client]. *)
Definition module_globals : Type := option handle.

Section Handlers.
Variable L : pylib.
Variable W : world.
Variable cfg : config.

Let M := M module_globals.

(** Lines 31-68. *)
Definition _get_publisher_client : M handle :=
  cached <- get_globals ;;
  match cached with
  | Some client => ret client
  | None =>
      if negb (pubsub_v1 cfg) then
        raise (Exn ImportError
                 ("google-cloud-pubsub library not available. "
                    ++ "Add it to Lambda layer or deployment package."))
      else
        match env_value (GCP_PUBSUB_SECRET_NAME cfg) with
        | None =>
            raise (Exn ValueError
                     "GCP_PUBSUB_SECRET_NAME environment variable not set")
        | Some secret_name =>
            match env_value (GCP_PROJECT_ID cfg) with
            | None =>
                raise (Exn ValueError
                         "GCP_PROJECT_ID environment variable not set")
            | Some _ =>
                try_except
                  (response <- sdk W (GetSecretValue secret_name) ;;
                   key_json <- lift (py_get response "SecretString" VNone) ;;
                   if negb (truthy key_json) then
                     raise (Exn ValueError
                              "GCP service account key not found in secret")
                   else
                     credentials_info <- lift (py_json_loads L key_json) ;;
                     credentials <- sdk_new W (CredentialsFromInfo credentials_info) ;;
                     client <- sdk_new W (PublisherClient credentials) ;;
                     set_globals (Some client) ;;;
                     log INFO "GCP Pub/Sub publisher client initialized" ;;;
                     ret client)
                  (fun exc =>
                     log ERROR ("Failed to initialize GCP Pub/Sub client: "
                                  ++ exn_str exc) ;;;
                     raise exc)
            end
        end
  end.

(** Lines 71-109. *)
Definition publish_to_pubsub (event_data : pyval) : M pyval :=
  try_except
    (client <- _get_publisher_client ;;
     topic_path <- sdk W (TopicPath client (GCP_PROJECT_ID cfg)
                            (GCP_PUBSUB_TOPIC cfg)) ;;
     let message_data := json_dumps L event_data in
     event_type <- lift (py_get event_data "status" (VStr "unknown")) ;;
     coordinator_id <- lift (py_get event_data "coordinator_id" (VStr "")) ;;
     let attributes :=
       [("source", VStr "daily-coordinator");
        ("event_type", event_type);
        ("coordinator_id", coordinator_id)] in
     future <- sdk_new W (Publish client topic_path message_data attributes) ;;
     message_id <- sdk W (FutureResult future 10) ;;
     log INFO ("Published message " ++ py_str L message_id
                 ++ " to topic " ++ GCP_PUBSUB_TOPIC cfg) ;;;
     ret message_id)
    (fun exc =>
       log ERROR ("Failed to publish to Pub/Sub: " ++ exn_str exc) ;;;
       raise exc).

(** [isinstance(result, dict) and result.get("statusCode") == 200]. *)
Definition is_success_response (result : pyval) : bool :=
  match result with
  | VDict d => py_eq_int (dict_get d "statusCode" VNone) 200
  | _ => false
  end.

(** Lines 130-131, the body of the wrapper's [try]: decode the response
    body and publish it. *)
Definition republish (result : pyval) : M unit :=
  raw <- lift (py_get result "body" (VStr "{}")) ;;
  body <- lift (py_json_loads L raw) ;;
  _ <- publish_to_pubsub body ;;
  ret tt.

(** A Lambda handler: event and context in, any value out. *)
Definition lambda_fn : Type := pyval -> handle -> M pyval.

(** Lines 112-138: the decorator, applied to a handler. *)
Definition lambda_handler_with_pubsub (original_handler : lambda_fn)
  : lambda_fn :=
  fun event context =>
    result <- original_handler event context ;;
    (if is_success_response result then
       try_except (republish result)
         (fun exc =>
            log WARNING ("Failed to publish to Pub/Sub: " ++ exn_str exc))
     else ret tt) ;;;
    ret result.

End Handlers.
End GcpPubsub.

(** ** src/cloud-function/main.py *)
Module CloudFunction.

Section Handlers.
Variable L : pylib.
Variable W : world.

(** The module has no mutable global. *)
Let M := M unit.

(** [base64.b64decode(data).decode("utf-8")]. *)
Definition b64decode_utf8 (data : pyval) : result string :=
  match data with
  | VStr s =>
      match b64decode L s with
      | Some bytes =>
          match utf8_decode L bytes with
          | Some text => Ok text
          | None => Raise (Exn UnicodeDecodeError
                             "'utf-8' codec can't decode byte")
          end
      | None => Raise (Exn BinasciiError "Incorrect padding")
      end
  | _ => Raise (Exn TypeError
                  ("argument should be a bytes-like object or ASCII string, not '"
                     ++ type_name data ++ "'"))
  end.

(** Lines 29-30: the payload of a message that has a [data] field. *)
Definition decode_message (event : pyval) : result pyval :=
  data <-- py_getitem event "data" ;;
  message_data <-- b64decode_utf8 data ;;
  py_json_loads L (VStr message_data).

(** [int(datetime.utcnow().timestamp())]. *)
Definition epoch_seconds (now : datetime) : Z :=
  Z.quot (timestamp_us now) 1000000.

Definition task_doc (coordinator_id status tasks_processed errors
                       timestamp event_type source : pyval)
  : list (string * fsvalue) :=
  [("coordinator_id", FsValue coordinator_id);
   ("status", FsValue status);
   ("tasks_processed", FsValue tasks_processed);
   ("errors", FsValue errors);
   ("timestamp", FsValue timestamp);
   ("event_type", FsValue event_type);
   ("source", FsValue source);
   ("created_at", FsServerTimestamp);
   ("synced", FsValue (VBool false))].

Definition coordinator_update (last_status tasks_processed : pyval)
  : list (string * fsvalue) :=
  [("last_status", FsValue last_status);
   ("last_update", FsServerTimestamp);
   ("total_tasks", FsIncrement tasks_processed)].

(** Lines 35-69: what the handler does with a decoded payload. *)
Definition sync_payload (event payload : pyval) : M unit :=
  attributes <- lift (py_get event "attributes" (VDict [])) ;;
  coordinator_id <- lift (py_get payload "coordinator_id" (VStr "unknown")) ;;
  now <- utcnow W ;;
  timestamp <- lift (py_get payload "timestamp" (VStr (isoformat now))) ;;
  status <- lift (py_get payload "status" (VStr "unknown")) ;;
  tasks_processed <- lift (py_get payload "tasks_processed" (VInt 0)) ;;
  errors <- lift (py_get payload "errors" (VList [])) ;;
  event_type <- lift (py_get attributes "event_type" (VStr "update")) ;;
  source <- lift (py_get attributes "source" (VStr "pubsub")) ;;
  let doc := task_doc coordinator_id status tasks_processed errors
               timestamp event_type source in
  now' <- utcnow W ;;
  let doc_id := py_str L coordinator_id ++ "_"
                  ++ str_of_Z (epoch_seconds now') in
  _ <- sdk W (FirestoreSet "tasks" (VStr doc_id) doc false) ;;
  log INFO ("Written to Firestore: " ++ doc_id) ;;;
  last_status <- lift (py_get payload "status" VNone) ;;
  increment <- lift (py_get payload "tasks_processed" (VInt 0)) ;;
  _ <- sdk W (FirestoreSet "coordinators" coordinator_id
                (coordinator_update last_status increment) true) ;;
  ret tt.

(** Lines 27-69, the body of the handler's [try]: a message without [data]
    is logged and dropped. *)
Definition process_message (event : pyval) : M unit :=
  has_data <- lift (py_contains "data" event) ;;
  if (has_data : bool) then
    payload <- lift (decode_message event) ;;
    sync_payload event payload
  else
    log WARNING "No data in Pub/Sub message" ;;;
    ret tt.

(** Lines 17-73. *)
Definition pubsub_to_firestore (event : pyval) (context : handle) : M unit :=
  try_except (process_message event)
    (fun exc =>
       log ERROR ("Error processing Pub/Sub message: " ++ exn_str exc) ;;;
       raise exc).

End Handlers.

(** *** The document store's reading of a write

    What a [set] does to a stored document once the store has accepted it:
    without [merge] the document is replaced by the written fields, with
    [merge] only the written fields change.  A server timestamp becomes the
    store's time and an increment adds to the integer already there (or
    stores its operand when there is none). *)
Definition transform (now : pyval) (old : option pyval) (f : fsvalue) : pyval :=
  match f with
  | FsValue v => v
  | FsServerTimestamp => now
  | FsIncrement v =>
      match old, v with
      | Some (VInt m), VInt n => VInt (m + n)
      | _, _ => v
      end
  end.

Fixpoint write_fields (now : pyval) (data : list (string * fsvalue))
         (doc : list (string * pyval)) : list (string * pyval) :=
  match data with
  | [] => doc
  | (k, f) :: data' =>
      write_fields now data'
        (dict_store k (transform now (dict_lookup k doc) f) doc)
  end.

Definition apply_set (now : pyval) (data : list (string * fsvalue))
           (merge : bool) (doc : list (string * pyval))
  : list (string * pyval) :=
  write_fields now data (if merge then doc else []).

Definition is_FirestoreSet (c : call) : bool :=
  match c with FirestoreSet _ _ _ _ => true | _ => false end.

(** *** The two writes of [sync_payload]

    The calls of lines 55 and 60-69, for a payload and attributes that are
    dicts, when the handler starts after the calls [tr]: the first clock
    reading gives the default [timestamp], the second the document id. *)
Definition task_doc_id (L : pylib) (W : world)
           (payload : list (string * pyval)) (tr : list call) : string :=
  py_str L (dict_get payload "coordinator_id" (VStr "unknown")) ++ "_"
    ++ str_of_Z (epoch_seconds (clock W (tr ++ [UtcNow])%list)).

Definition task_write (L : pylib) (W : world)
           (payload attributes : list (string * pyval)) (tr : list call)
  : call :=
  let coordinator_id := dict_get payload "coordinator_id" (VStr "unknown") in
  let now := clock W tr in
  FirestoreSet "tasks"
    (VStr (task_doc_id L W payload tr))
    (task_doc coordinator_id
       (dict_get payload "status" (VStr "unknown"))
       (dict_get payload "tasks_processed" (VInt 0))
       (dict_get payload "errors" (VList []))
       (dict_get payload "timestamp" (VStr (isoformat now)))
       (dict_get attributes "event_type" (VStr "update"))
       (dict_get attributes "source" (VStr "pubsub")))
    false.

Definition coordinator_write (payload : list (string * pyval)) : call :=
  FirestoreSet "coordinators"
    (dict_get payload "coordinator_id" (VStr "unknown"))
    (coordinator_update (dict_get payload "status" VNone)
       (dict_get payload "tasks_processed" (VInt 0)))
    true.

End CloudFunction.

(** ** src/lambda/index.py *)
Module Index.

Record config : Type := {
  DYNAMODB_TABLE : option string;
  S3_BUCKET : option string;
  SNS_TOPIC_ARN : option string;
  SECRETS_MANAGER_ARN : option string
}.

(** The process state carries the local dict [results] of
    [coordinate_daily_tasks]: it is mutated inside the [try] and read again
    in the [except] clause. *)
Definition frame : Type := list (string * pyval).

Section Handlers.
Variable L : pylib.
Variable W : world.
Variable cfg : config.

Let M := M frame.

(** [SECRETS_MANAGER_ARN.split(':')[-1]]. *)
Definition secret_name_of_arn : result string :=
  match SECRETS_MANAGER_ARN cfg with
  | Some arn => Ok (last (split_on ":" arn) "")
  | None => Raise (attribute_error VNone "split")
  end.

(** Lines 25-43. *)
Definition get_secrets : M pyval :=
  try_except
    (secret_name <- lift secret_name_of_arn ;;
     response <- sdk W (GetSecretValue secret_name) ;;
     has_secret <- lift (py_contains "SecretString" response) ;;
     if (has_secret : bool) then
       secret <- lift (py_getitem response "SecretString") ;;
       lift (py_json_loads L secret)
     else
       log WARNING "Secrets not found in Secrets Manager" ;;;
       ret (VDict []))
    (fun e =>
       log ERROR ("Error retrieving secrets: " ++ exn_str e) ;;;
       ret (VDict [])).

(** [int(datetime.utcnow().timestamp() * 1000)]. *)
Definition epoch_millis (now : datetime) : Z :=
  Z.quot (timestamp_us now) 1000.

(** Lines 46-73. *)
Definition save_state_to_dynamodb (coordinator_id : string) (state : pyval)
  : M bool :=
  try_except
    (table <- sdk_new W (DynamoTable (DYNAMODB_TABLE cfg)) ;;
     now <- utcnow W ;;
     status <- lift (py_get state "status" (VStr "pending")) ;;
     now' <- utcnow W ;;
     let item :=
       [("coordinator_id", VStr coordinator_id);
        ("timestamp", VInt (epoch_millis now));
        ("status", status);
        ("data", VStr (json_dumps L state));
        ("updated_at", VStr (isoformat now'))] in
     _ <- sdk W (PutItem table item) ;;
     log INFO ("State saved for coordinator " ++ coordinator_id) ;;;
     ret true)
    (fun e =>
       log ERROR ("Error saving state to DynamoDB: " ++ exn_str e) ;;;
       ret false).

(** Lines 76-99. *)
Definition upload_cache_to_s3 (key : string) (data : pyval) : M bool :=
  try_except
    (_ <- sdk W (PutObject (S3_BUCKET cfg) key (json_dumps L data)
                   "application/json" "AES256") ;;
     log INFO ("Cache uploaded to S3: " ++ key) ;;;
     ret true)
    (fun e =>
       log ERROR ("Error uploading to S3: " ++ exn_str e) ;;;
       ret false).

(** Lines 102-123. *)
Definition publish_alert (subject message : string) : M bool :=
  try_except
    (_ <- sdk W (SnsPublish (SNS_TOPIC_ARN cfg) subject message) ;;
     log INFO ("Alert published: " ++ subject) ;;;
     ret true)
    (fun e =>
       log ERROR ("Error publishing alert: " ++ exn_str e) ;;;
       ret false).

(** [results['tasks_processed'] += 1]. *)
Definition count_task : M unit :=
  results <- get_globals ;;
  n <- lift (py_getitem (VDict results) "tasks_processed") ;;
  match n with
  | VInt z => set_globals (dict_store "tasks_processed" (VInt (z + 1)) results)
  | VBool b =>
      set_globals (dict_store "tasks_processed"
                     (VInt ((if b then 1 else 0) + 1)) results)
  | _ => raise (Exn TypeError "unsupported operand type(s) for +=")
  end.

(** [results['errors'].append(message)]. *)
Definition record_error (message : string) : M unit :=
  results <- get_globals ;;
  errors <- lift (py_getitem (VDict results) "errors") ;;
  match errors with
  | VList l =>
      set_globals (dict_store "errors" (VList (l ++ [VStr message])) results)
  | _ => raise (attribute_error errors "append")
  end.

(** ["\n".join(results['errors'])]: every item must be a string. *)
Fixpoint str_items (l : list pyval) : result (list string) :=
  match l with
  | [] => Ok []
  | VStr s :: l' => ss <-- str_items l' ;; Ok (s :: ss)
  | v :: _ => Raise (Exn TypeError
                       ("sequence item: expected str instance, "
                          ++ type_name v ++ " found"))
  end.

Definition coordinator_id : string := "daily-coordinator-001".

(** The dict [results], by the fields that vary. *)
Definition results_of (timestamp status : string) (tasks_processed : Z)
           (errors : list pyval) : frame :=
  [("coordinator_id", VStr coordinator_id);
   ("timestamp", VStr timestamp);
   ("status", VStr status);
   ("tasks_processed", VInt tasks_processed);
   ("errors", VList errors)].

Definition initial_results (timestamp : string) : frame :=
  results_of timestamp "success" 0 [].

Definition state_data (status timestamp : string) : pyval :=
  VDict [("status", VStr status);
         ("last_run", VStr timestamp);
         ("tasks_count", VInt 5)].

Definition cache_data (timestamp : string) : pyval :=
  VDict [("timestamp", VStr timestamp);
         ("coordinator_id", VStr coordinator_id);
         ("cache_entries", VInt 10);
         ("status", VStr "cached")].

(** Lines 180-188: the alert that closes a run. *)
Definition publish_outcome (timestamp : string) : M bool :=
  results <- get_globals ;;
  errors <- lift (py_getitem (VDict results) "errors") ;;
  if truthy errors then
    n <- lift (py_len errors) ;;
    items <- lift (l <-- py_iter errors ;; str_items l) ;;
    let alert_message :=
      "Daily Coordinator completed with " ++ str_of_Z n ++ " errors:" ++ nl
        ++ join nl items in
    publish_alert "Daily Coordinator - Partial Success" alert_message
  else
    publish_alert "Daily Coordinator - Success"
      ("Daily coordination completed successfully at " ++ timestamp).

(** Lines 145-190, the body of the [try] of [coordinate_daily_tasks]. *)
Definition run_tasks (timestamp : string) : M pyval :=
  _ <- get_secrets ;;
  log INFO "Secrets retrieved successfully" ;;;
  saved <- save_state_to_dynamodb coordinator_id
             (state_data "running" timestamp) ;;
  (if (saved : bool) then count_task
   else record_error "Failed to save state to DynamoDB") ;;;
  today <- utcnow W ;;
  let cache_key :=
    "cache/" ++ coordinator_id ++ "/" ++ date_str today ++ ".json" in
  uploaded <- upload_cache_to_s3 cache_key (cache_data timestamp) ;;
  (if (uploaded : bool) then count_task
   else record_error "Failed to upload cache to S3") ;;;
  _ <- save_state_to_dynamodb coordinator_id
         (state_data "completed" timestamp) ;;
  _ <- publish_outcome timestamp ;;
  results <- get_globals ;;
  ret (VDict results).

(** Lines 192-197, the [except] clause of [coordinate_daily_tasks]. *)
Definition run_failed (e : exn) : M pyval :=
  log ERROR ("Error in coordinate_daily_tasks: " ++ exn_str e) ;;;
  results <- get_globals ;;
  set_globals (dict_store "status" (VStr "failed") results) ;;;
  record_error (exn_str e) ;;;
  _ <- publish_alert "Daily Coordinator - Failed" ("Error: " ++ exn_str e) ;;
  results' <- get_globals ;;
  ret (VDict results').

(** Lines 126-197. *)
Definition coordinate_daily_tasks : M pyval :=
  now <- utcnow W ;;
  let timestamp := isoformat now in
  set_globals (initial_results timestamp) ;;;
  try_except (run_tasks timestamp) run_failed.

(** Lines 200-229.  The event is a JSON value, so the [json.dumps(event)] of
    the first log line, which stands outside the [try], returns. *)
Definition lambda_handler (event : pyval) (context : handle) : M pyval :=
  log INFO ("Received event: " ++ json_dumps L event) ;;;
  try_except
    (results <- coordinate_daily_tasks ;;
     ret (VDict [("statusCode", VInt 200);
                 ("body", VStr (json_dumps L results))]))
    (fun e =>
       log ERROR ("Lambda handler error: " ++ exn_str e) ;;;
       now <- utcnow W ;;
       ret (VDict [("statusCode", VInt 500);
                   ("body",
                    VStr (json_dumps L
                            (VDict [("error", VStr (exn_str e));
                                    ("timestamp", VStr (isoformat now))])))])).

End Handlers.

(** *** The outcome of the two storage operations

    [saved] is what the first [save_state_to_dynamodb] returned, [uploaded]
    what [upload_cache_to_s3] returned. *)
Definition successes (saved uploaded : bool) : Z :=
  (if saved then 1 else 0) + (if uploaded then 1 else 0).

Definition failures (saved uploaded : bool) : list pyval :=
  ((if saved then [] else [VStr "Failed to save state to DynamoDB"])
     ++ (if uploaded then [] else [VStr "Failed to upload cache to S3"]))%list.

Definition outcome_subject (errors : list pyval) : string :=
  match errors with
  | [] => "Daily Coordinator - Success"
  | _ => "Daily Coordinator - Partial Success"
  end.

End Index.

(** ** src/lambda/slack_poster.py *)
Module SlackPoster.

Record config : Type := {
  SLACK_SECRET_NAME : option string;
  SLACK_SECRET_KEY : string;
  MESSAGE_PREFIX : string
}.

(** The module global [_cached_webhook]. *)
Definition module_globals : Type := option pyval.

(** The summary dict: its four keys are fixed when it is created. *)
Record summary : Type := Summary {
  task : pyval;
  status : pyval;
  details : pyval;
  subject : pyval
}.

Definition summary_dict (s : summary) : pyval :=
  VDict [("task", task s); ("status", status s);
         ("details", details s); ("subject", subject s)].

Section Handlers.
Variable L : pylib.
Variable W : world.
Variable cfg : config.

Let M := M module_globals.

(** [if _cached_webhook]: a value is cached and it is truthy. *)
Definition cached_webhook (g : module_globals) : option pyval :=
  match g with
  | Some w => if truthy w then Some w else None
  | None => None
  end.

(** Lines 45-52: the webhook held by the secret string. *)
Definition webhook_of_secret (secret_string : pyval) : result pyval :=
  match py_json_loads L secret_string with
  | Ok payload =>
      match payload with
      | VDict _ =>
          a <-- py_get payload (SLACK_SECRET_KEY cfg) VNone ;;
          if truthy a then Ok a else py_get payload "webhook_url" VNone
      | _ => Ok VNone
      end
  | Raise e =>
      if is_JSONDecodeError e then Ok secret_string else Raise e
  end.

(** Lines 25-58. *)
Definition _load_webhook_url : M pyval :=
  g <- get_globals ;;
  match cached_webhook g with
  | Some w => ret w
  | None =>
      match env_value (SLACK_SECRET_NAME cfg) with
      | None =>
          raise (Exn ValueError
                   "SLACK_WEBHOOK_SECRET_NAME environment variable is not set")
      | Some secret_name =>
          response <-
            try_except (sdk W (GetSecretValue secret_name))
              (fun exc =>
                 log ERROR ("Unable to load Slack webhook secret: "
                              ++ exn_str exc) ;;;
                 raise exc) ;;
          secret_string <- lift (py_get response "SecretString" VNone) ;;
          if negb (truthy secret_string) then
            raise (Exn ValueError
                     "Slack webhook secret does not contain SecretString data")
          else
            webhook <- lift (webhook_of_secret secret_string) ;;
            if negb (truthy webhook) then
              raise (Exn ValueError
                       "Slack webhook URL not found within the provided secret")
            else
              set_globals (Some webhook) ;;;
              ret webhook
      end
  end.

Definition default_summary : summary :=
  Summary (VStr "Daily Coordinator") (VStr "updated") VNone VNone.

(** Lines 76-90: the summary taken from one notification record. *)
Definition summarize_sns (record : pyval) (s : summary) : result summary :=
  sns_payload <-- py_get record "Sns" (VDict []) ;;
  subject' <-- py_get sns_payload "Subject" VNone ;;
  message <-- py_get sns_payload "Message" VNone ;;
  let s1 := Summary (task s) (status s) message subject' in
  match message with
  | VStr _ =>
      match py_json_loads L message with
      | Ok (VDict decoded) =>
          let get k := dict_get decoded k VNone in
          Ok (Summary
                (py_or (get "task_name") (py_or (get "task") (task s1)))
                (py_or (get "status") (status s1))
                (py_or (get "details") (py_or (get "message") (details s1)))
                (subject s1))
      | Ok _ => Ok s1
      | Raise e => if is_JSONDecodeError e then Ok s1 else Raise e
      end
  | _ => Ok s1
  end.

(** Lines 74-91: the loop stops at the first notification record. *)
Fixpoint scan_records (records : list pyval) (s : summary) : result summary :=
  match records with
  | [] => Ok s
  | record :: rest =>
      source <-- py_get record "EventSource" VNone ;;
      if py_eq_str source "aws:sns" then summarize_sns record s
      else scan_records rest s
  end.

(** Lines 61-102. *)
Definition _extract_summary (event : pyval) : result summary :=
  match event with
  | VDict d =>
      if dict_mem "Records" d then
        records <-- (r <-- py_getitem event "Records" ;; py_iter r) ;;
        scan_records records default_summary
      else
        let get k := dict_get d k VNone in
        Ok (Summary
              (py_or (get "task_name")
                 (py_or (get "task")
                    (py_or (get "coordinator_id") (task default_summary))))
              (py_or (get "status") (status default_summary))
              (py_or (get "details")
                 (py_or (get "message") (details default_summary)))
              (subject default_summary))
  | _ => Ok default_summary
  end.

(** Lines 105-117. *)
Definition _render_message (s : summary) : string :=
  let lines :=
    [MESSAGE_PREFIX cfg;
     "*Task:* " ++ py_str L (task s);
     "*Status:* " ++ py_str L (status s)] in
  let lines :=
    if truthy (subject s)
    then List.app lines ["*Subject:* " ++ py_str L (subject s)] else lines in
  let lines :=
    if truthy (details s)
    then List.app lines ["*Details:* " ++ py_str L (details s)] else lines in
  join nl lines.

End Handlers.

(** *** The summary as the specification words it

    For a direct invocation the specification takes, for each field, the
    first key that is present in the event, whatever its value. *)
Fixpoint first_present (keys : list string) (d : list (string * pyval))
         (default : pyval) : pyval :=
  match keys with
  | [] => default
  | k :: keys' =>
      match dict_lookup k d with
      | Some v => v
      | None => first_present keys' d default
      end
  end.

Definition spec_direct_summary (d : list (string * pyval)) : summary :=
  Summary (first_present ["task_name"; "task"; "coordinator_id"] d
             (VStr "Daily Coordinator"))
          (first_present ["status"] d (VStr "updated"))
          (first_present ["details"; "message"] d VNone)
          VNone.

(** What the code takes instead: the first key whose value is truthy. *)
Fixpoint first_truthy (keys : list string) (d : list (string * pyval))
         (default : pyval) : pyval :=
  match keys with
  | [] => default
  | k :: keys' =>
      match dict_lookup k d with
      | Some v => if truthy v then v else first_truthy keys' d default
      | None => first_truthy keys' d default
      end
  end.

(** The records of an envelope that come before its first notification
    record, and that record. *)
Fixpoint first_sns (records : list pyval) : option pyval :=
  match records with
  | [] => None
  | VDict r :: rest =>
      if py_eq_str (dict_get r "EventSource" VNone) "aws:sns"
      then Some (VDict r)
      else first_sns rest
  | _ :: _ => None
  end.

End SlackPoster.

(** ** src/lambda-whatsapp/whatsapp_sender.py *)
Module WhatsappSender.

Record config : Type := {
  TWILIO_SECRET_NAME : option string;
  WHATSAPP_FROM : string;
  WHATSAPP_TO : option string;
  (* whether [from twilio.rest import Client] succeeded *)
  twilio : bool
}.

(** The module global [_twilio_client]. *)
Definition module_globals : Type := option handle.

Definition sent (recipient : string) (sid : pyval) : pyval :=
  VDict [("recipient", VStr recipient); ("sid", sid); ("status", VStr "sent")].

Definition failed (recipient : string) (error : string) : pyval :=
  VDict [("recipient", VStr recipient); ("error", VStr error);
         ("status", VStr "failed")].

(** Lines 179-180: the recipient in the messaging API's format. *)
Definition whatsapp_format (recipient : string) : string :=
  if startswith "whatsapp:" recipient then recipient
  else "whatsapp:" ++ recipient.

(** Line 173: [[num.strip() for num in WHATSAPP_TO.split(",")]]. *)
Definition recipients_of (whatsapp_to : string) : list string :=
  map strip (split_on "," whatsapp_to).

Section Handlers.
Variable L : pylib.
Variable W : world.
Variable cfg : config.

Let M := M module_globals.

(** Lines 29-63. *)
Definition _get_twilio_client : M handle :=
  cached <- get_globals ;;
  match cached with
  | Some client => ret client
  | None =>
      if negb (twilio cfg) then
        raise (Exn ImportError
                 "twilio library not available. Add to Lambda layer or deployment package.")
      else
        match env_value (TWILIO_SECRET_NAME cfg) with
        | None =>
            raise (Exn ValueError
                     "TWILIO_SECRET_NAME environment variable not set")
        | Some secret_name =>
            try_except
              (response <- sdk W (GetSecretValue secret_name) ;;
               secret_string <- lift (py_get response "SecretString" VNone) ;;
               if negb (truthy secret_string) then
                 raise (Exn ValueError "Twilio credentials not found in secret")
               else
                 creds <- lift (py_json_loads L secret_string) ;;
                 account_sid <- lift (py_get creds "account_sid" VNone) ;;
                 auth_token <- lift (py_get creds "auth_token" VNone) ;;
                 if negb (truthy account_sid) || negb (truthy auth_token) then
                   raise (Exn ValueError
                            "Missing account_sid or auth_token in secret")
                 else
                   client <- sdk_new W (TwilioClient account_sid auth_token) ;;
                   set_globals (Some client) ;;;
                   log INFO "Twilio client initialized" ;;;
                   ret client)
              (fun exc =>
                 log ERROR ("Failed to initialize Twilio client: "
                              ++ exn_str exc) ;;;
                 raise exc)
        end
  end.

(** Lines 75-79: the lookup of the status in the emoji table. *)
Definition status_emoji (status : pyval) : result string :=
  match status with
  | VList _ | VDict _ =>
      Raise (Exn TypeError ("unhashable type: '" ++ type_name status ++ "'"))
  | VStr "success" => Ok "✅"
  | VStr "failed" => Ok "❌"
  | VStr "partial" => Ok "⚠️"
  | _ => Ok "ℹ️"
  end.

(** [status.upper()]. *)
Definition py_upper (status : pyval) : result string :=
  match status with
  | VStr s => Ok (upper s)
  | _ => Raise (attribute_error status "upper")
  end.

(** Lines 66-99. *)
Definition _format_whatsapp_message (event_data : pyval) : result string :=
  coordinator_id <-- py_get event_data "coordinator_id" (VStr "Unknown") ;;
  status <-- py_get event_data "status" (VStr "unknown") ;;
  tasks_processed <-- py_get event_data "tasks_processed" (VInt 0) ;;
  errors <-- py_get event_data "errors" (VList []) ;;
  timestamp <-- py_get event_data "timestamp" (VStr "") ;;
  emoji <-- status_emoji status ;;
  status_upper <-- py_upper status ;;
  let lines :=
    [emoji ++ " *Daily Coordinator Update*";
     "";
     "*ID:* " ++ py_str L coordinator_id;
     "*Status:* " ++ status_upper;
     "*Tasks:* " ++ py_str L tasks_processed] in
  lines <--
    (if truthy errors then
       n <-- py_len errors ;;
       let lines := List.app lines ["*Errors:* " ++ str_of_Z n] in
       if n <=? 3 then
         items <-- py_iter errors ;;
         Ok (List.app lines (map (fun err => "  • " ++ py_str L err) items))
       else Ok lines
     else Ok lines) ;;
  let lines :=
    if truthy timestamp
    then List.app lines ["*Time:* " ++ py_str L timestamp] else lines in
  Ok (join nl lines).

(** Lines 102-129. *)
Definition send_whatsapp_alert (event_data : pyval) (recipient : string)
  : M pyval :=
  try_except
    (client <- _get_twilio_client ;;
     message_body <- lift (_format_whatsapp_message event_data) ;;
     sid <- sdk W (MessagesCreate client (WHATSAPP_FROM cfg) recipient
                     message_body) ;;
     log INFO ("WhatsApp sent to " ++ recipient ++ ", SID: " ++ py_str L sid) ;;;
     ret sid)
    (fun exc =>
       log ERROR ("Failed to send WhatsApp to " ++ recipient ++ ": "
                    ++ exn_str exc) ;;;
       raise exc).

(** Lines 150-157: the event data of the first notification record. *)
Fixpoint scan_records (records : list pyval) : result pyval :=
  match records with
  | [] => Ok VNone
  | record :: rest =>
      source <-- py_get record "EventSource" VNone ;;
      if py_eq_str source "aws:sns" then
        sns <-- py_getitem record "Sns" ;;
        sns_message <-- py_getitem sns "Message" ;;
        match py_json_loads L sns_message with
        | Ok event_data => Ok event_data
        | Raise e =>
            if is_JSONDecodeError e
            then Ok (VDict [("message", sns_message)])
            else Raise e
        end
      else scan_records rest
  end.

(** Lines 147-160: the event data of a notification or direct payload. *)
Definition extract_event_data (event : pyval) : result pyval :=
  wrapped <-- py_contains "Records" event ;;
  if (wrapped : bool) then
    records <-- (r <-- py_getitem event "Records" ;; py_iter r) ;;
    scan_records records
  else Ok event.

(** Lines 177-188: one send per recipient; an exception becomes an entry of
    the result list. *)
Fixpoint send_all (event_data : pyval) (recipients : list string)
         (results : list pyval) : M (list pyval) :=
  match recipients with
  | [] => ret results
  | recipient :: rest =>
      let recipient := whatsapp_format recipient in
      entry <-
        try_except
          (message_sid <- send_whatsapp_alert event_data recipient ;;
           ret (sent recipient message_sid))
          (fun exc => ret (failed recipient (exn_str exc))) ;;
      send_all event_data rest (List.app results [entry])
  end.

(** Lines 132-195.  The first log line prints the event with
    [json.dumps(event, default=str)], which returns on a JSON value. *)
Definition lambda_handler (event : pyval) (context : handle) : M pyval :=
  log INFO ("Received event: " ++ json_dumps L event) ;;;
  event_data <- lift (extract_event_data event) ;;
  if negb (truthy event_data) then
    ret (VDict [("statusCode", VInt 400);
                ("body", VStr (json_dumps L
                                 (VDict [("error", VStr "No event data")])))])
  else
    match env_value (WHATSAPP_TO cfg) with
    | None =>
        log WARNING "WHATSAPP_TO not configured, skipping WhatsApp alerts" ;;;
        ret (VDict [("statusCode", VInt 200);
                    ("body", VStr (json_dumps L
                                     (VDict [("message",
                                              VStr "WhatsApp not configured")])))])
    | Some whatsapp_to =>
        results <- send_all event_data (recipients_of whatsapp_to) [] ;;
        ret (VDict [("statusCode", VInt 200);
                    ("body",
                     VStr (json_dumps L
                             (VDict [("message", VStr "WhatsApp alerts processed");
                                     ("results", VList results)])))])
    end.

(** *** One send per recipient, whatever the earlier ones did

    [deliveries data rs p entries p'] holds when, starting in state [p],
    [send_whatsapp_alert] is run once for every recipient of [rs], in order,
    each run starting where the previous one stopped, and [entries] records
    in the same order what each run returned or raised. *)
Inductive deliveries (event_data : pyval)
  : list string -> proc module_globals -> list pyval -> proc module_globals
    -> Prop :=
| deliveries_done p : deliveries event_data [] p [] p
| deliveries_sent r rs p sid p1 entries p2 :
    send_whatsapp_alert event_data r p = (Ok sid, p1) ->
    deliveries event_data rs p1 entries p2 ->
    deliveries event_data (r :: rs) p (sent r sid :: entries) p2
| deliveries_failed r rs p exc p1 entries p2 :
    send_whatsapp_alert event_data r p = (Raise exc, p1) ->
    deliveries event_data rs p1 entries p2 ->
    deliveries event_data (r :: rs) p (failed r (exn_str exc) :: entries) p2.

(** *** What every send does, down to the calls

    [attempts data rs p entries p'] holds when, starting in state [p], for
    every recipient of [rs] in order the client is taken by
    [_get_twilio_client] (from the module global, or built from the secret),
    the message is formatted, and [messages.create] is called with the
    sender number, the recipient and the message.  The entry of a recipient
    is [sent] with the id the messaging API answered, or [failed] with the
    text of the exception: that of the API, or that of the client or of the
    formatting, in which case the API is not called.  Each outcome is logged
    and the next recipient is attempted from there. *)
Inductive attempts (event_data : pyval)
  : list string -> proc module_globals -> list pyval -> proc module_globals
    -> Prop :=
| attempts_done p : attempts event_data [] p [] p
| attempts_sent r rs p client p1 message_body sid entries p2 :
    _get_twilio_client p = (Ok client, p1) ->
    _format_whatsapp_message event_data = Ok message_body ->
    respond W (trace p1)
      (MessagesCreate client (WHATSAPP_FROM cfg) r message_body) = Ok sid ->
    attempts event_data rs
      (logged (called p1 (MessagesCreate client (WHATSAPP_FROM cfg) r
                            message_body))
              INFO ("WhatsApp sent to " ++ r ++ ", SID: " ++ py_str L sid))
      entries p2 ->
    attempts event_data (r :: rs) p (sent r sid :: entries) p2
| attempts_refused r rs p client p1 message_body exc entries p2 :
    _get_twilio_client p = (Ok client, p1) ->
    _format_whatsapp_message event_data = Ok message_body ->
    respond W (trace p1)
      (MessagesCreate client (WHATSAPP_FROM cfg) r message_body) = Raise exc ->
    attempts event_data rs
      (logged (called p1 (MessagesCreate client (WHATSAPP_FROM cfg) r
                            message_body))
              ERROR ("Failed to send WhatsApp to " ++ r ++ ": " ++ exn_str exc))
      entries p2 ->
    attempts event_data (r :: rs) p (failed r (exn_str exc) :: entries) p2
| attempts_unformatted r rs p client p1 exc entries p2 :
    _get_twilio_client p = (Ok client, p1) ->
    _format_whatsapp_message event_data = Raise exc ->
    attempts event_data rs
      (logged p1 ERROR ("Failed to send WhatsApp to " ++ r ++ ": " ++ exn_str exc))
      entries p2 ->
    attempts event_data (r :: rs) p (failed r (exn_str exc) :: entries) p2
| attempts_no_client r rs p exc p1 entries p2 :
    _get_twilio_client p = (Raise exc, p1) ->
    attempts event_data rs
      (logged p1 ERROR ("Failed to send WhatsApp to " ++ r ++ ": " ++ exn_str exc))
      entries p2 ->
    attempts event_data (r :: rs) p (failed r (exn_str exc) :: entries) p2.

End Handlers.
End WhatsappSender.

(** ** Sample libraries, worlds and settings

    Concrete instances on which the handlers are run in the examples below. *)
Module Samples.

Definition dq : string := String (ascii_of_nat 34) EmptyString.

(** A plain JSON printer (no escaping), enough for the sample values. *)
Fixpoint dumps (v : pyval) : string :=
  match v with
  | VNone => "null"
  | VBool true => "true"
  | VBool false => "false"
  | VInt z => str_of_Z z
  | VStr s => dq ++ s ++ dq
  | VList l => "[" ++ join ", " (map dumps l) ++ "]"
  | VDict d =>
      "{" ++ join ", "
               (map (fun kv => match kv with
                               | (k, x) => dq ++ k ++ dq ++ ": " ++ dumps x
                               end) d)
          ++ "}"
  end.

Definition done_report : pyval :=
  VDict [("task_name", VStr "backup"); ("status", VStr "done");
         ("details", VStr "3 files")].

Definition twilio_creds : pyval :=
  VDict [("account_sid", VStr "AC1"); ("auth_token", VStr "tok")].

(** A reader that knows the texts of a few values. *)
Definition loads (s : string) : option pyval :=
  if String.eqb s "{}" then Some (VDict [])
  else if String.eqb s "[]" then Some (VList [])
  else if String.eqb s (dumps done_report) then Some done_report
  else if String.eqb s (dumps twilio_creds) then Some twilio_creds
  else None.

(** A decoder that knows the encodings of [{}] and [[]]. *)
Definition unbase64 (s : string) : option string :=
  if String.eqb s "e30=" then Some "{}"
  else if String.eqb s "W10=" then Some "[]"
  else None.

Definition lib : pylib :=
  {| json_loads := loads;
     json_dumps := dumps;
     b64decode := unbase64;
     utf8_decode := fun s => Some s;
     py_repr := dumps |}.

Definition new_year : datetime :=
  {| isoformat := "2024-01-01T00:00:00";
     timestamp_us := 1704067200000000;
     date_str := "2024-01-01" |}.

(** Every service is down: each call raises. *)
Definition down : world :=
  {| respond := fun _ _ => Raise (Exn ServiceError "service unavailable");
     construct := fun _ _ => Raise (Exn ServiceError "service unavailable");
     clock := fun _ => new_year |}.

(** Every service answers; the secret store holds [secret]. *)
Definition up (secret : string) : world :=
  {| respond := fun _ c =>
       match c with
       | GetSecretValue _ => Ok (VDict [("SecretString", VStr secret)])
       | _ => Ok (VStr "id-1")
       end;
     construct := fun tr _ => Ok (List.length tr);
     clock := fun _ => new_year |}.

(** The messaging API refuses one recipient and accepts the others. *)
Definition refusing (recipient : string) : world :=
  {| respond := fun _ c =>
       match c with
       | GetSecretValue _ =>
           Ok (VDict [("SecretString", VStr (dumps twilio_creds))])
       | MessagesCreate _ _ to _ =>
           if String.eqb to recipient
           then Raise (Exn ServiceError "invalid number")
           else Ok (VStr "SM1")
       | _ => Ok (VStr "id-1")
       end;
     construct := fun tr _ => Ok (List.length tr);
     clock := fun _ => new_year |}.

(** The key-value table is down, everything else answers. *)
Definition table_down : world :=
  {| respond := fun _ c =>
       match c with
       | PutItem _ _ => Raise (Exn ServiceError "table unavailable")
       | _ => Ok (VStr "id-1")
       end;
     construct := fun tr _ => Ok (List.length tr);
     clock := fun _ => new_year |}.

(** The store accepts the task records and refuses the coordinator
    documents. *)
Definition coordinators_down : world :=
  {| respond := fun _ c =>
       match c with
       | FirestoreSet collection _ _ _ =>
           if String.eqb collection "coordinators"
           then Raise (Exn ServiceError "deadline exceeded")
           else Ok VNone
       | _ => Ok (VStr "id-1")
       end;
     construct := fun tr _ => Ok (List.length tr);
     clock := fun _ => new_year |}.

Definition fresh {G} (g : G) : proc G := Proc g [] [].

Definition pubsub_cfg : GcpPubsub.config :=
  {| GcpPubsub.GCP_PUBSUB_SECRET_NAME := Some "gcp-key";
     GcpPubsub.GCP_PROJECT_ID := Some "proj";
     GcpPubsub.GCP_PUBSUB_TOPIC := "daily-coordinator-events";
     GcpPubsub.pubsub_v1 := true |}.

Definition index_cfg : Index.config :=
  {| Index.DYNAMODB_TABLE := Some "state";
     Index.S3_BUCKET := Some "cache";
     Index.SNS_TOPIC_ARN := Some "arn:aws:sns:eu-west-1:1:alerts";
     Index.SECRETS_MANAGER_ARN := Some "arn:aws:secretsmanager:eu-west-1:1:secret:dc" |}.

Definition slack_cfg : SlackPoster.config :=
  {| SlackPoster.SLACK_SECRET_NAME := Some "slack";
     SlackPoster.SLACK_SECRET_KEY := "slack_webhook_url";
     SlackPoster.MESSAGE_PREFIX := ":information_source: Task updated" |}.

Definition whatsapp_cfg : WhatsappSender.config :=
  {| WhatsappSender.TWILIO_SECRET_NAME := Some "twilio";
     WhatsappSender.WHATSAPP_FROM := "whatsapp:+14155238886";
     WhatsappSender.WHATSAPP_TO := Some "+15550001, whatsapp:+15550002";
     WhatsappSender.twilio := true |}.

(** A handler that answers 200 with an empty JSON object as body. *)
Definition ok_handler : GcpPubsub.lambda_fn :=
  fun _ _ => ret (VDict [("statusCode", VInt 200); ("body", VStr "{}")]).

End Samples.

(** ** Kinds of calls *)

Definition is_GetSecretValue (c : call) : bool :=
  match c with GetSecretValue _ => true | _ => false end.

Definition is_Publish (c : call) : bool :=
  match c with Publish _ _ _ _ => true | _ => false end.

Definition is_PutItem (c : call) : bool :=
  match c with PutItem _ _ => true | _ => false end.

Definition is_PutObject (c : call) : bool :=
  match c with PutObject _ _ _ _ _ => true | _ => false end.

Definition is_SnsPublish (c : call) : bool :=
  match c with SnsPublish _ _ _ => true | _ => false end.

Definition is_MessagesCreate (c : call) : bool :=
  match c with MessagesCreate _ _ _ _ => true | _ => false end.

(** The number of calls of a kind. *)
Definition count (kind : call -> bool) (calls : list call) : nat :=
  List.length (filter kind calls).

(** A bound on the calls of a stretch of a run: at most [secrets] fetches of
    a secret and [items] item writes, exactly [objects] uploads and [alerts]
    alerts. *)
Definition uses (calls : list call) (secrets items objects alerts : nat) : Prop :=
  (count is_GetSecretValue calls <= secrets)%nat
  /\ (count is_PutItem calls <= items)%nat
  /\ count is_PutObject calls = objects
  /\ count is_SnsPublish calls = alerts.

(** ** Code that does not read the log

    Two states of a process that differ only in the lines logged; code is
    blind to the log when, run from two such states, it ends the same way
    (same value or same exception) in two such states. *)
Definition same_run {G} (p q : proc G) : Prop :=
  globals p = globals q /\ trace p = trace q.

Definition log_blind {G A} (m : M G A) : Prop :=
  forall p q, same_run p q ->
              fst (m p) = fst (m q) /\ same_run (snd (m p)) (snd (m q)).

(** ** src/lambda/slack_poster.py, lines 120-170: the webhook post and the
    entry point *)
Module SlackPosterHandler.

(** The settings of lines 17-19, next to those the loader and the renderer
    read. *)
Record config : Type := {
  poster : SlackPoster.config;
  DEFAULT_CHANNEL : string;
  SLACK_USERNAME : string;
  SLACK_ICON_EMOJI : string
}.

(** [urllib.request.Request(webhook_url, data=data, headers=...)] and the
    timeout [urlopen] is given. *)
Record request : Type := Request {
  url : pyval;
  data : string;
  content_type : string;
  timeout : Z
}.

(** What [urlopen] does with a request: it answers with a status, or raises
    an [HTTPError] (with its code and body), a [URLError] (with its reason),
    or something else. *)
Inductive http_answer : Type :=
| Status (status : Z)
| HTTPError (exc : exn) (code : Z) (body : string)
| URLError (exc : exn) (reason : string)
| OtherError (exc : exn).

(** The web as the process meets it: [Request] refuses some URLs when it is
    built, and the answer of [urlopen] may depend on everything done
    before. *)
Record web : Type := {
  new_request : pyval -> result unit;
  urlopen : list call -> list request -> request -> http_answer
}.

(** The exception an answer stands for, if any. *)
Definition exception_of (a : http_answer) : option exn :=
  match a with
  | Status _ => None
  | HTTPError exc _ _ => Some exc
  | URLError exc _ => Some exc
  | OtherError exc => Some exc
  end.

(** The state of the process besides calls and log: the module global
    [_cached_webhook] and the requests sent so far. *)
Record process : Type := Process {
  cached : SlackPoster.module_globals;
  requests : list request
}.

Section Handlers.
Variable L : pylib.
Variable W : world.
Variable Web : web.
Variable cfg : config.

(** Runs code of the loader's module on its global. *)
Definition on_cached {A} (m : M SlackPoster.module_globals A) : M process A :=
  fun p =>
    match m (Proc (cached (globals p)) (trace p) (logs p)) with
    | (r, q) =>
        (r, Proc (Process (globals q) (requests (globals p))) (trace q) (logs q))
    end.

(** [urlopen(request, timeout=5)]: the request goes out and is answered. *)
Definition send (r : request) : M process http_answer :=
  fun p =>
    (Ok (urlopen Web (trace p) (requests (globals p)) r),
     stored p (Process (cached (globals p))
                       (List.app (requests (globals p)) [r]))).

(** Lines 120-138. *)
Definition _post_to_slack (webhook_url : pyval) (payload : pyval)
  : M process unit :=
  let data := json_dumps L payload in
  _ <- lift (new_request Web webhook_url) ;;
  answer <- send (Request webhook_url data "application/json" 5) ;;
  match answer with
  | Status status =>
      log INFO ("Slack response status: " ++ str_of_Z status)
  | HTTPError exc code body =>
      log ERROR ("Slack webhook returned " ++ str_of_Z code ++ ": " ++ body) ;;;
      raise exc
  | URLError exc reason =>
      log ERROR ("Unable to reach Slack webhook: " ++ reason) ;;;
      raise exc
  | OtherError exc => raise exc
  end.

(** Lines 149-158: the body of the post, with the optional settings that are
    not empty. *)
Definition slack_payload (message : string) : pyval :=
  let payload := [("text", VStr message)] in
  let payload :=
    if negb (String.eqb (SLACK_USERNAME cfg) "")
    then dict_store "username" (VStr (SLACK_USERNAME cfg)) payload
    else payload in
  let payload :=
    if negb (String.eqb (SLACK_ICON_EMOJI cfg) "")
    then dict_store "icon_emoji" (VStr (SLACK_ICON_EMOJI cfg)) payload
    else payload in
  let payload :=
    if negb (String.eqb (DEFAULT_CHANNEL cfg) "")
    then dict_store "channel" (VStr (DEFAULT_CHANNEL cfg)) payload
    else payload in
  VDict payload.

Definition notification_sent (s : SlackPoster.summary) : pyval :=
  VDict [("statusCode", VInt 200);
         ("body",
          VStr (json_dumps L
                  (VDict [("message", VStr "Slack notification sent");
                          ("summary", SlackPoster.summary_dict s)])))].

(** Lines 141-170. *)
Definition lambda_handler (event : pyval) (context : handle)
  : M process pyval :=
  log INFO ("Received event: " ++ json_dumps L event) ;;;
  webhook_url <- on_cached (SlackPoster._load_webhook_url L W (poster cfg)) ;;
  summary <- lift (SlackPoster._extract_summary L event) ;;
  let message := SlackPoster._render_message L (poster cfg) summary in
  _post_to_slack webhook_url (slack_payload message) ;;;
  ret (notification_sent summary).

(** The process after a series of invocations: the module global, the calls
    and the log outlive an invocation, so each invocation starts in the
    state the previous one left, whether that one returned or raised. *)
Fixpoint invocations (events : list (pyval * handle)) (p : proc process)
  : proc process :=
  match events with
  | [] => p
  | (event, context) :: rest =>
      invocations rest (snd (lambda_handler event context p))
  end.

End Handlers.
End SlackPosterHandler.

(** ** src/lambda-whatsapp/whatsapp_sender.py: event data that can be
    formatted *)

(** The values [len] accepts. *)
Definition has_len (v : pyval) : bool :=
  match v with
  | VList _ | VDict _ | VStr _ => true
  | _ => false
  end.

(** Event data is a dict, its [status] (when present) is a string, and its
    [errors] (when present and truthy) can be counted. *)
Definition formattable (event_data : pyval) : bool :=
  match event_data with
  | VDict d =>
      isinstance_str (dict_get d "status" (VStr "unknown"))
      && (negb (truthy (dict_get d "errors" (VList [])))
          || has_len (dict_get d "errors" (VList [])))
  | _ => false
  end.

(** ** More sample settings and worlds *)
Module MoreSamples.

Definition slack_handler_cfg : SlackPosterHandler.config :=
  {| SlackPosterHandler.poster := Samples.slack_cfg;
     SlackPosterHandler.DEFAULT_CHANNEL := "";
     SlackPosterHandler.SLACK_USERNAME := "DailyCoordinatorBot";
     SlackPosterHandler.SLACK_ICON_EMOJI := ":spiral_calendar_pad:" |}.

(** The webhook answers 200. *)
Definition web_up : SlackPosterHandler.web :=
  {| SlackPosterHandler.new_request := fun _ => Ok tt;
     SlackPosterHandler.urlopen := fun _ _ _ => SlackPosterHandler.Status 200 |}.

(** The webhook answers 404. *)
Definition web_gone : SlackPosterHandler.web :=
  {| SlackPosterHandler.new_request := fun _ => Ok tt;
     SlackPosterHandler.urlopen := fun _ _ _ =>
       SlackPosterHandler.HTTPError (Exn ServiceError "HTTP Error 404: Not Found")
         404 "no_service" |}.

(** The webhook answers 200, except to the second request of the process,
    which it answers with 404. *)
Definition web_flaky : SlackPosterHandler.web :=
  {| SlackPosterHandler.new_request := fun _ => Ok tt;
     SlackPosterHandler.urlopen := fun _ sent _ =>
       if Nat.eqb (List.length sent) 1
       then SlackPosterHandler.HTTPError
              (Exn ServiceError "HTTP Error 404: Not Found") 404 "no_service"
       else SlackPosterHandler.Status 200 |}.

Definition slack_fresh : proc SlackPosterHandler.process :=
  Proc (SlackPosterHandler.Process None []) [] [].

Definition hook : string := "https://hooks.example/T0".

(** No recipients configured. *)
Definition whatsapp_unset_cfg : WhatsappSender.config :=
  {| WhatsappSender.TWILIO_SECRET_NAME := Some "twilio";
     WhatsappSender.WHATSAPP_FROM := "whatsapp:+14155238886";
     WhatsappSender.WHATSAPP_TO := None;
     WhatsappSender.twilio := true |}.

(** An envelope whose only record comes from the blob store. *)
Definition s3_envelope : pyval :=
  VDict [("Records", VList [VDict [("EventSource", VStr "aws:s3")]])].

(** An envelope with a notification whose message is plain text. *)
Definition text_envelope : list (string * pyval) :=
  [("Records",
    VList [VDict [("EventSource", VStr "aws:sns");
                  ("Sns", VDict [("Subject", VStr "Nightly");
                                 ("Message", VStr "disk full")])]])].

End MoreSamples.

(** * Properties *)

(** ** The monad *)

Lemma bind_ok {G A B} (m : M G A) (k : A -> M G B) p a p' :
  m p = (Ok a, p') -> bind m k p = k a p'.
Proof. intros H. unfold bind. rewrite H. reflexivity. Qed.

Lemma bind_raise {G A B} (m : M G A) (k : A -> M G B) p e p' :
  m p = (Raise e, p') -> bind m k p = (Raise e, p').
Proof. intros H. unfold bind. rewrite H. reflexivity. Qed.

Lemma try_except_ok {G A} (body : M G A) handler p a p' :
  body p = (Ok a, p') -> try_except body handler p = (Ok a, p').
Proof. intros H. unfold try_except. rewrite H. reflexivity. Qed.

Lemma try_except_raise {G A} (body : M G A) handler p e p' :
  body p = (Raise e, p') -> try_except body handler p = handler e p'.
Proof. intros H. unfold try_except. rewrite H. reflexivity. Qed.

(** ** src/lambda/gcp_pubsub.py *)
Section GcpPubsubProperties.
Import GcpPubsub.
Variable L : pylib.
Variable W : world.
Variable cfg : config.

Local Abbreviation wrapper := (lambda_handler_with_pubsub L W cfg).

(** A handler that raises: the wrapper raises the same exception, in the
    state the handler left. *)
Lemma wrapper_propagates (h : lambda_fn) event context p e p1 :
  h event context p = (Raise e, p1) ->
  wrapper h event context p = (Raise e, p1).
Proof.
  intros H. unfold lambda_handler_with_pubsub.
  now rewrite (bind_raise _ _ _ _ _ H).
Qed.

(** A result that is not a 200 response: nothing is decoded, published or
    logged. *)
Lemma wrapper_skips (h : lambda_fn) event context p result p1 :
  h event context p = (Ok result, p1) ->
  is_success_response result = false ->
  wrapper h event context p = (Ok result, p1).
Proof.
  intros H Hno. unfold lambda_handler_with_pubsub.
  rewrite (bind_ok _ _ _ _ _ H), Hno. reflexivity.
Qed.

(** A 200 response: the publish is attempted, and the result comes back
    whether the attempt returned or raised. *)
Lemma wrapper_publishes (h : lambda_fn) event context p result p1 :
  h event context p = (Ok result, p1) ->
  is_success_response result = true ->
  wrapper h event context p =
    (Ok result,
     match republish L W cfg result p1 with
     | (Ok _, p2) => p2
     | (Raise exc, p2) =>
         logged p2 WARNING ("Failed to publish to Pub/Sub: " ++ exn_str exc)
     end).
Proof.
  intros H Hyes. unfold lambda_handler_with_pubsub.
  rewrite (bind_ok _ _ _ _ _ H), Hyes.
  unfold bind, try_except.
  destruct (republish L W cfg result p1) as [[u | exc] p2]; reflexivity.
Qed.

(** C1. Whatever the wrapped handler and the event, the wrapper built by
    [lambda_handler_with_pubsub] ends the way the handler ended: it returns
    the handler's result unchanged (or raises what the handler raised).  It
    decodes and publishes only when that result is a dict whose [statusCode]
    equals 200; otherwise the process state is the one the handler left.
    When the publish attempt raises, the exception is logged as a warning and
    swallowed: the result is still the handler's. *)
Theorem wrapper_returns_handler_result (h : lambda_fn) event context p :
  fst (wrapper h event context p) = fst (h event context p)
  /\ match h event context p with
     | (Raise _, p1) => snd (wrapper h event context p) = p1
     | (Ok result, p1) =>
         if is_success_response result then
           match republish L W cfg result p1 with
           | (Ok _, p2) => snd (wrapper h event context p) = p2
           | (Raise exc, p2) =>
               snd (wrapper h event context p) =
                 logged p2 WARNING ("Failed to publish to Pub/Sub: " ++ exn_str exc)
           end
         else snd (wrapper h event context p) = p1
     end.
Proof.
  destruct (h event context p) as [[result | e] p1] eqn:Hh.
  - destruct (is_success_response result) eqn:Hs.
    + rewrite (wrapper_publishes _ _ _ _ _ _ Hh Hs). split; [reflexivity |].
      destruct (republish L W cfg result p1) as [[u | exc] p2]; reflexivity.
    + rewrite (wrapper_skips _ _ _ _ _ _ Hh Hs). split; reflexivity.
  - rewrite (wrapper_propagates _ _ _ _ _ _ Hh). split; reflexivity.
Qed.

(** The decision to publish, spelled out: a dict with an integer 200 (the
    only value of this model that Python's [==] equates with 200). *)
Lemma is_success_response_spec result :
  is_success_response result = true <->
  exists d, result = VDict d /\ dict_lookup "statusCode" d = Some (VInt 200).
Proof.
  split.
  - destruct result as [| | | | |d]; simpl; try discriminate.
    unfold dict_get.
    destruct (dict_lookup "statusCode" d) as [v|] eqn:Hv; simpl; try discriminate.
    destruct v as [|b|z| | |]; simpl; try discriminate.
    + destruct b; discriminate.
    + intros Hz. apply Z.eqb_eq in Hz. subst. eauto.
  - intros (d & -> & Hd). simpl. unfold dict_get. rewrite Hd. reflexivity.
Qed.

End GcpPubsubProperties.

(** With the secret store down the publish attempt raises; the wrapper logs
    it and returns the handler's response. *)
Example wrapper_swallows_publish_failure :
  GcpPubsub.lambda_handler_with_pubsub Samples.lib Samples.down
    Samples.pubsub_cfg Samples.ok_handler VNone 0%nat (Samples.fresh None)
  = (Ok (VDict [("statusCode", VInt 200); ("body", VStr "{}")]),
     Proc None [GetSecretValue "gcp-key"]
          [(ERROR, "Failed to initialize GCP Pub/Sub client: service unavailable");
           (ERROR, "Failed to publish to Pub/Sub: service unavailable");
           (WARNING, "Failed to publish to Pub/Sub: service unavailable")]).
Proof. reflexivity. Qed.

(** A body that is not JSON never reaches the publisher. *)
Example wrapper_swallows_decode_failure :
  GcpPubsub.lambda_handler_with_pubsub Samples.lib (Samples.up "{}")
    Samples.pubsub_cfg
    (fun _ _ => ret (VDict [("statusCode", VInt 200); ("body", VStr "oops")]))
    VNone 0%nat (Samples.fresh None)
  = (Ok (VDict [("statusCode", VInt 200); ("body", VStr "oops")]),
     Proc None [] [(WARNING, "Failed to publish to Pub/Sub: Expecting value")]).
Proof. reflexivity. Qed.

(** ** src/cloud-function/main.py *)

Lemma dict_lookup_store k k' v d :
  dict_lookup k (dict_store k' v d) =
    if String.eqb k' k then Some v else dict_lookup k d.
Proof.
  induction d as [| [k0 v0] d IH]; simpl.
  - reflexivity.
  - destruct (String.eqb k0 k') eqn:E0; simpl.
    + apply String.eqb_eq in E0. subst k0.
      destruct (String.eqb k' k); reflexivity.
    + rewrite IH. destruct (String.eqb k0 k) eqn:E1; [| reflexivity].
      apply String.eqb_eq in E1. subst k0.
      rewrite String.eqb_sym, E0. reflexivity.
Qed.

Section CloudFunctionProperties.
Import CloudFunction.
Variable L : pylib.
Variable W : world.

Local Abbreviation handler := (pubsub_to_firestore L W).

(** A message whose payload decodes has a [data] field. *)
Lemma decode_message_has_data event payload :
  decode_message L event = Ok payload -> py_contains "data" event = Ok true.
Proof.
  unfold decode_message, py_getitem.
  destruct event as [| | | | |d]; simpl; try discriminate.
  unfold dict_mem. destruct (dict_lookup "data" d); [reflexivity | discriminate].
Qed.

(** What [sync_payload] does, by the answers of the store to its writes. *)
Lemma sync_payload_runs event payload attributes p :
  py_get event "attributes" (VDict []) = Ok (VDict attributes) ->
  let write1 := task_write L W payload attributes (trace p) in
  let write2 := coordinator_write payload in
  let tr1 := (trace p ++ [UtcNow; UtcNow])%list in
  let lg := (logs p ++ [(INFO, ("Written to Firestore: "
                                  ++ task_doc_id L W payload (trace p))%string)])%list in
  sync_payload L W event (VDict payload) p =
    match respond W tr1 write1 with
    | Raise exc => (Raise exc, Proc (globals p) (tr1 ++ [write1])%list (logs p))
    | Ok _ =>
        match respond W (tr1 ++ [write1])%list write2 with
        | Raise exc => (Raise exc, Proc (globals p) (tr1 ++ [write1; write2])%list lg)
        | Ok _ => (Ok tt, Proc (globals p) (tr1 ++ [write1; write2])%list lg)
        end
    end.
Proof.
  intros Hattr. unfold sync_payload.
  unfold bind at 1. unfold lift at 1. rewrite Hattr.
  cbn -[str_of_Z String.append dict_get called logged].
  unfold called, logged. cbn [trace logs globals].
  rewrite <- !app_assoc. reflexivity.
Qed.

(** The handler is its [try] body, except that a raised exception is logged
    on its way out. *)
Lemma handler_is_body event context p :
  handler event context p =
    match process_message L W event p with
    | (Ok u, p1) => (Ok u, p1)
    | (Raise exc, p1) =>
        (Raise exc,
         logged p1 ERROR ("Error processing Pub/Sub message: " ++ exn_str exc))
    end.
Proof.
  unfold pubsub_to_firestore, try_except.
  destruct (process_message L W event p) as [[u | exc] p1]; reflexivity.
Qed.

Lemma process_message_decoded event payload p :
  decode_message L event = Ok payload ->
  process_message L W event p = sync_payload L W event payload p.
Proof.
  intros Hdec. unfold process_message.
  unfold bind at 1. unfold lift at 1.
  rewrite (decode_message_has_data _ _ Hdec).
  unfold bind at 1. unfold lift at 1. rewrite Hdec. reflexivity.
Qed.

(** A field a write does not name keeps its value under [merge]. *)
Lemma write_fields_other now data doc k :
  ~ In k (map fst data) ->
  dict_lookup k (write_fields now data doc) = dict_lookup k doc.
Proof.
  revert doc. induction data as [| [k' f] data IH]; intros doc Hk; simpl.
  - reflexivity.
  - rewrite IH by (intros H; apply Hk; right; exact H).
    rewrite dict_lookup_store.
    destruct (String.eqb k' k) eqn:E; [| reflexivity].
    apply String.eqb_eq in E. subst. exfalso. apply Hk. left. reflexivity.
Qed.

(** C2 (amended). For an event whose payload decodes to a JSON object and
    whose [attributes] are absent or an object, the handler reads the clock
    twice and writes one record to the [tasks] collection, under the document
    id made of the coordinator identifier and the current time in seconds.
    When the store accepts that write, the handler goes on with one merge
    write to the coordinator's document in [coordinators], which sets
    [last_status] and [last_update] and increments [total_tasks] by the
    payload's [tasks_processed] (0 when absent); these are its only calls.
    Applied to a stored document, the merge write leaves every other field
    as it was and adds the increment to an integer [total_tasks]. *)
Theorem pubsub_to_firestore_writes event payload attributes context p r :
  decode_message L event = Ok (VDict payload) ->
  py_get event "attributes" (VDict []) = Ok (VDict attributes) ->
  let write1 := task_write L W payload attributes (trace p) in
  let coordinator_id := dict_get payload "coordinator_id" (VStr "unknown") in
  let increment := dict_get payload "tasks_processed" (VInt 0) in
  let write2 :=
    FirestoreSet "coordinators" coordinator_id
      [("last_status", FsValue (dict_get payload "status" VNone));
       ("last_update", FsServerTimestamp);
       ("total_tasks", FsIncrement increment)] true in
  respond W (trace p ++ [UtcNow; UtcNow])%list write1 = Ok r ->
  (exists doc,
      write1 =
        FirestoreSet "tasks"
          (VStr (py_str L coordinator_id ++ "_"
                   ++ str_of_Z (epoch_seconds (clock W (trace p ++ [UtcNow])%list))))
          doc false)
  /\ trace (snd (handler event context p)) =
       (trace p ++ [UtcNow; UtcNow; write1; write2])%list
  /\ (forall now stored k,
         k <> "last_status" -> k <> "last_update" -> k <> "total_tasks" ->
         dict_lookup k (apply_set now
                          [("last_status", FsValue (dict_get payload "status" VNone));
                           ("last_update", FsServerTimestamp);
                           ("total_tasks", FsIncrement increment)] true stored)
         = dict_lookup k stored)
  /\ (forall now stored m n,
         increment = VInt n ->
         dict_lookup "total_tasks" stored = Some (VInt m) ->
         dict_lookup "total_tasks"
           (apply_set now
              [("last_status", FsValue (dict_get payload "status" VNone));
               ("last_update", FsServerTimestamp);
               ("total_tasks", FsIncrement increment)] true stored)
         = Some (VInt (m + n))).
Proof.
  intros Hdec Hattr write1 coordinator_id increment write2 Hacc.
  split; [| split; [| split]].
  - eexists. reflexivity.
  - rewrite handler_is_body, (process_message_decoded _ _ _ Hdec),
      (sync_payload_runs _ _ _ _ Hattr).
    cbv zeta. fold write1. rewrite Hacc.
    destruct (respond W _ (coordinator_write payload)) as [r2 | exc];
      simpl; rewrite <- app_assoc; reflexivity.
  - intros now stored k H1 H2 H3. unfold apply_set.
    apply write_fields_other. simpl. intros [H | [H | [H | []]]]; congruence.
  - intros now stored m n Hn Hm. unfold apply_set. simpl.
    rewrite !dict_lookup_store. simpl. rewrite Hm, Hn. reflexivity.
Qed.

(** C3. The handler never swallows an exception: it ends exactly as the body
    of its [try] ends, and when the body raises, the handler logs the
    exception and raises that same exception.  In particular an exception
    from decoding the message, from the write to [tasks] or from the merge
    write to [coordinators] comes out of the handler. *)
Theorem pubsub_to_firestore_reraises event context p :
  handler event context p =
    match process_message L W event p with
    | (Ok u, p1) => (Ok u, p1)
    | (Raise exc, p1) =>
        (Raise exc,
         logged p1 ERROR ("Error processing Pub/Sub message: " ++ exn_str exc))
    end
  /\ (forall exc,
         py_contains "data" event = Ok true ->
         decode_message L event = Raise exc ->
         fst (handler event context p) = Raise exc)
  /\ (forall payload attributes exc,
         decode_message L event = Ok (VDict payload) ->
         py_get event "attributes" (VDict []) = Ok (VDict attributes) ->
         respond W (trace p ++ [UtcNow; UtcNow])%list
           (task_write L W payload attributes (trace p)) = Raise exc ->
         fst (handler event context p) = Raise exc)
  /\ (forall payload attributes r exc,
         decode_message L event = Ok (VDict payload) ->
         py_get event "attributes" (VDict []) = Ok (VDict attributes) ->
         respond W (trace p ++ [UtcNow; UtcNow])%list
           (task_write L W payload attributes (trace p)) = Ok r ->
         respond W (trace p ++ [UtcNow; UtcNow;
                                task_write L W payload attributes (trace p)])%list
           (coordinator_write payload) = Raise exc ->
         fst (handler event context p) = Raise exc).
Proof.
  split; [apply handler_is_body | split; [| split]].
  - intros exc Hdata Hdec. rewrite handler_is_body. unfold process_message.
    unfold bind at 1. unfold lift at 1. rewrite Hdata.
    unfold bind at 1. unfold lift at 1. rewrite Hdec. reflexivity.
  - intros payload attributes exc Hdec Hattr Hw.
    rewrite handler_is_body, (process_message_decoded _ _ _ Hdec),
      (sync_payload_runs _ _ _ _ Hattr).
    cbv zeta. rewrite Hw. reflexivity.
  - intros payload attributes r exc Hdec Hattr Hw1 Hw2.
    rewrite handler_is_body, (process_message_decoded _ _ _ Hdec),
      (sync_payload_runs _ _ _ _ Hattr).
    cbv zeta. rewrite Hw1. rewrite <- app_assoc. simpl app.
    rewrite Hw2. reflexivity.
Qed.

End CloudFunctionProperties.

(** The payload [[]] decodes, but it is not an object: the handler raises
    before it writes anything.  When the store refuses the write to [tasks],
    the merge write to [coordinators] is never made.  And with a null
    [attributes] field next to a payload that decodes, nothing is written
    either. *)
Lemma pubsub_to_firestore_may_not_write :
  (CloudFunction.decode_message Samples.lib (VDict [("data", VStr "W10=")])
   = Ok (VList [])
   /\ CloudFunction.pubsub_to_firestore Samples.lib (Samples.up "")
        (VDict [("data", VStr "W10=")]) 0%nat (Samples.fresh tt)
      = (Raise (Exn AttributeError "'list' object has no attribute 'get'"),
         Proc tt []
              [(ERROR, "Error processing Pub/Sub message: 'list' object has no attribute 'get'")]))
  /\ (CloudFunction.decode_message Samples.lib (VDict [("data", VStr "e30=")])
      = Ok (VDict [])
      /\ filter CloudFunction.is_FirestoreSet
           (trace (snd (CloudFunction.pubsub_to_firestore Samples.lib Samples.down
                          (VDict [("data", VStr "e30=")]) 0%nat
                          (Samples.fresh tt))))
         = [CloudFunction.task_write Samples.lib Samples.down [] [] []])
  /\ (CloudFunction.decode_message Samples.lib
        (VDict [("data", VStr "e30="); ("attributes", VNone)])
      = Ok (VDict [])
      /\ CloudFunction.pubsub_to_firestore Samples.lib (Samples.up "")
           (VDict [("data", VStr "e30="); ("attributes", VNone)]) 0%nat
           (Samples.fresh tt)
         = (Raise (Exn AttributeError "'NoneType' object has no attribute 'get'"),
            Proc tt [UtcNow]
                 [(ERROR, "Error processing Pub/Sub message: 'NoneType' object has no attribute 'get'")])).
Proof. repeat split; reflexivity. Qed.

Lemma pubsub_to_firestore_writes_witness :
  trace (snd (CloudFunction.pubsub_to_firestore Samples.lib (Samples.up "")
                (VDict [("data", VStr "e30=")]) 0%nat (Samples.fresh tt)))
  = [UtcNow; UtcNow;
     CloudFunction.task_write Samples.lib (Samples.up "") [] [] [];
     FirestoreSet "coordinators" (VStr "unknown")
       [("last_status", FsValue VNone);
        ("last_update", FsServerTimestamp);
        ("total_tasks", FsIncrement (VInt 0))] true]
  /\ dict_lookup "owner"
       (CloudFunction.apply_set (VStr "now")
          [("last_status", FsValue VNone);
           ("last_update", FsServerTimestamp);
           ("total_tasks", FsIncrement (VInt 0))] true
          [("owner", VStr "ops"); ("total_tasks", VInt 7)])
     = Some (VStr "ops")
  /\ dict_lookup "total_tasks"
       (CloudFunction.apply_set (VStr "now")
          [("last_status", FsValue VNone);
           ("last_update", FsServerTimestamp);
           ("total_tasks", FsIncrement (VInt 0))] true
          [("owner", VStr "ops"); ("total_tasks", VInt 7)])
     = Some (VInt (7 + 0)).
Proof.
  pose proof (pubsub_to_firestore_writes Samples.lib (Samples.up "")
                (VDict [("data", VStr "e30=")]) [] [] 0%nat (Samples.fresh tt)
                (VStr "id-1") eq_refl eq_refl eq_refl) as (_ & Htrace & Hother & Htotal).
  split; [exact Htrace | split].
  - apply (Hother (VStr "now") [("owner", VStr "ops"); ("total_tasks", VInt 7)]
             "owner"); discriminate.
  - apply (Htotal (VStr "now") [("owner", VStr "ops"); ("total_tasks", VInt 7)]
             7 0); reflexivity.
Defined.

Lemma pubsub_to_firestore_reraises_witness :
  fst (CloudFunction.pubsub_to_firestore Samples.lib (Samples.up "")
         (VDict [("data", VStr "!!")]) 0%nat (Samples.fresh tt))
  = Raise (Exn BinasciiError "Incorrect padding")
  /\ fst (CloudFunction.pubsub_to_firestore Samples.lib Samples.down
            (VDict [("data", VStr "e30=")]) 0%nat (Samples.fresh tt))
     = Raise (Exn ServiceError "service unavailable")
  /\ fst (CloudFunction.pubsub_to_firestore Samples.lib Samples.coordinators_down
            (VDict [("data", VStr "e30=")]) 0%nat (Samples.fresh tt))
     = Raise (Exn ServiceError "deadline exceeded").
Proof.
  split; [| split].
  - apply (proj1 (proj2
             (pubsub_to_firestore_reraises Samples.lib (Samples.up "")
                (VDict [("data", VStr "!!")]) 0%nat (Samples.fresh tt))));
      reflexivity.
  - apply (proj1 (proj2 (proj2
             (pubsub_to_firestore_reraises Samples.lib Samples.down
                (VDict [("data", VStr "e30=")]) 0%nat (Samples.fresh tt))))
             [] []); reflexivity.
  - apply (proj2 (proj2 (proj2
             (pubsub_to_firestore_reraises Samples.lib Samples.coordinators_down
                (VDict [("data", VStr "e30=")]) 0%nat (Samples.fresh tt))))
             [] [] VNone); reflexivity.
Defined.

(** ** src/lambda/slack_poster.py *)
Section SlackPosterProperties.
Import SlackPoster.
Variable L : pylib.
Variable W : world.
Variable cfg : config.

Local Abbreviation load := (_load_webhook_url L W cfg).

(** With a truthy webhook in the module global, the loader returns it and
    leaves the process as it is. *)
Lemma load_cached p w :
  cached_webhook (globals p) = Some w -> load p = (Ok w, p).
Proof.
  intros H. unfold _load_webhook_url, bind, get_globals. rewrite H. reflexivity.
Qed.

(** A successful load leaves its webhook in the module global, and has asked
    the secret store at most once. *)
Lemma load_caches p w p1 :
  load p = (Ok w, p1) ->
  cached_webhook (globals p1) = Some w
  /\ (trace p1 = trace p
      \/ exists name, trace p1 = (trace p ++ [GetSecretValue name])%list).
Proof.
  unfold _load_webhook_url, bind, get_globals, try_except, sdk, lift,
    raise, log, ret, set_globals.
  destruct (cached_webhook (globals p)) as [w0 |] eqn:Hc.
  - intros H. inversion H; subst.
    split; [exact Hc | left; reflexivity].
  - destruct (env_value (SLACK_SECRET_NAME cfg)) as [name |];
      [| discriminate].
    match goal with
    | |- context [respond W ?t ?c] =>
        destruct (respond W t c) as [response | exc]; [| discriminate]
    end.
    destruct (py_get response "SecretString" VNone) as [secret | exc];
      [| discriminate].
    destruct (truthy secret); simpl; [| discriminate].
    destruct (webhook_of_secret L cfg secret) as [webhook | exc];
      [| discriminate].
    destruct (truthy webhook) eqn:Ht; simpl; [| discriminate].
    intros H. inversion H; subst. simpl. rewrite Ht.
    split; [reflexivity | right; eauto].
Qed.

(** C4. After one successful call of [_load_webhook_url], every later call
    (in any state of the process that still holds the module global that call
    left) returns the same webhook and changes nothing: no call to the secret
    store, no log line.  The successful call itself asked the secret store at
    most once. *)
Theorem load_webhook_url_once p w p1 :
  _load_webhook_url L W cfg p = (Ok w, p1) ->
  (trace p1 = trace p
   \/ exists name, trace p1 = (trace p ++ [GetSecretValue name])%list)
  /\ forall p2, globals p2 = globals p1 ->
                _load_webhook_url L W cfg p2 = (Ok w, p2).
Proof.
  intros H. destruct (load_caches _ _ _ H) as [Hc Ht].
  split; [exact Ht |].
  intros p2 Hg. apply load_cached. rewrite Hg. exact Hc.
Qed.

End SlackPosterProperties.

Lemma load_webhook_url_once_witness :
  SlackPoster._load_webhook_url Samples.lib (Samples.up "https://hooks.example/T0")
    Samples.slack_cfg
    (Proc (Some (VStr "https://hooks.example/T0"))
          [GetSecretValue "slack"; UtcNow] [(INFO, "posted")])
  = (Ok (VStr "https://hooks.example/T0"),
     Proc (Some (VStr "https://hooks.example/T0"))
          [GetSecretValue "slack"; UtcNow] [(INFO, "posted")]).
Proof.
  apply (load_webhook_url_once Samples.lib (Samples.up "https://hooks.example/T0")
           Samples.slack_cfg (Samples.fresh None)
           (VStr "https://hooks.example/T0")
           (Proc (Some (VStr "https://hooks.example/T0"))
                 [GetSecretValue "slack"] [])); reflexivity.
Defined.

Section SummaryProperties.
Import SlackPoster.
Variable L : pylib.

(** The chain of [or] over [.get] calls picks the first truthy value. *)
Lemma or_chain_first_truthy d k rest default :
  py_or (dict_get d k VNone) (first_truthy rest d default)
  = first_truthy (k :: rest) d default.
Proof.
  unfold py_or, dict_get. simpl.
  destruct (dict_lookup k d) as [v |]; reflexivity.
Qed.

(** Where every value held under the keys is truthy, the first truthy key is
    the first present key. *)
Lemma first_truthy_present keys d default :
  (forall k v, In k keys -> dict_lookup k d = Some v -> truthy v = true) ->
  first_truthy keys d default = first_present keys d default.
Proof.
  induction keys as [| k keys IH]; intros H; simpl.
  - reflexivity.
  - destruct (dict_lookup k d) as [v |] eqn:Hk.
    + rewrite (H k v (or_introl eq_refl) Hk). reflexivity.
    + apply IH. intros k' v' Hin. apply H. right. exact Hin.
Qed.

(** The loop over the records stops at the first notification record. *)
Lemma scan_records_first_sns records r s :
  first_sns records = Some r ->
  scan_records L records s = summarize_sns L r s.
Proof.
  induction records as [| record rest IH]; simpl; [discriminate |].
  destruct record as [| | | | | rd]; try discriminate. simpl.
  destruct (py_eq_str (dict_get rd "EventSource" VNone) "aws:sns").
  - intros H. inversion H. reflexivity.
  - exact IH.
Qed.

(** An envelope without any notification record keeps the default summary. *)
Lemma scan_records_no_sns records s :
  Forall (fun record =>
            exists rd, record = VDict rd
                       /\ py_eq_str (dict_get rd "EventSource" VNone) "aws:sns"
                          = false) records ->
  scan_records L records s = Ok s.
Proof.
  induction 1 as [| record rest (rd & -> & Hsrc) _ IH]; simpl.
  - reflexivity.
  - rewrite Hsrc. exact IH.
Qed.

(** C5 (amended). For a direct invocation (a dict without [Records]) each
    field of the summary is the first truthy value among its keys -- a key
    that is present with an empty, zero, false or null value is passed over
    -- and the default otherwise: [task] from [task_name], [task],
    [coordinator_id], else "Daily Coordinator"; [status] from [status], else
    "updated"; [details] from [details], [message], else absent; on events
    whose values under these keys are all truthy this is the first present
    key.  For an envelope, the subject and the message come from the first
    record whose source is the notification service; the message is the
    details, unless it is a string that decodes to a JSON object, whose
    truthy [task_name] or [task], [status], and [details] or [message] then
    override task, status and details. *)
Theorem extract_summary_fields d :
  (dict_mem "Records" d = false ->
   _extract_summary L (VDict d) =
     Ok (Summary
           (first_truthy ["task_name"; "task"; "coordinator_id"] d
              (VStr "Daily Coordinator"))
           (first_truthy ["status"] d (VStr "updated"))
           (first_truthy ["details"; "message"] d VNone)
           VNone))
  /\ (dict_mem "Records" d = false ->
      (forall k v, dict_lookup k d = Some v -> truthy v = true) ->
      _extract_summary L (VDict d) = Ok (spec_direct_summary d))
  /\ (forall records r sns,
         dict_lookup "Records" d = Some (VList records) ->
         first_sns records = Some (VDict r) ->
         py_get (VDict r) "Sns" (VDict []) = Ok (VDict sns) ->
         let subject := dict_get sns "Subject" VNone in
         let message := dict_get sns "Message" VNone in
         let plain :=
           Summary (VStr "Daily Coordinator") (VStr "updated") message subject in
         _extract_summary L (VDict d) =
           Ok (match message with
               | VStr m =>
                   match json_loads L m with
                   | Some (VDict decoded) =>
                       Summary
                         (first_truthy ["task_name"; "task"] decoded
                            (VStr "Daily Coordinator"))
                         (first_truthy ["status"] decoded (VStr "updated"))
                         (first_truthy ["details"; "message"] decoded message)
                         subject
                   | _ => plain
                   end
               | _ => plain
               end)).
Proof.
  assert (Hdirect : dict_mem "Records" d = false ->
   _extract_summary L (VDict d) =
     Ok (Summary
           (first_truthy ["task_name"; "task"; "coordinator_id"] d
              (VStr "Daily Coordinator"))
           (first_truthy ["status"] d (VStr "updated"))
           (first_truthy ["details"; "message"] d VNone)
           VNone)).
  { intros Hno. unfold _extract_summary. rewrite Hno. 
    rewrite <- (or_chain_first_truthy d "task_name"),
      <- (or_chain_first_truthy d "task"),
      <- (or_chain_first_truthy d "coordinator_id"),
      <- (or_chain_first_truthy d "status"),
      <- (or_chain_first_truthy d "details"),
      <- (or_chain_first_truthy d "message").
    reflexivity. }
  split; [exact Hdirect | split].
  - intros Hno Htruthy. rewrite (Hdirect Hno). unfold spec_direct_summary.
    rewrite !first_truthy_present by (intros k v _; apply Htruthy).
    reflexivity.
  - intros records r sns Hrecs Hfirst Hsns subject message plain.
    unfold _extract_summary, dict_mem. rewrite Hrecs.
    unfold py_getitem. rewrite Hrecs. simpl rbind.
    rewrite (scan_records_first_sns _ _ _ Hfirst).
    unfold summarize_sns. rewrite Hsns. simpl rbind.
    fold subject. fold message. cbn -[first_truthy py_or dict_get].
    destruct message as [| | | m | |]; try reflexivity.
    unfold py_json_loads.
    destruct (json_loads L m) as [[| | | | | decoded] |]; try reflexivity.
    rewrite <- (or_chain_first_truthy decoded "task_name"),
      <- (or_chain_first_truthy decoded "task"),
      <- (or_chain_first_truthy decoded "status"),
      <- (or_chain_first_truthy decoded "details"),
      <- (or_chain_first_truthy decoded "message").
    reflexivity.
Qed.

End SummaryProperties.

(** An event whose [task_name] is present but empty: the specification's
    wording gives the empty task name, the code gives the task. *)
Lemma extract_summary_passes_over_empty :
  dict_mem "Records" [("task_name", VStr ""); ("task", VStr "backup")] = false
  /\ SlackPoster.task
       (SlackPoster.spec_direct_summary
          [("task_name", VStr ""); ("task", VStr "backup")]) = VStr ""
  /\ SlackPoster._extract_summary Samples.lib
       (VDict [("task_name", VStr ""); ("task", VStr "backup")])
     = Ok (SlackPoster.Summary (VStr "backup") (VStr "updated") VNone VNone)
  /\ SlackPoster._extract_summary Samples.lib
       (VDict [("task_name", VStr ""); ("task", VStr "backup")])
     <> Ok (SlackPoster.spec_direct_summary
              [("task_name", VStr ""); ("task", VStr "backup")]).
Proof. repeat split; try reflexivity. discriminate. Qed.

Lemma extract_summary_fields_witness :
  SlackPoster._extract_summary Samples.lib
    (VDict [("task_name", VStr ""); ("task", VStr "backup");
            ("status", VStr "done")])
  = Ok (SlackPoster.Summary (VStr "backup") (VStr "done") VNone VNone)
  /\ SlackPoster._extract_summary Samples.lib
       (VDict [("coordinator_id", VStr "dc-1"); ("message", VStr "all good")])
     = Ok (SlackPoster.spec_direct_summary
             [("coordinator_id", VStr "dc-1"); ("message", VStr "all good")])
  /\ SlackPoster._extract_summary Samples.lib
       (VDict [("Records",
                VList [VDict [("EventSource", VStr "aws:s3")];
                       VDict [("EventSource", VStr "aws:sns");
                              ("Sns",
                               VDict [("Subject", VStr "Nightly");
                                      ("Message",
                                       VStr (Samples.dumps Samples.done_report))])]])])
     = Ok (SlackPoster.Summary (VStr "backup") (VStr "done") (VStr "3 files")
             (VStr "Nightly")).
Proof.
  split; [| split].
  - apply (proj1 (extract_summary_fields Samples.lib
                    [("task_name", VStr ""); ("task", VStr "backup");
                     ("status", VStr "done")])).
    reflexivity.
  - apply (proj1 (proj2 (extract_summary_fields Samples.lib
                           [("coordinator_id", VStr "dc-1");
                            ("message", VStr "all good")]))).
    + reflexivity.
    + intros k v. cbn -[String.eqb].
      destruct (String.eqb "coordinator_id" k);
        [intros H; inversion H; reflexivity |].
      destruct (String.eqb "message" k);
        [intros H; inversion H; reflexivity | discriminate].
  - apply (proj2 (proj2 (extract_summary_fields Samples.lib
             [("Records",
               VList [VDict [("EventSource", VStr "aws:s3")];
                      VDict [("EventSource", VStr "aws:sns");
                             ("Sns",
                              VDict [("Subject", VStr "Nightly");
                                     ("Message",
                                      VStr (Samples.dumps Samples.done_report))])]])]))
             [VDict [("EventSource", VStr "aws:s3")];
              VDict [("EventSource", VStr "aws:sns");
                     ("Sns",
                      VDict [("Subject", VStr "Nightly");
                             ("Message",
                              VStr (Samples.dumps Samples.done_report))])]]
             [("EventSource", VStr "aws:sns");
              ("Sns",
               VDict [("Subject", VStr "Nightly");
                      ("Message", VStr (Samples.dumps Samples.done_report))])]
             [("Subject", VStr "Nightly");
              ("Message", VStr (Samples.dumps Samples.done_report))]);
      reflexivity.
Defined.

(** ** src/lambda-whatsapp/whatsapp_sender.py *)
Section WhatsappSenderProperties.
Import WhatsappSender.
Variable L : pylib.
Variable W : world.
Variable cfg : config.

Local Abbreviation send := (send_whatsapp_alert L W cfg).
Local Abbreviation delivered := (deliveries L W cfg).

(** The response of the handler once the sends are done. *)
Local Abbreviation processed entries :=
  (VDict [("statusCode", VInt 200);
          ("body",
           VStr (json_dumps L
                   (VDict [("message", VStr "WhatsApp alerts processed");
                           ("results", VList entries)])))]).

(** With a client in the module global, no secret is fetched. *)
Lemma get_twilio_client_cached p client :
  globals p = Some client ->
  _get_twilio_client L W cfg p = (Ok client, p).
Proof.
  intros H. unfold _get_twilio_client, bind, get_globals. rewrite H. reflexivity.
Qed.

(** The messaging client is cached the same way as the webhook: after one
    successful call, later calls return the same client and change nothing. *)
Lemma get_twilio_client_once p client p1 :
  _get_twilio_client L W cfg p = (Ok client, p1) ->
  forall p2, globals p2 = globals p1 ->
             _get_twilio_client L W cfg p2 = (Ok client, p2).
Proof.
  intros H p2 Hg. apply get_twilio_client_cached.
  transitivity (globals p1); [exact Hg |]. clear p2 Hg. revert H.
  unfold _get_twilio_client, bind, get_globals, try_except, sdk, sdk_new, lift,
    raise, log, ret, set_globals.
  destruct p as [[cached |] tr lg]; cbn [globals trace logs].
  - intros H. inversion H; subst. reflexivity.
  - destruct (twilio cfg); cbn [negb]; [| discriminate].
    destruct (env_value (TWILIO_SECRET_NAME cfg)) as [name |]; [| discriminate].
    match goal with
    | |- context [respond W ?t ?c] =>
        destruct (respond W t c) as [response | exc]; [| discriminate]
    end.
    destruct (py_get response "SecretString" VNone) as [secret | exc];
      [| discriminate].
    destruct (truthy secret); cbn [negb]; [| discriminate].
    destruct (py_json_loads L secret) as [creds | exc]; [| discriminate].
    destruct (py_get creds "account_sid" VNone) as [sid | exc]; [| discriminate].
    destruct (py_get creds "auth_token" VNone) as [token | exc]; [| discriminate].
    destruct (negb (truthy sid) || negb (truthy token)); [discriminate |].
    match goal with
    | |- context [construct W ?t ?c] =>
        destruct (construct W t c) as [made | exc]; [| discriminate]
    end.
    intros H. inversion H; subst. reflexivity.
Qed.

(** The loop never raises: it runs one send per recipient and appends one
    entry per send. *)
Lemma send_all_delivers event_data recipients :
  forall results p,
  exists entries p',
    send_all L W cfg event_data recipients results p
    = (Ok (results ++ entries)%list, p')
    /\ delivered event_data (map whatsapp_format recipients) p entries p'.
Proof.
  induction recipients as [| r rest IH]; intros results p.
  - exists [], p. simpl. rewrite app_nil_r. split; [reflexivity | constructor].
  - simpl send_all. unfold bind at 1, try_except, bind at 1.
    destruct (send event_data (whatsapp_format r) p) as [[sid | exc] p1] eqn:Hs.
    + unfold ret at 1.
      destruct (IH (results ++ [sent (whatsapp_format r) sid])%list p1)
        as (entries & p' & Hrun & Hdel).
      exists (sent (whatsapp_format r) sid :: entries), p'.
      rewrite Hrun, <- app_assoc. split; [reflexivity |].
      simpl map. eapply deliveries_sent; eassumption.
    + unfold ret at 1.
      destruct (IH (results ++ [failed (whatsapp_format r) (exn_str exc)])%list p1)
        as (entries & p' & Hrun & Hdel).
      exists (failed (whatsapp_format r) (exn_str exc) :: entries), p'.
      rewrite Hrun, <- app_assoc. split; [reflexivity |].
      simpl map. eapply deliveries_failed; eassumption.
Qed.

Lemma deliveries_length event_data recipients p entries p' :
  delivered event_data recipients p entries p' ->
  List.length entries = List.length recipients.
Proof. induction 1; simpl; congruence. Qed.

(** With event data and recipients, the handler is its send loop. *)
Lemma lambda_handler_runs event context p event_data whatsapp_to :
  extract_event_data L event = Ok event_data ->
  truthy event_data = true ->
  env_value (WHATSAPP_TO cfg) = Some whatsapp_to ->
  exists entries p',
    lambda_handler L W cfg event context p = (Ok (processed entries), p')
    /\ delivered event_data (map whatsapp_format (recipients_of whatsapp_to))
         (logged p INFO ("Received event: " ++ json_dumps L event))
         entries p'.
Proof.
  intros Hdata Htruthy Hto. unfold lambda_handler.
  unfold bind at 1, log at 1. unfold bind at 1, lift at 1. rewrite Hdata, Htruthy, Hto.
  simpl negb. cbv iota.
  destruct (send_all_delivers event_data (recipients_of whatsapp_to) []
              (logged p INFO ("Received event: " ++ json_dumps L event)))
    as (entries & p' & Hrun & Hdel).
  exists entries, p'. split; [| exact Hdel].
  unfold bind. cbn [negb]. rewrite Hrun. reflexivity.
Qed.

(** One send, step by step: the client, the message, the call, and what is
    logged and returned or raised. *)
Lemma send_whatsapp_alert_runs event_data r p :
  send_whatsapp_alert L W cfg event_data r p =
    match _get_twilio_client L W cfg p with
    | (Raise exc, p1) =>
        (Raise exc,
         logged p1 ERROR ("Failed to send WhatsApp to " ++ r ++ ": " ++ exn_str exc))
    | (Ok client, p1) =>
        match _format_whatsapp_message L event_data with
        | Raise exc =>
            (Raise exc,
             logged p1 ERROR
               ("Failed to send WhatsApp to " ++ r ++ ": " ++ exn_str exc))
        | Ok message_body =>
            let c := MessagesCreate client (WHATSAPP_FROM cfg) r message_body in
            match respond W (trace p1) c with
            | Ok sid =>
                (Ok sid,
                 logged (called p1 c) INFO
                   ("WhatsApp sent to " ++ r ++ ", SID: " ++ py_str L sid))
            | Raise exc =>
                (Raise exc,
                 logged (called p1 c) ERROR
                   ("Failed to send WhatsApp to " ++ r ++ ": " ++ exn_str exc))
            end
        end
    end.
Proof.
  unfold send_whatsapp_alert. unfold try_except, bind at 1.
  destruct (_get_twilio_client L W cfg p) as [[client | exc] p1];
    [| reflexivity].
  unfold bind at 1, lift at 1.
  destruct (_format_whatsapp_message L event_data) as [message_body | exc];
    [| reflexivity].
  unfold bind at 1, sdk at 1. cbv zeta.
  match goal with
  | |- context [respond W ?t ?c] => destruct (respond W t c)
  end; reflexivity.
Qed.

(** The runs of [send_whatsapp_alert], read down to the calls. *)
Lemma deliveries_attempts event_data recipients p entries p' :
  delivered event_data recipients p entries p' ->
  attempts L W cfg event_data recipients p entries p'.
Proof.
  induction 1 as [q | r rs q sid q1 es q2 Hs _ IH
                    | r rs q exc q1 es q2 Hs _ IH].
  - constructor.
  - rewrite send_whatsapp_alert_runs in Hs.
    destruct (_get_twilio_client L W cfg q) as [[client | e] q0] eqn:Hc;
      [| discriminate].
    destruct (_format_whatsapp_message L event_data) as [body | e] eqn:Hf;
      [| discriminate].
    cbv zeta in Hs.
    destruct (respond W (trace q0) (MessagesCreate client (WHATSAPP_FROM cfg) r body))
      as [sid' | e] eqn:Hr; [| discriminate].
    inversion Hs; subst. eapply attempts_sent; eassumption.
  - rewrite send_whatsapp_alert_runs in Hs.
    destruct (_get_twilio_client L W cfg q) as [[client | e] q0] eqn:Hc.
    + destruct (_format_whatsapp_message L event_data) as [body | e] eqn:Hf.
      * cbv zeta in Hs.
        destruct (respond W (trace q0)
                    (MessagesCreate client (WHATSAPP_FROM cfg) r body))
          as [sid' | e] eqn:Hr; [discriminate |].
        inversion Hs; subst. eapply attempts_refused; eassumption.
      * inversion Hs; subst. eapply attempts_unformatted; eassumption.
    + inversion Hs; subst. eapply attempts_no_client; eassumption.
Qed.

(** A client that is returned is the one in the module global. *)
Lemma get_twilio_client_caches p client p1 :
  _get_twilio_client L W cfg p = (Ok client, p1) -> globals p1 = Some client.
Proof.
  unfold _get_twilio_client, bind, get_globals, try_except, sdk, sdk_new, lift,
    raise, log, ret, set_globals.
  destruct p as [[cached |] tr lg]; cbn [globals trace logs].
  - intros H. inversion H; subst. reflexivity.
  - destruct (twilio cfg); cbn [negb]; [| discriminate].
    destruct (env_value (TWILIO_SECRET_NAME cfg)) as [name |]; [| discriminate].
    match goal with
    | |- context [respond W ?t ?c] =>
        destruct (respond W t c) as [response | exc]; [| discriminate]
    end.
    destruct (py_get response "SecretString" VNone) as [secret | exc];
      [| discriminate].
    destruct (truthy secret); cbn [negb]; [| discriminate].
    destruct (py_json_loads L secret) as [creds | exc]; [| discriminate].
    destruct (py_get creds "account_sid" VNone) as [sid | exc]; [| discriminate].
    destruct (py_get creds "auth_token" VNone) as [token | exc]; [| discriminate].
    destruct (negb (truthy sid) || negb (truthy token)); [discriminate |].
    match goal with
    | |- context [construct W ?t ?c] =>
        destruct (construct W t c) as [made | exc]; [| discriminate]
    end.
    intros H. inversion H; subst. reflexivity.
Qed.

(** With the client in the module global and a message that formats, the
    attempts make one call to the messaging API per recipient, in order, and
    no other call. *)
Lemma attempts_calls event_data recipients p entries p' client message_body :
  attempts L W cfg event_data recipients p entries p' ->
  globals p = Some client ->
  _format_whatsapp_message L event_data = Ok message_body ->
  trace p'
  = (trace p
       ++ map (fun r => MessagesCreate client (WHATSAPP_FROM cfg) r message_body)
              recipients)%list.
Proof.
  intros Hatt. revert client message_body.
  induction Hatt as [q | r rs q cl q1 body sid es q2 Hc Hf Hr _ IH
                       | r rs q cl q1 body exc es q2 Hc Hf Hr _ IH
                       | r rs q cl q1 exc es q2 Hc Hf _ IH
                       | r rs q exc q1 es q2 Hc _ IH];
    intros client message_body Hg Hfmt.
  - simpl. symmetry. apply app_nil_r.
  - rewrite (get_twilio_client_cached q client Hg) in Hc.
    inversion Hc; subst. rewrite Hfmt in Hf. inversion Hf; subst.
    rewrite (IH _ _ Hg Hfmt). cbn [trace logged called map].
    rewrite <- app_assoc. reflexivity.
  - rewrite (get_twilio_client_cached q client Hg) in Hc.
    inversion Hc; subst. rewrite Hfmt in Hf. inversion Hf; subst.
    rewrite (IH _ _ Hg Hfmt). cbn [trace logged called map].
    rewrite <- app_assoc. reflexivity.
  - congruence.
  - rewrite (get_twilio_client_cached q client Hg) in Hc. discriminate.
Qed.

(** The attempts are determined by the recipients and the starting state. *)
Lemma attempts_functional event_data recipients p entries p' :
  attempts L W cfg event_data recipients p entries p' ->
  forall entries2 p2,
    attempts L W cfg event_data recipients p entries2 p2 ->
    entries2 = entries /\ p2 = p'.
Proof.
  induction 1 as [q | r rs q cl q1 body sid es q2 Hc Hf Hr _ IH
                    | r rs q cl q1 body exc es q2 Hc Hf Hr _ IH
                    | r rs q cl q1 exc es q2 Hc Hf _ IH
                    | r rs q exc q1 es q2 Hc _ IH];
    intros entries2 p2 H2; inversion H2; subst;
    repeat match goal with
           | Ha : ?x = _, Hb : ?x = _ |- _ =>
               rewrite Ha in Hb; inversion Hb; subst; clear Hb
           end;
    try (split; reflexivity);
    match goal with
    | Hrest : attempts _ _ _ _ _ _ ?es2 ?q2' |- _ =>
        destruct (IH _ _ Hrest) as [-> ->]; split; reflexivity
    end.
Qed.

(** The list of recipients is never empty. *)
Lemma recipients_of_cons whatsapp_to :
  exists r rs, recipients_of whatsapp_to = r :: rs.
Proof.
  unfold recipients_of.
  destruct whatsapp_to as [| c s]; simpl; [eauto |].
  destruct (Ascii.eqb c ","); simpl; [eauto |].
  destruct (split_on "," s); simpl; eauto.
Qed.


(** When every send raises, every entry is a failure. *)
Lemma deliveries_all_failed event_data recipients p entries p' :
  delivered event_data recipients p entries p' ->
  (forall r q, exists exc q', send event_data r q = (Raise exc, q')) ->
  Forall2 (fun r entry => exists exc, entry = failed r (exn_str exc))
          recipients entries.
Proof.
  intros Hdel Hall. induction Hdel as [q | r rs q sid q1 es q2 Hs _ IH
                                         | r rs q exc q1 es q2 Hs _ IH].
  - constructor.
  - destruct (Hall r q) as (exc & q' & Hr). congruence.
  - constructor; [eauto | exact IH].
Qed.


End WhatsappSenderProperties.

Example recipients_of_list :
  WhatsappSender.recipients_of " +15550001 ,whatsapp:+15550002,, x "
  = ["+15550001"; "whatsapp:+15550002"; ""; "x"].
Proof. reflexivity. Qed.

Example whatsapp_format_prefixes :
  map WhatsappSender.whatsapp_format ["+15550001"; "whatsapp:+15550002"; ""]
  = ["whatsapp:+15550001"; "whatsapp:+15550002"; "whatsapp:"].
Proof. reflexivity. Qed.

(** The messaging API refuses the first recipient: the second one still gets
    its message. *)
Example lambda_handler_goes_on_after_failure :
  fst (WhatsappSender.lambda_handler Samples.lib
         (Samples.refusing "whatsapp:+15550001") Samples.whatsapp_cfg
         (VDict [("status", VStr "success")]) 0%nat (Samples.fresh None))
  = Ok (VDict
          [("statusCode", VInt 200);
           ("body",
            VStr (Samples.dumps
                    (VDict
                       [("message", VStr "WhatsApp alerts processed");
                        ("results",
                         VList
                           [WhatsappSender.failed "whatsapp:+15550001"
                              "invalid number";
                            WhatsappSender.sent "whatsapp:+15550002"
                              (VStr "SM1")])])))]).
Proof. reflexivity. Qed.



(** ** src/lambda/index.py *)
Section IndexProperties.
Import Index.
Variable L : pylib.
Variable W : world.
Variable cfg : config.

Ltac case_call :=
  match goal with
  | |- context [respond W ?t ?c] => destruct (respond W t c)
  | |- context [construct W ?t ?c] => destruct (construct W t c)
  end.

(** The four helpers catch every exception: they always return, and they
    leave [results] alone. *)
Lemma get_secrets_total p :
  exists secrets p1,
    get_secrets L W cfg p = (Ok secrets, p1) /\ globals p1 = globals p.
Proof.
  unfold get_secrets, try_except, bind, lift, sdk, log, ret.
  destruct secret_name_of_arn as [name | e]; [| eauto].
  case_call; [| eauto].
  match goal with |- context [py_contains ?k ?v] => destruct (py_contains k v) as [[|] | e] end;
    [| eauto | eauto].
  match goal with |- context [py_getitem ?v ?k] => destruct (py_getitem v k) as [secret | e] end;
    [| eauto].
  destruct (py_json_loads L secret); eauto.
Qed.

Lemma save_state_total id state p :
  exists saved p1,
    save_state_to_dynamodb L W cfg id state p = (Ok saved, p1)
    /\ globals p1 = globals p.
Proof.
  unfold save_state_to_dynamodb, try_except, bind, lift, sdk, sdk_new, utcnow,
    log, ret.
  case_call; [| eauto].
  destruct (py_get state "status" (VStr "pending")); [| eauto].
  case_call; eauto.
Qed.

Lemma upload_cache_total key data p :
  exists uploaded p1,
    upload_cache_to_s3 L W cfg key data p = (Ok uploaded, p1)
    /\ globals p1 = globals p.
Proof.
  unfold upload_cache_to_s3, try_except, bind, sdk, log, ret.
  case_call; eauto.
Qed.

(** An alert is one call to the notification topic, whatever it answers. *)
Lemma publish_alert_total subject message p :
  exists published l line,
    publish_alert W cfg subject message p
    = (Ok published,
       logged (called p (SnsPublish (SNS_TOPIC_ARN cfg) subject message)) l line).
Proof.
  unfold publish_alert, try_except, bind, sdk, log, ret.
  case_call; eauto.
Qed.

Lemma count_task_ok p timestamp status n errors :
  globals p = results_of timestamp status n errors ->
  count_task p = (Ok tt, stored p (results_of timestamp status (n + 1) errors)).
Proof.
  destruct p as [g tr lg]. simpl. intros ->. reflexivity.
Qed.

Lemma record_error_ok p timestamp status n errors message :
  globals p = results_of timestamp status n errors ->
  record_error message p
  = (Ok tt, stored p (results_of timestamp status n (errors ++ [VStr message])%list)).
Proof.
  destruct p as [g tr lg]. simpl. intros ->. reflexivity.
Qed.

(** The closing alert: its subject tells whether [errors] is empty. *)
Lemma publish_outcome_runs timestamp p ts status n saved uploaded :
  globals p = results_of ts status n (failures saved uploaded) ->
  exists published message l line,
    publish_outcome W cfg timestamp p
    = (Ok published,
       logged (called p (SnsPublish (SNS_TOPIC_ARN cfg)
                           (outcome_subject (failures saved uploaded)) message))
              l line).
Proof.
  destruct p as [g tr lg]. simpl. intros ->.
  unfold publish_outcome.
  destruct saved, uploaded; cbn -[publish_alert String.append];
    match goal with
    | |- context [publish_alert W cfg ?s ?m ?q] =>
        destruct (publish_alert_total s m q) as (b & l & line & ->)
    end; eauto.
Qed.

(** A run, step by step from the state [p] it starts in: the secrets are
    fetched, the state is saved, the cache is uploaded; [results] counts the
    two and the closing alert goes out. *)
Lemma coordinate_daily_tasks_runs p :
  let ts := isoformat (clock W (trace p)) in
  let p0 := stored (called p UtcNow) (initial_results ts) in
  exists secrets p1 saved p2 uploaded p3 p',
    get_secrets L W cfg p0 = (Ok secrets, p1)
    /\ save_state_to_dynamodb L W cfg coordinator_id (state_data "running" ts)
         (logged p1 INFO "Secrets retrieved successfully") = (Ok saved, p2)
    /\ (let p2' :=
          stored p2 (results_of ts "success" (successes saved false)
                       (failures saved true)) in
        upload_cache_to_s3 L W cfg
          ("cache/" ++ coordinator_id ++ "/"
             ++ date_str (clock W (trace p2')) ++ ".json")
          (cache_data ts) (called p2' UtcNow) = (Ok uploaded, p3))
    /\ coordinate_daily_tasks L W cfg p
       = (Ok (VDict (results_of ts "success" (successes saved uploaded)
                       (failures saved uploaded))), p')
    /\ exists q message l line,
         p' = logged (called q
                        (SnsPublish (SNS_TOPIC_ARN cfg)
                           (outcome_subject (failures saved uploaded)) message))
                l line.
Proof.
  intros ts p0.
  destruct (get_secrets_total p0) as (secrets & p1 & Hsec & Hg1).
  destruct (save_state_total coordinator_id (state_data "running" ts)
              (logged p1 INFO "Secrets retrieved successfully"))
    as (saved & p2 & Hsave & Hg2).
  exists secrets, p1, saved, p2.
  assert (Hres2 : globals p2 = results_of ts "success" 0 []).
  { rewrite Hg2. simpl. rewrite Hg1. reflexivity. }
  set (p2' := stored p2 (results_of ts "success" (successes saved false)
                           (failures saved true))).
  destruct (upload_cache_total
              ("cache/" ++ coordinator_id ++ "/"
                 ++ date_str (clock W (trace p2')) ++ ".json")
              (cache_data ts) (called p2' UtcNow))
    as (uploaded & p3 & Hup & Hg3).
  exists uploaded, p3.
  set (p3' := stored p3 (results_of ts "success" (successes saved uploaded)
                           (failures saved uploaded))).
  destruct (save_state_total coordinator_id (state_data "completed" ts) p3')
    as (saved' & p4 & Hsave' & Hg4).
  assert (Hstep1 :
    (if saved then count_task else record_error "Failed to save state to DynamoDB") p2
    = (Ok tt, p2')).
  { unfold p2'. destruct saved.
    - apply (count_task_ok _ _ _ _ _ Hres2).
    - apply (record_error_ok _ _ _ _ _ _ Hres2). }
  assert (Hstep2 :
    (if uploaded then count_task else record_error "Failed to upload cache to S3") p3
    = (Ok tt, p3')).
  { unfold p3'. assert (Hres3 : globals p3 = globals p2') by (rewrite Hg3; reflexivity).
    destruct uploaded.
    - rewrite (count_task_ok _ _ _ _ _ Hres3).
      destruct saved; reflexivity.
    - rewrite (record_error_ok _ _ _ _ _ _ Hres3).
      destruct saved; reflexivity. }
  assert (Hres4 : globals p4 = results_of ts "success" (successes saved uploaded)
                                (failures saved uploaded))
    by (rewrite Hg4; reflexivity).
  destruct (publish_outcome_runs ts p4 _ _ _ _ _ Hres4)
    as (published & message & l & line & Hpub).
  eexists. split; [exact Hsec | split; [exact Hsave | split; [exact Hup |]]].
  split; [| exists p4, message, l, line; reflexivity].
  unfold coordinate_daily_tasks.
  unfold bind at 1, utcnow at 1. unfold bind at 1, set_globals at 1.
  fold ts. fold p0.
  apply try_except_ok. unfold run_tasks.
  rewrite (bind_ok _ _ _ _ _ Hsec).
  unfold bind at 1, log at 1.
  rewrite (bind_ok _ _ _ _ _ Hsave).
  rewrite (bind_ok _ _ _ _ _ Hstep1).
  unfold bind at 1, utcnow at 1.
  fold p2'.
  rewrite (bind_ok _ _ _ _ _ Hup).
  rewrite (bind_ok _ _ _ _ _ Hstep2).
  rewrite (bind_ok _ _ _ _ _ Hsave').
  rewrite (bind_ok _ _ _ _ _ Hpub).
  unfold bind, get_globals, ret. simpl. rewrite Hres4. reflexivity.
Qed.

(** The [except] clause of [coordinate_daily_tasks]: it marks the run as
    failed, records the exception, publishes the alert and returns. *)
Lemma run_failed_returns e q ts status n errors :
  exists q',
    run_failed W cfg e (stored q (results_of ts status n errors))
    = (Ok (VDict (results_of ts "failed" n (errors ++ [VStr (exn_str e)])%list)),
       q').
Proof.
  unfold run_failed.
  unfold bind at 1, log at 1. unfold bind at 1, get_globals at 1.
  unfold bind at 1, set_globals at 1. unfold bind at 1.
  cbn -[publish_alert String.append].
  match goal with
  | |- context [bind (publish_alert W cfg ?s ?m) _ ?p] =>
      destruct (publish_alert_total s m p) as (b & l & line & Hpub);
      rewrite (bind_ok _ _ _ _ _ Hpub)
  end.
  eexists. reflexivity.
Qed.

(** C7. A run of [coordinate_daily_tasks] returns a result dict in which
    [tasks_processed] is the number of the two storage operations (the first
    state save and the cache upload) that returned [True], and [errors] holds
    one message for each of the two that returned [False], in order; so
    [tasks_processed] plus the length of [errors] is 2.  The last call of the
    run publishes an alert whose subject is "Daily Coordinator - Success"
    when [errors] is empty and "Daily Coordinator - Partial Success"
    otherwise. *)
Theorem coordinate_daily_tasks_counts p :
  let ts := isoformat (clock W (trace p)) in
  let p0 := stored (called p UtcNow) (initial_results ts) in
  exists secrets p1 saved p2 uploaded p3 p',
    get_secrets L W cfg p0 = (Ok secrets, p1)
    /\ save_state_to_dynamodb L W cfg coordinator_id (state_data "running" ts)
         (logged p1 INFO "Secrets retrieved successfully") = (Ok saved, p2)
    /\ (let p2' :=
          stored p2 (results_of ts "success" (successes saved false)
                       (failures saved true)) in
        upload_cache_to_s3 L W cfg
          ("cache/" ++ coordinator_id ++ "/"
             ++ date_str (clock W (trace p2')) ++ ".json")
          (cache_data ts) (called p2' UtcNow) = (Ok uploaded, p3))
    /\ coordinate_daily_tasks L W cfg p
       = (Ok (VDict [("coordinator_id", VStr coordinator_id);
                     ("timestamp", VStr ts);
                     ("status", VStr "success");
                     ("tasks_processed", VInt (successes saved uploaded));
                     ("errors", VList (failures saved uploaded))]), p')
    /\ successes saved uploaded
         = Z.of_nat (List.length (filter (fun b : bool => b) [saved; uploaded]))
    /\ List.length (failures saved uploaded)
         = List.length (filter negb [saved; uploaded])
    /\ successes saved uploaded
         + Z.of_nat (List.length (failures saved uploaded)) = 2
    /\ exists q message l line,
         p' = logged (called q
                        (SnsPublish (SNS_TOPIC_ARN cfg)
                           (match failures saved uploaded with
                            | [] => "Daily Coordinator - Success"
                            | _ => "Daily Coordinator - Partial Success"
                            end) message))
                l line.
Proof.
  intros ts p0.
  destruct (coordinate_daily_tasks_runs p)
    as (secrets & p1 & saved & p2 & uploaded & p3 & p' & H1 & H2 & H3 & H4 & H5).
  exists secrets, p1, saved, p2, uploaded, p3, p'.
  repeat split; try assumption; destruct saved, uploaded; reflexivity.
Qed.

(** C9. The result dict of a run always has status "success": also when
    one or both storage operations failed and [errors] is not empty, which is
    the case unless both returned [True].  Only the [except] clause sets the
    status to "failed". *)
Theorem coordinate_daily_tasks_status p :
  (exists saved uploaded p',
      coordinate_daily_tasks L W cfg p
      = (Ok (VDict (results_of (isoformat (clock W (trace p))) "success"
                      (successes saved uploaded) (failures saved uploaded))),
         p')
      /\ dict_lookup "status"
           (results_of (isoformat (clock W (trace p))) "success"
              (successes saved uploaded) (failures saved uploaded))
         = Some (VStr "success")
      /\ (failures saved uploaded = [] <-> saved && uploaded = true))
  /\ (forall e q ts status n errors,
         exists q',
           run_failed W cfg e (stored q (results_of ts status n errors))
           = (Ok (VDict (results_of ts "failed" n
                           (errors ++ [VStr (exn_str e)])%list)), q')).
Proof.
  split; [| apply run_failed_returns].
  destruct (coordinate_daily_tasks_runs p)
    as (secrets & p1 & saved & p2 & uploaded & p3 & p' & _ & _ & _ & H4 & _).
  exists saved, uploaded, p'. split; [exact H4 | split; [reflexivity |]].
  destruct saved, uploaded; unfold failures; simpl;
    split; intros H; (reflexivity || discriminate H).
Qed.

(** C8. Whatever the event and whatever the services answer, the entry point
    returns a response with [statusCode] 200 whose body is the serialized
    result dict of [coordinate_daily_tasks]: that function always returns
    normally, so the 500 branch of the handler is never taken. *)
Theorem lambda_handler_always_200 event context p :
  exists results p',
    coordinate_daily_tasks L W cfg
      (logged p INFO ("Received event: " ++ json_dumps L event))
    = (Ok results, p')
    /\ lambda_handler L W cfg event context p
       = (Ok (VDict [("statusCode", VInt 200);
                     ("body", VStr (json_dumps L results))]), p').
Proof.
  destruct (coordinate_daily_tasks_runs
              (logged p INFO ("Received event: " ++ json_dumps L event)))
    as (secrets & p1 & saved & p2 & uploaded & p3 & p' & _ & _ & _ & H4 & _).
  eexists. exists p'. split; [exact H4 |].
  unfold lambda_handler. unfold bind at 1, log at 1.
  apply try_except_ok. rewrite (bind_ok _ _ _ _ _ H4). reflexivity.
Qed.

End IndexProperties.

(** Every service is down: both storage operations fail, the handler still
    answers 200 and the status of the run is still "success". *)
Example lambda_handler_200_when_all_down :
  fst (Index.lambda_handler Samples.lib Samples.down Samples.index_cfg
         (VDict []) 0%nat (Samples.fresh []))
  = Ok (VDict
          [("statusCode", VInt 200);
           ("body",
            VStr (Samples.dumps
                    (VDict (Index.results_of "2024-01-01T00:00:00" "success" 0
                              [VStr "Failed to save state to DynamoDB";
                               VStr "Failed to upload cache to S3"]))))]).
Proof. reflexivity. Qed.

(** The table is down and the bucket is up: one task counted, one error. *)
Example coordinate_daily_tasks_partial :
  fst (Index.coordinate_daily_tasks Samples.lib Samples.table_down
         Samples.index_cfg (Samples.fresh []))
  = Ok (VDict (Index.results_of "2024-01-01T00:00:00" "success" 1
                 [VStr "Failed to save state to DynamoDB"])).
Proof. reflexivity. Qed.

(** Everything answers: two tasks, no error, and the same status. *)
Example coordinate_daily_tasks_full :
  fst (Index.coordinate_daily_tasks Samples.lib (Samples.up "{}")
         Samples.index_cfg (Samples.fresh []))
  = Ok (VDict (Index.results_of "2024-01-01T00:00:00" "success" 2 [])).
Proof. reflexivity. Qed.

(** * Further properties *)

(** ** src/lambda/slack_poster.py: the entry point *)
Section SlackHandlerProperties.
Import SlackPosterHandler.
Variable L : pylib.
Variable W : world.
Variable Web : web.
Variable cfg : config.

(** The state in which the loader runs, and the state it hands back. *)
Local Abbreviation inner p := (Proc (cached (globals p)) (trace p) (logs p)).
Local Abbreviation outer p q :=
  (Proc (Process (globals q) (requests (globals p))) (trace q) (logs q)).

Local Abbreviation received p event :=
  (logged p INFO ("Received event: " ++ json_dumps L event)).

(** The request the handler sends for a webhook and a summary. *)
Local Abbreviation post_for w s :=
  (Request w
     (json_dumps L
        (slack_payload cfg (SlackPoster._render_message L (poster cfg) s)))
     "application/json" 5).

(** The handler, step by step. *)
Lemma slack_handler_runs event context p :
  lambda_handler L W Web cfg event context p =
    match SlackPoster._load_webhook_url L W (poster cfg) (inner (received p event)) with
    | (Raise e, q) => (Raise e, outer p q)
    | (Ok w, q) =>
        let p1 := outer p q in
        match SlackPoster._extract_summary L event with
        | Raise e => (Raise e, p1)
        | Ok s =>
            match new_request Web w with
            | Raise e => (Raise e, p1)
            | Ok _ =>
                let p2 :=
                  stored p1 (Process (globals q)
                               (requests (globals p) ++ [post_for w s])%list) in
                match urlopen Web (trace q) (requests (globals p)) (post_for w s) with
                | Status st =>
                    (Ok (notification_sent L s),
                     logged p2 INFO ("Slack response status: " ++ str_of_Z st))
                | HTTPError exc code body =>
                    (Raise exc,
                     logged p2 ERROR ("Slack webhook returned " ++ str_of_Z code
                                        ++ ": " ++ body))
                | URLError exc reason =>
                    (Raise exc,
                     logged p2 ERROR ("Unable to reach Slack webhook: " ++ reason))
                | OtherError exc => (Raise exc, p2)
                end
            end
        end
    end.
Proof.
  unfold lambda_handler. unfold bind at 1, log at 1.
  unfold bind at 1, on_cached at 1.
  cbn [globals trace logs logged].
  destruct (SlackPoster._load_webhook_url L W (poster cfg) _) as [[w | e] q];
    [| reflexivity].
  unfold bind at 1, lift at 1.
  destruct (SlackPoster._extract_summary L event) as [s | e]; [| reflexivity].
  unfold _post_to_slack. unfold bind at 1. unfold bind at 1, lift at 1.
  destruct (new_request Web w) as [u | e]; [| reflexivity].
  unfold bind at 1, send at 1. cbn [globals trace logs stored cached requests].
  destruct (urlopen Web (trace q) (requests (globals p)) _); reflexivity.
Qed.

(** The loader run inside the handler leaves the requests alone, and a
    webhook it returns is the one cached from then on. *)
Lemma slack_webhook_cached p w q :
  SlackPoster._load_webhook_url L W (poster cfg)
    (Proc (cached (globals p)) (trace p) (logs p)) = (Ok w, q) ->
  SlackPoster.cached_webhook (globals q) = Some w.
Proof. intros H. exact (proj1 (load_caches L W (poster cfg) _ _ _ H)). Qed.

(** X1. When the webhook is loaded, the summary extracted and the request
    built, the handler sends exactly one request: a POST of the JSON payload
    whose text is the rendered summary, to the loaded webhook, with a timeout
    of 5.  It answers 200 with the summary when the request is answered with
    a status, and raises the exception of the request otherwise: a failed
    post is never reported as sent. *)
Theorem slack_handler_posts_summary event context p w q s :
  SlackPoster._load_webhook_url L W (poster cfg)
    (Proc (cached (globals p)) (trace p)
          (logs p ++ [(INFO, ("Received event: " ++ json_dumps L event)%string)])%list)
  = (Ok w, q) ->
  SlackPoster._extract_summary L event = Ok s ->
  new_request Web w = Ok tt ->
  let post :=
    Request w
      (json_dumps L
         (slack_payload cfg (SlackPoster._render_message L (poster cfg) s)))
      "application/json" 5 in
  fst (lambda_handler L W Web cfg event context p)
  = match exception_of (urlopen Web (trace q) (requests (globals p)) post) with
    | None => Ok (notification_sent L s)
    | Some exc => Raise exc
    end
  /\ requests (globals (snd (lambda_handler L W Web cfg event context p)))
     = (requests (globals p) ++ [post])%list
  /\ trace (snd (lambda_handler L W Web cfg event context p)) = trace q.
Proof.
  intros Hload Hsum Hreq post.
  rewrite slack_handler_runs.
  change (inner (received p event))
    with (Proc (cached (globals p)) (trace p)
               (logs p ++ [(INFO, ("Received event: " ++ json_dumps L event)%string)])%list).
  rewrite Hload, Hsum, Hreq. cbv zeta. fold post.
  destruct (urlopen Web (trace q) (requests (globals p)) post);
    repeat split; reflexivity.
Qed.

(** X2. The handler answers 200 only after exactly one request, sent to the
    webhook that is cached from then on and answered with a status.  When it
    raises it has sent at most one request, and if it has sent one, it raises
    the exception of that request. *)
Theorem slack_handler_sends_at_most_once event context p :
  match lambda_handler L W Web cfg event context p with
  | (Ok v, p') =>
      exists w s st,
        v = notification_sent L s
        /\ SlackPoster.cached_webhook (cached (globals p')) = Some w
        /\ requests (globals p')
           = (requests (globals p)
                ++ [Request w
                      (json_dumps L
                         (slack_payload cfg
                            (SlackPoster._render_message L (poster cfg) s)))
                      "application/json" 5])%list
        /\ urlopen Web (trace p') (requests (globals p))
             (Request w
                (json_dumps L
                   (slack_payload cfg
                      (SlackPoster._render_message L (poster cfg) s)))
                "application/json" 5) = Status st
  | (Raise e, p') =>
      requests (globals p') = requests (globals p)
      \/ exists post,
           requests (globals p') = (requests (globals p) ++ [post])%list
           /\ exception_of (urlopen Web (trace p') (requests (globals p)) post)
              = Some e
  end.
Proof.
  rewrite slack_handler_runs.
  destruct (SlackPoster._load_webhook_url L W (poster cfg) _)
    as [[w | e] q] eqn:Hload; [| left; reflexivity].
  cbv zeta.
  destruct (SlackPoster._extract_summary L event) as [s | e];
    [| left; reflexivity].
  destruct (new_request Web w) as [u | e]; [| left; reflexivity].
  destruct (urlopen Web (trace q) (requests (globals p)) _) as [st | | |] eqn:Ha.
  - exists w, s, st. repeat split.
    + exact (slack_webhook_cached _ _ _ Hload).
    + exact Ha.
  - right. eexists. split; [reflexivity |]. cbn [trace logged stored]. rewrite Ha. reflexivity.
  - right. eexists. split; [reflexivity |]. cbn [trace logged stored]. rewrite Ha. reflexivity.
  - right. eexists. split; [reflexivity |]. cbn [trace logged stored]. rewrite Ha. reflexivity.
Qed.

(** An invocation that finds a webhook in the module global keeps it there,
    calls no service, and sends at most one request, to that webhook:
    whatever the event, and whether it returns or raises. *)
Lemma slack_handler_keeps_webhook event context p w :
  SlackPoster.cached_webhook (cached (globals p)) = Some w ->
  cached (globals (snd (lambda_handler L W Web cfg event context p)))
  = cached (globals p)
  /\ trace (snd (lambda_handler L W Web cfg event context p)) = trace p
  /\ (requests (globals (snd (lambda_handler L W Web cfg event context p)))
      = requests (globals p)
      \/ exists post,
           requests (globals (snd (lambda_handler L W Web cfg event context p)))
           = (requests (globals p) ++ [post])%list
           /\ url post = w).
Proof.
  intros Hc. rewrite slack_handler_runs.
  rewrite (load_cached L W (poster cfg) (inner (received p event)) w Hc).
  cbv zeta.
  destruct (SlackPoster._extract_summary L event) as [s | e];
    [| repeat split; left; reflexivity].
  destruct (new_request Web w) as [u | e];
    [| repeat split; left; reflexivity].
  destruct (urlopen Web _ _ _);
    (split; [reflexivity | split; [reflexivity |]]);
    right; eexists; split; reflexivity.
Qed.

(** The same over a series of invocations. *)
Lemma invocations_keep_webhook later :
  forall p w,
    SlackPoster.cached_webhook (cached (globals p)) = Some w ->
    cached (globals (invocations L W Web cfg later p)) = cached (globals p)
    /\ trace (invocations L W Web cfg later p) = trace p
    /\ exists posts,
         requests (globals (invocations L W Web cfg later p))
         = (requests (globals p) ++ posts)%list
         /\ Forall (fun post => url post = w) posts
         /\ (List.length posts <= List.length later)%nat.
Proof.
  induction later as [| [event context] rest IH]; intros p w Hc.
  - cbn [invocations]. split; [reflexivity | split; [reflexivity |]].
    exists []. rewrite app_nil_r. repeat split; [constructor | simpl; lia].
  - cbn [invocations].
    destruct (slack_handler_keeps_webhook event context p w Hc)
      as (Hc1 & Ht1 & Hr1).
    assert (Hc' : SlackPoster.cached_webhook
                    (cached (globals (snd (lambda_handler L W Web cfg event
                                             context p)))) = Some w).
    { rewrite Hc1. exact Hc. }
    destruct (IH _ w Hc') as (Hc2 & Ht2 & posts & Hr2 & Hall & Hlen).
    split; [rewrite Hc2; exact Hc1 | split; [rewrite Ht2; exact Ht1 |]].
    destruct Hr1 as [Hr1 | (post & Hr1 & Hurl)].
    + exists posts. rewrite Hr2, Hr1.
      repeat split; [exact Hall | simpl; lia].
    + exists (post :: posts). rewrite Hr2, Hr1, <- app_assoc.
      repeat split; [constructor; assumption | simpl; lia].
Qed.

(** X3. Once an invocation has answered 200, the webhook it used stays in
    the module global for the life of the process: after any series of later
    invocations, whatever their events and whether they returned or raised,
    the module global is the same and no managed service has been called
    since (the webhook secret is not fetched again), each of them has sent
    at most one request, and every request sent went to that webhook.  So
    does the next invocation after them. *)
Theorem slack_handler_reuses_webhook event context p v p1 :
  lambda_handler L W Web cfg event context p = (Ok v, p1) ->
  exists w,
    SlackPoster.cached_webhook (cached (globals p1)) = Some w
    /\ forall later,
         cached (globals (invocations L W Web cfg later p1))
         = cached (globals p1)
         /\ trace (invocations L W Web cfg later p1) = trace p1
         /\ (exists posts,
                requests (globals (invocations L W Web cfg later p1))
                = (requests (globals p1) ++ posts)%list
                /\ Forall (fun post => url post = w) posts
                /\ (List.length posts <= List.length later)%nat)
         /\ forall event' context',
              trace (snd (lambda_handler L W Web cfg event' context'
                            (invocations L W Web cfg later p1)))
              = trace p1
              /\ cached (globals (snd (lambda_handler L W Web cfg event' context'
                                         (invocations L W Web cfg later p1))))
                 = cached (globals p1)
              /\ forall post,
                   requests (globals (snd (lambda_handler L W Web cfg event'
                                             context'
                                             (invocations L W Web cfg later p1))))
                   = (requests (globals (invocations L W Web cfg later p1))
                        ++ [post])%list ->
                   url post = w.
Proof.
  intros Hrun.
  assert (Hfirst : exists w,
            SlackPoster.cached_webhook (cached (globals p1)) = Some w).
  { revert Hrun. rewrite slack_handler_runs.
    destruct (SlackPoster._load_webhook_url L W (poster cfg) _)
      as [[w | e] q] eqn:Hload; [| discriminate].
    cbv zeta.
    destruct (SlackPoster._extract_summary L event) as [s | e];
      [| discriminate].
    destruct (new_request Web w) as [u | e]; [| discriminate].
    pose proof (slack_webhook_cached _ _ _ Hload) as Hc.
    destruct (urlopen Web _ _ _); intros H; inversion H; subst;
      exists w; exact Hc. }
  destruct Hfirst as [w Hc]. exists w. split; [exact Hc |].
  intros later.
  destruct (invocations_keep_webhook later p1 w Hc) as (Hc2 & Ht2 & Hposts).
  split; [exact Hc2 | split; [exact Ht2 | split; [exact Hposts |]]].
  intros event' context'.
  assert (Hc' : SlackPoster.cached_webhook
                  (cached (globals (invocations L W Web cfg later p1))) = Some w).
  { rewrite Hc2. exact Hc. }
  destruct (slack_handler_keeps_webhook event' context' _ w Hc')
    as (Hc3 & Ht3 & Hr3).
  split; [rewrite Ht3; exact Ht2 | split; [rewrite Hc3; exact Hc2 |]].
  intros post Hpost.
  destruct Hr3 as [Hr3 | (post' & Hr3 & Hurl)].
  - rewrite Hr3 in Hpost. exfalso.
    apply (f_equal (@List.length _)) in Hpost.
    rewrite length_app in Hpost. simpl in Hpost. lia.
  - rewrite Hr3 in Hpost. apply app_inv_head in Hpost.
    inversion Hpost as [Hsame]. rewrite <- Hsame. exact Hurl.
Qed.

End SlackHandlerProperties.

(** ** src/lambda/slack_poster.py: the loader and the summary *)
Section SlackPosterMore.
Import SlackPoster.
Variable L : pylib.
Variable W : world.
Variable cfg : config.

Lemma py_or_truthy a b : truthy b = true -> truthy (py_or a b) = true.
Proof. intros H. unfold py_or. destruct (truthy a) eqn:E; assumption. Qed.

Lemma summarize_sns_named record s s' :
  truthy (task s) = true -> truthy (status s) = true ->
  summarize_sns L record s = Ok s' ->
  truthy (task s') = true /\ truthy (status s') = true.
Proof.
  intros Ht Hs. unfold summarize_sns.
  destruct (py_get record "Sns" (VDict [])) as [sns |]; [| discriminate].
  cbn [rbind].
  destruct (py_get sns "Subject" VNone) as [sub |]; [| discriminate].
  cbn [rbind].
  destruct (py_get sns "Message" VNone) as [message |]; [| discriminate].
  cbn [rbind].
  assert (Hplain : forall r, Ok (Summary (task s) (status s) message sub) = Ok r ->
                             truthy (task r) = true /\ truthy (status r) = true).
  { intros r H. inversion H; subst. split; assumption. }
  destruct message as [| | | m | |]; try apply Hplain.
  destruct (py_json_loads L (VStr m)) as [[| | | | | decoded] | e];
    cbn [task status details subject]; try apply Hplain.
  - intros H. inversion H; subst. cbn [task status].
    split; repeat apply py_or_truthy; assumption.
  - destruct (is_JSONDecodeError e); [apply Hplain | discriminate].
Qed.

Lemma scan_records_named records s s' :
  truthy (task s) = true -> truthy (status s) = true ->
  scan_records L records s = Ok s' ->
  truthy (task s') = true /\ truthy (status s') = true.
Proof.
  intros Ht Hs. induction records as [| record rest IH]; simpl.
  - intros H. inversion H; subst. split; assumption.
  - destruct (py_get record "EventSource" VNone) as [source |]; [| discriminate].
    cbn [rbind].
    destruct (py_eq_str source "aws:sns"); [| exact IH].
    apply summarize_sns_named; assumption.
Qed.

(** X4. Whatever the event, a summary that [_extract_summary] returns has a
    truthy task and a truthy status: a present but empty or null field never
    blanks them, the defaults step in. *)
Theorem extract_summary_always_named event s :
  _extract_summary L event = Ok s ->
  truthy (task s) = true /\ truthy (status s) = true.
Proof.
  unfold _extract_summary.
  destruct event as [| | | | | d];
    try (intros H; inversion H; subst; split; reflexivity).
  destruct (dict_mem "Records" d).
  - destruct (py_getitem (VDict d) "Records") as [r |]; [| discriminate].
    cbn [rbind]. destruct (py_iter r) as [records |]; [| discriminate].
    cbn [rbind]. apply scan_records_named; reflexivity.
  - intros H. inversion H; subst. cbn [task status].
    split; repeat apply py_or_truthy; reflexivity.
Qed.

(** X5. Edge cases of [_extract_summary]: an event that is not a dict, and an
    envelope none of whose records comes from the notification service, give
    the default summary; an envelope whose [Records] cannot be iterated, or
    that holds a record without [.get] before its first notification record,
    raises. *)
Theorem extract_summary_edges :
  (forall event, isinstance_dict event = false ->
                 _extract_summary L event = Ok default_summary)
  /\ (forall d records,
         dict_lookup "Records" d = Some (VList records) ->
         Forall (fun record =>
                   exists rd, record = VDict rd
                              /\ py_eq_str (dict_get rd "EventSource" VNone) "aws:sns"
                                 = false) records ->
         _extract_summary L (VDict d) = Ok default_summary)
  /\ (forall d r e,
         dict_lookup "Records" d = Some r -> py_iter r = Raise e ->
         _extract_summary L (VDict d) = Raise e)
  /\ (forall d record rest,
         dict_lookup "Records" d = Some (VList (record :: rest)) ->
         isinstance_dict record = false ->
         _extract_summary L (VDict d) = Raise (attribute_error record "get")).
Proof.
  split; [| split; [| split]].
  - intros event H. destruct event; try reflexivity. discriminate.
  - intros d records Hr Hall. unfold _extract_summary, dict_mem, py_getitem.
    rewrite Hr. cbn [rbind py_iter]. apply scan_records_no_sns. exact Hall.
  - intros d r e Hr He. unfold _extract_summary, dict_mem, py_getitem.
    rewrite Hr. cbn [rbind]. rewrite He. reflexivity.
  - intros d record rest Hr Hd. unfold _extract_summary, dict_mem, py_getitem.
    rewrite Hr. cbn [rbind py_iter scan_records].
    destruct record; try reflexivity. discriminate.
Qed.

(** X6. A call of [_load_webhook_url] that raises caches nothing: the module
    global is what it was, so the next call asks the secret store again.  It
    has asked the store at most once, and not at all when the name of the
    secret is unset or empty. *)
Theorem load_webhook_url_failure p e p1 :
  _load_webhook_url L W cfg p = (Raise e, p1) ->
  globals p1 = globals p
  /\ cached_webhook (globals p) = None
  /\ match env_value (SLACK_SECRET_NAME cfg) with
     | None => p1 = p
     | Some name =>
         trace p1 = (trace p ++ [GetSecretValue name])%list
     end.
Proof.
  unfold _load_webhook_url, bind, get_globals, try_except, sdk, lift,
    raise, log, ret, set_globals.
  destruct (cached_webhook (globals p)) as [w0 |] eqn:Hc; [discriminate |].
  destruct (env_value (SLACK_SECRET_NAME cfg)) as [name |].
  2:{ intros H. inversion H; subst. repeat split. }
  match goal with
  | |- context [respond W ?t ?c] => destruct (respond W t c) as [response | exc]
  end.
  2:{ intros H. inversion H; subst. repeat split. }
  destruct (py_get response "SecretString" VNone) as [secret | exc].
  2:{ intros H. inversion H; subst. repeat split. }
  destruct (truthy secret); cbn [negb].
  2:{ intros H. inversion H; subst. repeat split. }
  destruct (webhook_of_secret L cfg secret) as [webhook | exc].
  2:{ intros H. inversion H; subst. repeat split. }
  destruct (truthy webhook); cbn [negb]; [discriminate |].
  intros H. inversion H; subst. repeat split.
Qed.

(** X7. How the secret is read.  With nothing cached and the store answering
    with a non-empty secret string: a string that is not JSON is itself the
    webhook; a JSON object gives the value under the configured key, or else
    under [webhook_url], the first of the two that is truthy; any other JSON
    value, or an object with neither, is a [ValueError]. *)
Theorem load_webhook_url_reads_secret p name response text :
  cached_webhook (globals p) = None ->
  env_value (SLACK_SECRET_NAME cfg) = Some name ->
  respond W (trace p) (GetSecretValue name) = Ok response ->
  py_get response "SecretString" VNone = Ok (VStr text) ->
  text <> EmptyString ->
  fst (_load_webhook_url L W cfg p)
  = match json_loads L text with
    | None => Ok (VStr text)
    | Some (VDict d) =>
        let webhook := first_truthy [SLACK_SECRET_KEY cfg; "webhook_url"] d VNone in
        if truthy webhook then Ok webhook
        else Raise (Exn ValueError
                      "Slack webhook URL not found within the provided secret")
    | Some _ =>
        Raise (Exn ValueError
                 "Slack webhook URL not found within the provided secret")
    end.
Proof.
  intros Hc Hname Hresp Hsecret Htext.
  unfold _load_webhook_url, bind, get_globals, try_except, sdk, lift,
    raise, log, ret, set_globals.
  destruct p as [g tr lg]. unfold called, stored, logged.
  cbn [globals trace logs] in *.
  rewrite Hc, Hname. cbn [globals trace logs]. rewrite Hresp, Hsecret.
  assert (Ht : truthy (VStr text) = true).
  { simpl. destruct text; [contradiction | reflexivity]. }
  rewrite Ht. cbn [negb].
  unfold webhook_of_secret, py_json_loads.
  destruct (json_loads L text) as [[| | | | | d] |]; cbn; try reflexivity.
  - unfold dict_get.
    destruct (dict_lookup (SLACK_SECRET_KEY cfg) d) as [a |];
      [destruct (truthy a) eqn:Ha |]; cbn; rewrite ?Ha; cbn;
      try reflexivity;
      destruct (dict_lookup "webhook_url" d) as [b |];
      [destruct (truthy b) eqn:Hb | | destruct (truthy b) eqn:Hb |];
      cbn; rewrite ?Hb; reflexivity.
  - destruct text; [contradiction | reflexivity].
Qed.

End SlackPosterMore.

(** ** src/lambda/gcp_pubsub.py: the client and the publisher *)
Section GcpPubsubMore.
Import GcpPubsub.
Variable L : pylib.
Variable W : world.
Variable cfg : config.

Ltac world_step :=
  match goal with
  | |- context [respond W ?t ?c] => destruct (respond W t c) eqn:?
  | |- context [construct W ?t ?c] => destruct (construct W t c) eqn:?
  end.

Ltac monad_unfold :=
  unfold bind, get_globals, set_globals, try_except, sdk, sdk_new, lift,
    raise, log, ret, called, stored, logged.

Lemma get_publisher_client_cached p client :
  globals p = Some client ->
  _get_publisher_client L W cfg p = (Ok client, p).
Proof.
  intros H. unfold _get_publisher_client, bind, get_globals. rewrite H.
  reflexivity.
Qed.

(** X8. The publisher client is built once: after one successful call of
    [_get_publisher_client], every later call in the process returns the same
    client and changes nothing (no secret is fetched, no client is built).
    The successful call fetched the secret at most once. *)
Theorem get_publisher_client_once p client p1 :
  _get_publisher_client L W cfg p = (Ok client, p1) ->
  (List.length (filter is_GetSecretValue (trace p1))
   <= S (List.length (filter is_GetSecretValue (trace p))))%nat
  /\ forall p2, globals p2 = globals p1 ->
                _get_publisher_client L W cfg p2 = (Ok client, p2).
Proof.
  intros H.
  assert (Hc : globals p1 = Some client
               /\ (List.length (filter is_GetSecretValue (trace p1))
                   <= S (List.length (filter is_GetSecretValue (trace p))))%nat).
  { revert H. unfold _get_publisher_client. monad_unfold.
    destruct p as [[cached |] tr lg]; cbn [globals trace logs].
    - intros H. inversion H; subst. split; [reflexivity | cbn; lia].
    - destruct (pubsub_v1 cfg); cbn [negb]; [| discriminate].
      destruct (env_value (GCP_PUBSUB_SECRET_NAME cfg)) as [name |];
        [| discriminate].
      destruct (env_value (GCP_PROJECT_ID cfg)) as [project |]; [| discriminate].
      world_step; [| discriminate].
      match goal with
      | |- context [py_get ?a ?k ?d] => destruct (py_get a k d) as [key |]
      end; [| discriminate].
      destruct (truthy key); cbn [negb]; [| discriminate].
      destruct (py_json_loads L key) as [info |]; [| discriminate].
      world_step; [| discriminate].
      world_step; [| discriminate].
      intros H. inversion H; subst. cbn [globals trace].
      split; [reflexivity |].
      rewrite !filter_app, !length_app. cbn. lia. }
  destruct Hc as [Hg Hn]. split; [exact Hn |].
  intros p2 H2. apply get_publisher_client_cached.
  transitivity (globals p1); assumption.
Qed.

(** X9. A call of [_get_publisher_client] that raises caches nothing.  When
    the library is missing, or the secret name or the project id is unset or
    empty, it raises before any service is called and leaves the process as
    it is; otherwise its first call fetched the secret. *)
Theorem get_publisher_client_failure p e p1 :
  _get_publisher_client L W cfg p = (Raise e, p1) ->
  globals p1 = globals p
  /\ globals p = None
  /\ match pubsub_v1 cfg, env_value (GCP_PUBSUB_SECRET_NAME cfg),
           env_value (GCP_PROJECT_ID cfg) with
     | true, Some name, Some _ =>
         exists rest, trace p1 = (trace p ++ GetSecretValue name :: rest)%list
     | false, _, _ => p1 = p /\ exn_cls e = ImportError
     | _, _, _ => p1 = p /\ exn_cls e = ValueError
     end.
Proof.
  unfold _get_publisher_client. monad_unfold.
  destruct p as [[cached |] tr lg]; cbn [globals trace logs]; [discriminate |].
  destruct (pubsub_v1 cfg); cbn [negb].
  2:{ intros H. inversion H; subst. repeat split. }
  destruct (env_value (GCP_PUBSUB_SECRET_NAME cfg)) as [name |].
  2:{ intros H. inversion H; subst. repeat split. }
  destruct (env_value (GCP_PROJECT_ID cfg)) as [project |].
  2:{ intros H. inversion H; subst. repeat split. }
  world_step.
  2:{ intros H. inversion H; subst. repeat split. exists []. reflexivity. }
  match goal with
  | |- context [py_get ?a ?k ?d] => destruct (py_get a k d) as [key |]
  end.
  2:{ intros H. inversion H; subst. repeat split. exists []. reflexivity. }
  destruct (truthy key); cbn [negb].
  2:{ intros H. inversion H; subst. repeat split. exists []. reflexivity. }
  destruct (py_json_loads L key) as [info |].
  2:{ intros H. inversion H; subst. repeat split. exists []. reflexivity. }
  world_step.
  2:{ intros H. inversion H; subst. repeat split. eexists.
      cbn [trace]. rewrite <- app_assoc. reflexivity. }
  world_step; [discriminate |].
  intros H. inversion H; subst. repeat split. eexists.
  cbn [trace]. rewrite <- !app_assoc. reflexivity.
Qed.

(** With a client cached, the publisher step by step. *)
Lemma publish_to_pubsub_runs p client d :
  globals p = Some client ->
  let topic := TopicPath client (GCP_PROJECT_ID cfg) (GCP_PUBSUB_TOPIC cfg) in
  let failed q e :=
    (@Raise pyval e, logged q ERROR ("Failed to publish to Pub/Sub: " ++ exn_str e)) in
  publish_to_pubsub L W cfg (VDict d) p =
    match respond W (trace p) topic with
    | Raise e => failed (called p topic) e
    | Ok topic_path =>
        let message :=
          Publish client topic_path (json_dumps L (VDict d))
            [("source", VStr "daily-coordinator");
             ("event_type", dict_get d "status" (VStr "unknown"));
             ("coordinator_id", dict_get d "coordinator_id" (VStr ""))] in
        match construct W (trace p ++ [topic])%list message with
        | Raise e => failed (called (called p topic) message) e
        | Ok future =>
            let q := called (called (called p topic) message)
                            (FutureResult future 10) in
            match respond W (trace p ++ [topic; message])%list
                    (FutureResult future 10) with
            | Raise e => failed q e
            | Ok id =>
                (Ok id,
                 logged q INFO ("Published message " ++ py_str L id
                                  ++ " to topic " ++ GCP_PUBSUB_TOPIC cfg))
            end
        end
    end.
Proof.
  intros Hg topic failed. unfold publish_to_pubsub.
  unfold try_except, bind at 1.
  rewrite (get_publisher_client_cached p client Hg).
  unfold bind at 1, sdk at 1. unfold module_globals. fold topic.
  destruct (respond W (trace p) topic) as [topic_path | e]; [| reflexivity].
  cbv zeta. unfold bind at 1, lift at 1. cbn [py_get].
  unfold bind at 1, lift at 1.
  unfold bind at 1, sdk_new at 1. cbn [trace called].
  match goal with
  | |- context [construct W ?t ?c] =>
      destruct (construct W t c) as [future | e]
  end; [| reflexivity].
  unfold bind at 1, sdk at 1. cbn [trace called].
  rewrite <- !app_assoc. cbn [app].
  match goal with
  | |- context [respond W ?t ?c] => destruct (respond W t c) as [id | e]
  end; reflexivity.
Qed.

(** X10. With a client cached, [publish_to_pubsub] of a JSON object makes up
    to three calls and nothing else: it asks for the topic path, publishes
    the serialized object with the attributes [source], [event_type] (the
    object's [status], else "unknown") and [coordinator_id] (else ""), and
    waits for the result with a timeout of 10.  It returns what the result
    is, and raises the exception of the first call that raises. *)
Theorem publish_to_pubsub_calls p client d :
  globals p = Some client ->
  let topic := TopicPath client (GCP_PROJECT_ID cfg) (GCP_PUBSUB_TOPIC cfg) in
  match respond W (trace p) topic with
  | Raise e =>
      fst (publish_to_pubsub L W cfg (VDict d) p) = Raise e
      /\ trace (snd (publish_to_pubsub L W cfg (VDict d) p))
         = (trace p ++ [topic])%list
  | Ok topic_path =>
      let message :=
        Publish client topic_path (json_dumps L (VDict d))
          [("source", VStr "daily-coordinator");
           ("event_type", dict_get d "status" (VStr "unknown"));
           ("coordinator_id", dict_get d "coordinator_id" (VStr ""))] in
      match construct W (trace p ++ [topic])%list message with
      | Raise e =>
          fst (publish_to_pubsub L W cfg (VDict d) p) = Raise e
          /\ trace (snd (publish_to_pubsub L W cfg (VDict d) p))
             = (trace p ++ [topic; message])%list
      | Ok future =>
          fst (publish_to_pubsub L W cfg (VDict d) p)
          = respond W (trace p ++ [topic; message])%list (FutureResult future 10)
          /\ trace (snd (publish_to_pubsub L W cfg (VDict d) p))
             = (trace p ++ [topic; message; FutureResult future 10])%list
      end
  end.
Proof.
  intros Hg topic. rewrite (publish_to_pubsub_runs p client d Hg). cbv zeta.
  fold topic.
  destruct (respond W (trace p) topic) as [topic_path | e];
    [| split; reflexivity].
  destruct (construct W _ _) as [future | e].
  2:{ cbn [fst snd trace called logged]. rewrite <- app_assoc.
      split; reflexivity. }
  destruct (respond W _ (FutureResult future 10)) as [id | e];
    cbn [fst snd trace called logged]; rewrite <- !app_assoc;
    split; reflexivity.
Qed.

Lemma get_publisher_client_publishes_nothing p r p1 :
  _get_publisher_client L W cfg p = (r, p1) ->
  filter is_Publish (trace p1) = filter is_Publish (trace p).
Proof.
  unfold _get_publisher_client. monad_unfold.
  destruct p as [[cached |] tr lg]; cbn [globals trace logs].
  - intros H. inversion H; subst. reflexivity.
  - destruct (pubsub_v1 cfg); cbn [negb];
      [| intros H; inversion H; subst; reflexivity].
    destruct (env_value (GCP_PUBSUB_SECRET_NAME cfg)) as [name |];
      [| intros H; inversion H; subst; reflexivity].
    destruct (env_value (GCP_PROJECT_ID cfg)) as [project |];
      [| intros H; inversion H; subst; reflexivity].
    repeat first
      [ world_step
      | match goal with
        | |- context [py_get ?a ?k ?d] => destruct (py_get a k d)
        | |- context [py_json_loads L ?k] => destruct (py_json_loads L k)
        | |- context [negb (truthy ?k)] => destruct (truthy k); cbn [negb]
        end ];
      intros H; inversion H; subst; cbn [trace];
      rewrite ?filter_app; cbn [filter is_Publish]; rewrite ?app_nil_r;
      reflexivity.
Qed.

(** X11. A body that is not a JSON object is never published:
    [publish_to_pubsub] raises, and no [Publish] call is made. *)
Theorem publish_to_pubsub_needs_object event_data p :
  isinstance_dict event_data = false ->
  (exists e, fst (publish_to_pubsub L W cfg event_data p) = Raise e)
  /\ filter is_Publish (trace (snd (publish_to_pubsub L W cfg event_data p)))
     = filter is_Publish (trace p).
Proof.
  intros Hd.
  destruct (publish_to_pubsub L W cfg event_data p) as [r p'] eqn:Hrun.
  revert Hrun. unfold publish_to_pubsub. unfold try_except, bind at 1.
  destruct (_get_publisher_client L W cfg p) as [[client | e] p1] eqn:Hc;
    pose proof (get_publisher_client_publishes_nothing _ _ _ Hc) as Hp.
  - monad_unfold.
    assert (Hget : py_get event_data "status" (VStr "unknown")
                   = Raise (attribute_error event_data "get")).
    { destruct event_data; try reflexivity. discriminate. }
    rewrite Hget.
    match goal with
    | |- context [respond W ?t ?c] => destruct (respond W t c)
    end; intros H; inversion H; subst; cbn [fst snd trace];
      (split; [eauto |]);
      rewrite filter_app; cbn [filter is_Publish]; rewrite app_nil_r; exact Hp.
  - monad_unfold. intros H. inversion H; subst. cbn [fst snd trace].
    split; [eauto | exact Hp].
Qed.

End GcpPubsubMore.

(** ** src/cloud-function/main.py: a message without data *)
Section CloudFunctionMore.
Import CloudFunction.
Variable L : pylib.
Variable W : world.

(** X12. A message without a [data] field is dropped: the handler logs a
    warning and returns normally, so the platform does not retry it, and
    nothing is read from the clock or written to the store. *)
Theorem pubsub_to_firestore_drops_empty event context p :
  py_contains "data" event = Ok false ->
  pubsub_to_firestore L W event context p
  = (Ok tt, logged p WARNING "No data in Pub/Sub message").
Proof.
  intros H. unfold pubsub_to_firestore, try_except, process_message.
  unfold bind at 1, lift at 1. rewrite H. reflexivity.
Qed.

End CloudFunctionMore.

(** ** src/lambda-whatsapp/whatsapp_sender.py: the guards, the message and
    the calls *)
Section WhatsappSenderMore.
Import WhatsappSender.
Variable L : pylib.
Variable W : world.
Variable cfg : config.

(** An envelope in which no record comes from the notification service
    carries no event data. *)
Lemma scan_records_other_sources records :
  Forall (fun record =>
            exists rd, record = VDict rd
                       /\ py_eq_str (dict_get rd "EventSource" VNone) "aws:sns"
                          = false) records ->
  scan_records L records = Ok VNone.
Proof.
  induction 1 as [| record rest (rd & -> & Hsrc) _ IH]; simpl.
  - reflexivity.
  - rewrite Hsrc. exact IH.
Qed.

(** X13. Without event data the handler answers 400 and calls no service,
    whether or not recipients are configured.  That is the case when the
    extracted event data is falsy (an empty payload, a notification whose
    message decodes to null, 0 or an empty container), and in particular for
    an envelope none of whose records comes from the notification
    service. *)
Theorem lambda_handler_no_event_data event context p :
  (forall event_data,
      extract_event_data L event = Ok event_data ->
      truthy event_data = false ->
      lambda_handler L W cfg event context p
      = (Ok (VDict [("statusCode", VInt 400);
                    ("body", VStr (json_dumps L
                                     (VDict [("error", VStr "No event data")])))]),
         logged p INFO ("Received event: " ++ json_dumps L event)))
  /\ (forall d records,
         event = VDict d ->
         dict_lookup "Records" d = Some (VList records) ->
         Forall (fun record =>
                   exists rd, record = VDict rd
                              /\ py_eq_str (dict_get rd "EventSource" VNone)
                                   "aws:sns" = false) records ->
         lambda_handler L W cfg event context p
         = (Ok (VDict [("statusCode", VInt 400);
                       ("body", VStr (json_dumps L
                                        (VDict [("error", VStr "No event data")])))]),
            logged p INFO ("Received event: " ++ json_dumps L event))).
Proof.
  assert (Hgen : forall event_data,
      extract_event_data L event = Ok event_data ->
      truthy event_data = false ->
      lambda_handler L W cfg event context p
      = (Ok (VDict [("statusCode", VInt 400);
                    ("body", VStr (json_dumps L
                                     (VDict [("error", VStr "No event data")])))]),
         logged p INFO ("Received event: " ++ json_dumps L event))).
  { intros event_data Hd Ht. unfold lambda_handler.
    unfold bind at 1, log at 1. unfold bind at 1, lift at 1.
    rewrite Hd, Ht. reflexivity. }
  split; [exact Hgen |].
  intros d records -> Hr Hall. apply (Hgen VNone); [| reflexivity].
  unfold extract_event_data. cbn [py_contains rbind]. unfold dict_mem.
  rewrite Hr. cbn [py_getitem]. rewrite Hr. cbn [rbind py_iter].
  apply scan_records_other_sources. exact Hall.
Qed.

(** X14. With event data but no recipients configured ([WHATSAPP_TO] unset
    or empty) the handler answers 200 "WhatsApp not configured": no secret
    is fetched and no message is sent. *)
Theorem lambda_handler_not_configured event context p event_data :
  extract_event_data L event = Ok event_data ->
  truthy event_data = true ->
  env_value (WHATSAPP_TO cfg) = None ->
  lambda_handler L W cfg event context p
  = (Ok (VDict [("statusCode", VInt 200);
                ("body", VStr (json_dumps L
                                 (VDict [("message",
                                          VStr "WhatsApp not configured")])))]),
     logged (logged p INFO ("Received event: " ++ json_dumps L event))
            WARNING "WHATSAPP_TO not configured, skipping WhatsApp alerts").
Proof.
  intros Hd Ht Hto. unfold lambda_handler.
  unfold bind at 1, log at 1. unfold bind at 1, lift at 1.
  rewrite Hd, Ht, Hto. reflexivity.
Qed.

Lemma startswith_app prefix rest : startswith prefix (prefix ++ rest) = true.
Proof.
  unfold startswith. induction prefix as [| c prefix IH]; simpl.
  - destruct rest; reflexivity.
  - destruct (ascii_dec c c) as [_ | Hc]; [exact IH | contradiction].
Qed.

(** X15. The recipient format is a normal form: a formatted recipient starts
    with the prefix "whatsapp:", and formatting it again changes nothing. *)
Theorem whatsapp_format_idempotent recipient :
  startswith "whatsapp:" (whatsapp_format recipient) = true
  /\ whatsapp_format (whatsapp_format recipient) = whatsapp_format recipient.
Proof.
  assert (H : startswith "whatsapp:" (whatsapp_format recipient) = true).
  { unfold whatsapp_format.
    destruct (startswith "whatsapp:" recipient) eqn:E;
      [exact E | apply startswith_app]. }
  split; [exact H |].
  unfold whatsapp_format at 1. rewrite H. reflexivity.
Qed.

(** The formatter raises on event data that is not formattable. *)
Lemma format_whatsapp_message_formattable event_data :
  match _format_whatsapp_message L event_data with
  | Ok _ => formattable event_data = true
  | Raise _ => formattable event_data = false
  end.
Proof.
  unfold _format_whatsapp_message, formattable.
  destruct event_data as [| | | | | d]; try reflexivity.
  cbn [py_get rbind].
  destruct (dict_get d "status" (VStr "unknown")) as [| | | s | |];
    try reflexivity.
  assert (He : exists e, status_emoji (VStr s) = Ok e).
  { unfold status_emoji.
    repeat match goal with
           | |- context [match ?x with _ => _ end] => destruct x
           end; eauto. }
  destruct He as [emoji ->]. cbn [rbind py_upper isinstance_str andb].
  destruct (dict_get d "errors" (VList [])) as [| b | z | e | l | ed];
    cbn [truthy negb orb has_len py_len rbind].
  - reflexivity.
  - destruct b; reflexivity.
  - destruct (negb (z =? 0)); reflexivity.
  - destruct (negb (String.eqb e "")); [| reflexivity].
    destruct (Z.of_nat (String.length e) <=? 3); reflexivity.
  - destruct l as [| x l']; [reflexivity |].
    destruct (Z.of_nat (List.length (x :: l')) <=? 3); reflexivity.
  - destruct ed as [| x ed']; [reflexivity |].
    destruct (Z.of_nat (List.length (x :: ed')) <=? 3); reflexivity.
Qed.

(** X16. [_format_whatsapp_message] returns exactly on the event data that is
    a dict whose [status] is a string and whose [errors], when truthy, have a
    length; on anything else it raises. *)
Theorem format_whatsapp_message_domain event_data :
  match _format_whatsapp_message L event_data with
  | Ok _ => formattable event_data = true
  | Raise _ => formattable event_data = false
  end.
Proof.
  exact (format_whatsapp_message_formattable event_data).
Qed.

Ltac wa_step :=
  match goal with
  | |- context [respond W ?t ?c] => destruct (respond W t c) eqn:?
  | |- context [construct W ?t ?c] => destruct (construct W t c) eqn:?
  end.

Ltac wa_unfold :=
  unfold bind, get_globals, set_globals, try_except, sdk, sdk_new, lift,
    raise, log, ret, called, stored, logged.

(** X17. A call of [_get_twilio_client] that raises caches nothing.  When the
    library is missing or the secret name is unset or empty, it raises before
    any service is called and leaves the process as it is; otherwise its
    first call fetched the secret. *)
Theorem get_twilio_client_failure p e p1 :
  _get_twilio_client L W cfg p = (Raise e, p1) ->
  globals p1 = globals p
  /\ globals p = None
  /\ match twilio cfg, env_value (TWILIO_SECRET_NAME cfg) with
     | true, Some name =>
         exists rest, trace p1 = (trace p ++ GetSecretValue name :: rest)%list
     | false, _ => p1 = p /\ exn_cls e = ImportError
     | true, None => p1 = p /\ exn_cls e = ValueError
     end.
Proof.
  unfold _get_twilio_client. wa_unfold.
  destruct p as [[cached |] tr lg]; cbn [globals trace logs]; [discriminate |].
  destruct (twilio cfg); cbn [negb].
  2:{ intros H. inversion H; subst. repeat split. }
  destruct (env_value (TWILIO_SECRET_NAME cfg)) as [name |].
  2:{ intros H. inversion H; subst. repeat split. }
  wa_step.
  2:{ intros H. inversion H; subst. repeat split. exists []. reflexivity. }
  match goal with
  | |- context [py_get ?a ?k ?d] => destruct (py_get a k d) as [secret |]
  end.
  2:{ intros H. inversion H; subst. repeat split. exists []. reflexivity. }
  destruct (truthy secret); cbn [negb].
  2:{ intros H. inversion H; subst. repeat split. exists []. reflexivity. }
  destruct (py_json_loads L secret) as [creds |].
  2:{ intros H. inversion H; subst. repeat split. exists []. reflexivity. }
  destruct (py_get creds "account_sid" VNone) as [sid |].
  2:{ intros H. inversion H; subst. repeat split. exists []. reflexivity. }
  destruct (py_get creds "auth_token" VNone) as [token |].
  2:{ intros H. inversion H; subst. repeat split. exists []. reflexivity. }
  destruct (negb (truthy sid) || negb (truthy token)).
  { intros H. inversion H; subst. repeat split. exists []. reflexivity. }
  wa_step; [discriminate |].
  intros H. inversion H; subst. repeat split. eexists.
  cbn [trace]. rewrite <- app_assoc. reflexivity.
Qed.

(** The client getter sends no message. *)
Lemma get_twilio_client_sends_nothing p r p1 :
  _get_twilio_client L W cfg p = (r, p1) ->
  filter is_MessagesCreate (trace p1) = filter is_MessagesCreate (trace p).
Proof.
  unfold _get_twilio_client. wa_unfold.
  destruct p as [[cached |] tr lg]; cbn [globals trace logs].
  - intros H. inversion H; subst. reflexivity.
  - destruct (twilio cfg); cbn [negb];
      [| intros H; inversion H; subst; reflexivity].
    destruct (env_value (TWILIO_SECRET_NAME cfg)) as [name |];
      [| intros H; inversion H; subst; reflexivity].
    repeat first
      [ wa_step
      | match goal with
        | |- context [py_get ?a ?k ?d] => destruct (py_get a k d)
        | |- context [py_json_loads L ?k] => destruct (py_json_loads L k)
        | |- context [negb (truthy ?a) || negb (truthy ?b)] =>
            destruct (negb (truthy a) || negb (truthy b))
        | |- context [negb (truthy ?k)] => destruct (truthy k); cbn [negb]
        end ];
      intros H; inversion H; subst; cbn [trace];
      rewrite ?filter_app; cbn [filter is_MessagesCreate]; rewrite ?app_nil_r;
      reflexivity.
Qed.

(** One send with the client cached and a message that formats. *)
Lemma send_whatsapp_alert_cached event_data recipient p client body :
  globals p = Some client ->
  _format_whatsapp_message L event_data = Ok body ->
  let c := MessagesCreate client (WHATSAPP_FROM cfg) recipient body in
  globals (snd (send_whatsapp_alert L W cfg event_data recipient p)) = Some client
  /\ trace (snd (send_whatsapp_alert L W cfg event_data recipient p))
     = (trace p ++ [c])%list
  /\ fst (send_whatsapp_alert L W cfg event_data recipient p)
     = respond W (trace p) c.
Proof.
  intros Hg Hf c.
  destruct (send_whatsapp_alert L W cfg event_data recipient p) as [r p'] eqn:Hrun.
  revert Hrun. unfold send_whatsapp_alert.
  unfold try_except, bind at 1.
  rewrite (get_twilio_client_cached L W cfg p client Hg).
  unfold bind at 1, lift at 1. rewrite Hf.
  wa_unfold. unfold module_globals. fold c.
  destruct (respond W (trace p) c); intros H; inversion H; subst;
    cbn [fst snd globals trace]; repeat split; exact Hg.
Qed.

Lemma send_all_cons event_data r rest results p :
  send_all L W cfg event_data (r :: rest) results p =
    match send_whatsapp_alert L W cfg event_data (whatsapp_format r) p with
    | (Ok sid, p1) =>
        send_all L W cfg event_data rest
          (results ++ [sent (whatsapp_format r) sid])%list p1
    | (Raise exc, p1) =>
        send_all L W cfg event_data rest
          (results ++ [failed (whatsapp_format r) (exn_str exc)])%list p1
    end.
Proof.
  simpl send_all. unfold bind at 1, try_except, bind at 1.
  destruct (send_whatsapp_alert L W cfg event_data (whatsapp_format r) p)
    as [[sid | exc] p1]; reflexivity.
Qed.

Lemma send_all_calls event_data recipients client body :
  _format_whatsapp_message L event_data = Ok body ->
  forall results p,
    globals p = Some client ->
    globals (snd (send_all L W cfg event_data recipients results p)) = Some client
    /\ trace (snd (send_all L W cfg event_data recipients results p))
       = (trace p
            ++ map (fun r => MessagesCreate client (WHATSAPP_FROM cfg)
                               (whatsapp_format r) body) recipients)%list.
Proof.
  intros Hf. induction recipients as [| r rest IH]; intros results p Hg.
  - simpl. rewrite app_nil_r. split; [exact Hg | reflexivity].
  - destruct (send_whatsapp_alert_cached event_data (whatsapp_format r) p client
                body Hg Hf) as (Hg1 & Ht1 & _).
    rewrite send_all_cons.
    destruct (send_whatsapp_alert L W cfg event_data (whatsapp_format r) p)
      as [[sid | exc] p1]; cbn [fst snd] in *;
      match goal with
      | |- context [send_all L W cfg event_data rest ?res p1] =>
          destruct (IH res p1 Hg1) as [Hg2 Ht2]
      end;
      unfold module_globals in *;
      rewrite Hg2, Ht2, Ht1, <- app_assoc; split; reflexivity.
Qed.

(** With event data and recipients, the handler is its send loop. *)
Lemma lambda_handler_is_send_all event context p event_data whatsapp_to :
  extract_event_data L event = Ok event_data ->
  truthy event_data = true ->
  env_value (WHATSAPP_TO cfg) = Some whatsapp_to ->
  lambda_handler L W cfg event context p =
    match send_all L W cfg event_data (recipients_of whatsapp_to) []
            (logged p INFO ("Received event: " ++ json_dumps L event)) with
    | (Ok results, p') =>
        (Ok (VDict [("statusCode", VInt 200);
                    ("body",
                     VStr (json_dumps L
                             (VDict [("message", VStr "WhatsApp alerts processed");
                                     ("results", VList results)])))]), p')
    | (Raise e, p') => (Raise e, p')
    end.
Proof.
  intros Hd Ht Hto. unfold lambda_handler.
  unfold bind at 1, log at 1. unfold bind at 1, lift at 1.
  rewrite Hd, Ht, Hto. cbn [negb]. unfold bind at 1.
  destruct (send_all L W cfg event_data (recipients_of whatsapp_to) [] _)
    as [[results | e] p']; reflexivity.
Qed.

(** X18. With the client cached and event data that formats, the handler
    makes exactly one call to the messaging API per recipient, in the order
    of the list, each from [WHATSAPP_FROM] to the formatted recipient and
    with the same body, and no other call. *)
Theorem lambda_handler_one_call_each event context p event_data whatsapp_to
        client body :
  extract_event_data L event = Ok event_data ->
  truthy event_data = true ->
  env_value (WHATSAPP_TO cfg) = Some whatsapp_to ->
  globals p = Some client ->
  _format_whatsapp_message L event_data = Ok body ->
  trace (snd (lambda_handler L W cfg event context p))
  = (trace p
       ++ map (fun r => MessagesCreate client (WHATSAPP_FROM cfg)
                          (whatsapp_format r) body)
              (recipients_of whatsapp_to))%list.
Proof.
  intros Hd Ht Hto Hg Hf.
  rewrite (lambda_handler_is_send_all event context p _ _ Hd Ht Hto).
  destruct (send_all_calls event_data (recipients_of whatsapp_to) client body Hf
              [] (logged p INFO ("Received event: " ++ json_dumps L event)) Hg)
    as [_ Htr].
  destruct (send_all L W cfg event_data (recipients_of whatsapp_to) [] _)
    as [[results | e] p'] eqn:Hrun; cbn [fst snd] in *; exact Htr.
Qed.

(** One send with event data that does not format. *)
Lemma send_whatsapp_alert_unformattable event_data recipient p :
  formattable event_data = false ->
  (exists e, fst (send_whatsapp_alert L W cfg event_data recipient p) = Raise e)
  /\ filter is_MessagesCreate
       (trace (snd (send_whatsapp_alert L W cfg event_data recipient p)))
     = filter is_MessagesCreate (trace p).
Proof.
  intros Hf.
  pose proof (format_whatsapp_message_formattable event_data) as Hdom.
  destruct (_format_whatsapp_message L event_data) as [body | e0] eqn:Hfmt;
    [congruence |]. clear Hdom.
  destruct (send_whatsapp_alert L W cfg event_data recipient p) as [r p'] eqn:Hrun.
  revert Hrun. unfold send_whatsapp_alert. unfold try_except, bind at 1.
  destruct (_get_twilio_client L W cfg p) as [[client | e] p1] eqn:Hc;
    pose proof (get_twilio_client_sends_nothing _ _ _ Hc) as Hp.
  - unfold bind at 1, lift at 1. rewrite Hfmt. wa_unfold.
    intros H. inversion H; subst. cbn [fst snd trace]. split; [eauto | exact Hp].
  - wa_unfold. intros H. inversion H; subst. cbn [fst snd trace].
    split; [eauto | exact Hp].
Qed.

Lemma send_all_unformattable event_data recipients :
  formattable event_data = false ->
  forall results p,
    filter is_MessagesCreate
      (trace (snd (send_all L W cfg event_data recipients results p)))
    = filter is_MessagesCreate (trace p)
    /\ exists entries,
        fst (send_all L W cfg event_data recipients results p)
        = Ok (results ++ entries)%list
        /\ Forall2 (fun r entry => exists e, entry = failed (whatsapp_format r) (exn_str e))
                   recipients entries.
Proof.
  intros Hf. induction recipients as [| r rest IH]; intros results p.
  - simpl. split; [reflexivity |]. exists []. rewrite app_nil_r.
    split; [reflexivity | constructor].
  - destruct (send_whatsapp_alert_unformattable event_data (whatsapp_format r) p Hf)
      as ((e & He) & Htr).
    rewrite send_all_cons.
    destruct (send_whatsapp_alert L W cfg event_data (whatsapp_format r) p)
      as [[sid | exc] p1]; cbn [fst snd] in *; [discriminate |].
    destruct (IH (results ++ [failed (whatsapp_format r) (exn_str exc)])%list p1)
      as (Htr2 & entries & Hrun & Hall).
    split; [rewrite Htr2; exact Htr |].
    exists (failed (whatsapp_format r) (exn_str exc) :: entries).
    rewrite Hrun, <- app_assoc. split; [reflexivity |].
    constructor; [eauto | exact Hall].
Qed.

(** X19. Event data that does not format (it is not a dict, its status is
    not a string, or its errors cannot be counted) is never sent: the handler
    makes no call to the messaging API, and still answers 200, with one
    [failed] entry per recipient. *)
Theorem lambda_handler_unformattable event context p event_data whatsapp_to :
  extract_event_data L event = Ok event_data ->
  truthy event_data = true ->
  env_value (WHATSAPP_TO cfg) = Some whatsapp_to ->
  formattable event_data = false ->
  filter is_MessagesCreate (trace (snd (lambda_handler L W cfg event context p)))
  = filter is_MessagesCreate (trace p)
  /\ exists entries,
      fst (lambda_handler L W cfg event context p)
      = Ok (VDict [("statusCode", VInt 200);
                   ("body",
                    VStr (json_dumps L
                            (VDict [("message", VStr "WhatsApp alerts processed");
                                    ("results", VList entries)])))])
      /\ Forall2 (fun r entry => exists e, entry = failed (whatsapp_format r) (exn_str e))
                 (recipients_of whatsapp_to) entries.
Proof.
  intros Hd Ht Hto Hf.
  destruct (send_all_unformattable event_data (recipients_of whatsapp_to) Hf []
              (logged p INFO ("Received event: " ++ json_dumps L event)))
    as (Htr & entries & Hrun & Hall).
  rewrite (lambda_handler_is_send_all event context p _ _ Hd Ht Hto).
  destruct (send_all L W cfg event_data (recipients_of whatsapp_to) [] _)
    as [[results | e] p'] eqn:Hs; cbn [fst snd] in *; [| discriminate].
  inversion Hrun; subst. split; [exact Htr |].
  exists entries. split; [reflexivity | exact Hall].
Qed.

(** X20. The text of a notification that is not JSON does not reach the
    messaging API: the event data becomes a dict holding it under [message],
    a key the formatter does not read, and the message sent is the generic
    update with the defaults. *)
Theorem non_json_notification_is_generic d records r sns raw :
  dict_lookup "Records" d = Some (VList records) ->
  SlackPoster.first_sns records = Some (VDict r) ->
  dict_lookup "Sns" r = Some (VDict sns) ->
  dict_lookup "Message" sns = Some (VStr raw) ->
  json_loads L raw = None ->
  extract_event_data L (VDict d) = Ok (VDict [("message", VStr raw)])
  /\ _format_whatsapp_message L (VDict [("message", VStr raw)])
     = Ok (join nl ["ℹ️ *Daily Coordinator Update*";
                    "";
                    "*ID:* Unknown";
                    "*Status:* UNKNOWN";
                    "*Tasks:* " ++ py_repr L (VInt 0)]).
Proof.
  intros Hr Hfirst Hsns Hmsg Hjson. split; [| reflexivity].
  unfold extract_event_data. cbn [py_contains rbind]. unfold dict_mem.
  rewrite Hr. cbn [py_getitem]. rewrite Hr. cbn [rbind py_iter].
  clear Hr. induction records as [| record rest IH]; [discriminate |].
  cbn [SlackPoster.first_sns] in Hfirst.
  destruct record as [| | | | | rd]; try discriminate.
  cbn [scan_records py_get rbind].
  destruct (py_eq_str (dict_get rd "EventSource" VNone) "aws:sns").
  - inversion Hfirst; subst. cbn [py_getitem]. rewrite Hsns.
    cbn [rbind py_getitem]. rewrite Hmsg. cbn [rbind py_json_loads].
    rewrite Hjson. reflexivity.
  - apply IH. exact Hfirst.
Qed.

End WhatsappSenderMore.

(** ** Code that does not read the log *)
Section LogBlind.
Context {G : Type}.
Variable W : world.

Lemma log_blind_ret {A} (a : A) : log_blind (@ret G A a).
Proof. intros p q H. split; [reflexivity | exact H]. Qed.

Lemma log_blind_raise {A} e : log_blind (@raise G A e).
Proof. intros p q H. split; [reflexivity | exact H]. Qed.

Lemma log_blind_lift {A} (r : result A) : log_blind (@lift G A r).
Proof. intros p q H. split; [reflexivity | exact H]. Qed.

Lemma log_blind_log l msg : log_blind (@log G l msg).
Proof. intros p q [Hg Ht]. split; [reflexivity | split; assumption]. Qed.

Lemma log_blind_get_globals : log_blind (@get_globals G).
Proof.
  intros p q [Hg Ht]. unfold get_globals. cbn [fst snd].
  split; [rewrite Hg; reflexivity | split; assumption].
Qed.

Lemma log_blind_set_globals g : log_blind (@set_globals G g).
Proof.
  intros p q [Hg Ht]. split; [reflexivity | split; [reflexivity | exact Ht]].
Qed.

Lemma log_blind_sdk c : log_blind (@sdk W G c).
Proof.
  intros p q [Hg Ht]. unfold sdk, same_run, called. cbn [fst snd globals trace].
  rewrite Hg, Ht. repeat split.
Qed.

Lemma log_blind_sdk_new c : log_blind (@sdk_new W G c).
Proof.
  intros p q [Hg Ht]. unfold sdk_new, same_run, called.
  cbn [fst snd globals trace]. rewrite Hg, Ht. repeat split.
Qed.

Lemma log_blind_utcnow : log_blind (@utcnow W G).
Proof.
  intros p q [Hg Ht]. unfold utcnow, same_run, called.
  cbn [fst snd globals trace]. rewrite Hg, Ht. repeat split.
Qed.

Lemma log_blind_bind {A B} (m : M G A) (k : A -> M G B) :
  log_blind m -> (forall a, log_blind (k a)) -> log_blind (bind m k).
Proof.
  intros Hm Hk p q H. destruct (Hm p q H) as [Hr Hs]. unfold bind.
  destruct (m p) as [[a | e] p1], (m q) as [[a' | e'] q1];
    cbn [fst snd] in *; try discriminate.
  - inversion Hr; subst. apply Hk. exact Hs.
  - inversion Hr; subst. split; [reflexivity | exact Hs].
Qed.

Lemma log_blind_try_except {A} (body : M G A) handler :
  log_blind body -> (forall e, log_blind (handler e)) ->
  log_blind (try_except body handler).
Proof.
  intros Hm Hk p q H. destruct (Hm p q H) as [Hr Hs]. unfold try_except.
  destruct (body p) as [[a | e] p1], (body q) as [[a' | e'] q1];
    cbn [fst snd] in *; try discriminate.
  - split; [exact Hr | exact Hs].
  - inversion Hr; subst. apply Hk. exact Hs.
Qed.

End LogBlind.

Ltac log_blind_step :=
  first
    [ apply log_blind_bind; [| intros ?]
    | apply log_blind_try_except; [| intros ?]
    | apply log_blind_ret
    | apply log_blind_raise
    | apply log_blind_lift
    | apply log_blind_log
    | apply log_blind_get_globals
    | apply log_blind_set_globals
    | apply log_blind_sdk
    | apply log_blind_sdk_new
    | apply log_blind_utcnow
    | match goal with
      | |- log_blind (if ?b then _ else _) => destruct b
      | |- log_blind (match ?x with _ => _ end) => destruct x
      end ].

(** ** src/lambda/index.py: the helpers, the calls of a run, the event *)
Section IndexMore.
Import Index.
Variable L : pylib.
Variable W : world.
Variable cfg : config.

Lemma get_secrets_log_blind : log_blind (get_secrets L W cfg).
Proof. unfold get_secrets. repeat log_blind_step. Qed.

Lemma save_state_log_blind id state :
  log_blind (save_state_to_dynamodb L W cfg id state).
Proof. unfold save_state_to_dynamodb. repeat log_blind_step. Qed.

Lemma upload_cache_log_blind key data :
  log_blind (upload_cache_to_s3 L W cfg key data).
Proof. unfold upload_cache_to_s3. repeat log_blind_step. Qed.

Lemma publish_alert_log_blind subject message :
  log_blind (publish_alert W cfg subject message).
Proof. unfold publish_alert. repeat log_blind_step. Qed.

Lemma coordinate_daily_tasks_log_blind :
  log_blind (coordinate_daily_tasks L W cfg).
Proof.
  unfold coordinate_daily_tasks, run_tasks, run_failed, publish_outcome,
    count_task, record_error.
  repeat first
    [ apply get_secrets_log_blind
    | apply save_state_log_blind
    | apply upload_cache_log_blind
    | apply publish_alert_log_blind
    | log_blind_step ].
Qed.


(** [get_secrets], step by step: what it returns, calls and logs. *)
Lemma get_secrets_runs p :
  get_secrets L W cfg p =
    match SECRETS_MANAGER_ARN cfg with
    | None =>
        (Ok (VDict []),
         logged p ERROR
           ("Error retrieving secrets: "
              ++ exn_str (attribute_error VNone "split")))
    | Some arn =>
        let fetch := GetSecretValue (last (split_on ":" arn) "") in
        let failure e :=
          (Ok (VDict []),
           logged (called p fetch) ERROR
             ("Error retrieving secrets: " ++ exn_str e)) in
        match respond W (trace p) fetch with
        | Raise e => failure e
        | Ok response =>
            match py_contains "SecretString" response with
            | Raise e => failure e
            | Ok false =>
                (Ok (VDict []),
                 logged (called p fetch) WARNING
                   "Secrets not found in Secrets Manager")
            | Ok true =>
                match py_getitem response "SecretString" with
                | Raise e => failure e
                | Ok text =>
                    match py_json_loads L text with
                    | Raise e => failure e
                    | Ok secrets => (Ok secrets, called p fetch)
                    end
                end
            end
        end
    end.
Proof.
  unfold get_secrets, secret_name_of_arn, try_except, bind, lift, sdk, log, ret.
  destruct (SECRETS_MANAGER_ARN cfg) as [arn |]; [| reflexivity].
  cbv zeta. unfold frame in *.
  destruct (respond W (trace p) (GetSecretValue (last (split_on ":" arn) "")))
    as [response | e]; [| reflexivity].
  destruct (py_contains "SecretString" response) as [[|] | e];
    [| reflexivity | reflexivity].
  destruct (py_getitem response "SecretString") as [text | e];
    [| reflexivity].
  destruct (py_json_loads L text) as [secrets | e]; reflexivity.
Qed.


(** X22. [get_secrets] never raises, and what it returns is determined by
    the secret store's answer.  Without the ARN setting it returns an empty
    dict and calls nothing.  With it, it asks once for the secret named by
    the last colon-separated field of the ARN, and returns the decoded
    [SecretString] of the answer when the answer holds one and it decodes;
    it returns an empty dict in every other case: the call raises, the
    answer has no [SecretString] or cannot be searched, or the string does
    not decode.  A secret that is decoded is returned without a log line;
    every other case logs one line. *)
Theorem get_secrets_never_raises p :
  fst (get_secrets L W cfg p)
  = Ok match SECRETS_MANAGER_ARN cfg with
       | None => VDict []
       | Some arn =>
           match respond W (trace p)
                   (GetSecretValue (last (split_on ":" arn) "")) with
           | Ok response =>
               match py_contains "SecretString" response,
                     py_getitem response "SecretString" with
               | Ok true, Ok text =>
                   match py_json_loads L text with
                   | Ok secrets => secrets
                   | Raise _ => VDict []
                   end
               | _, _ => VDict []
               end
           | Raise _ => VDict []
           end
       end
  /\ globals (snd (get_secrets L W cfg p)) = globals p
  /\ trace (snd (get_secrets L W cfg p))
     = match SECRETS_MANAGER_ARN cfg with
       | None => trace p
       | Some arn =>
           (trace p ++ [GetSecretValue (last (split_on ":" arn) "")])%list
       end
  /\ List.length (logs (snd (get_secrets L W cfg p)))
     = match SECRETS_MANAGER_ARN cfg with
       | None => S (List.length (logs p))
       | Some arn =>
           match respond W (trace p)
                   (GetSecretValue (last (split_on ":" arn) "")) with
           | Ok response =>
               match py_contains "SecretString" response,
                     py_getitem response "SecretString" with
               | Ok true, Ok text =>
                   match py_json_loads L text with
                   | Ok _ => List.length (logs p)
                   | Raise _ => S (List.length (logs p))
                   end
               | _, _ => S (List.length (logs p))
               end
           | Raise _ => S (List.length (logs p))
           end
       end.
Proof.
  rewrite get_secrets_runs.
  destruct (SECRETS_MANAGER_ARN cfg) as [arn |].
  2:{ cbn [fst snd globals trace logs logged]. rewrite length_app, Nat.add_comm.
      repeat split. }
  cbv zeta.
  destruct (respond W (trace p) (GetSecretValue (last (split_on ":" arn) "")))
    as [response | e].
  2:{ cbn [fst snd globals trace logs logged called].
      rewrite length_app, Nat.add_comm. repeat split. }
  destruct (py_contains "SecretString" response) as [[|] | e].
  2,3: cbn [fst snd globals trace logs logged called];
       rewrite length_app, Nat.add_comm; repeat split.
  destruct (py_getitem response "SecretString") as [text | e].
  2:{ cbn [fst snd globals trace logs logged called].
      rewrite length_app, Nat.add_comm. repeat split. }
  destruct (py_json_loads L text) as [secrets | e].
  2:{ cbn [fst snd globals trace logs logged called].
      rewrite length_app, Nat.add_comm. repeat split. }
  repeat split.
Qed.

Lemma uses_app d1 d2 s1 i1 o1 a1 s2 i2 o2 a2 :
  uses d1 s1 i1 o1 a1 -> uses d2 s2 i2 o2 a2 ->
  uses (d1 ++ d2) (s1 + s2) (i1 + i2) (o1 + o2) (a1 + a2).
Proof.
  unfold uses, count. intros (A1 & B1 & C1 & D1) (A2 & B2 & C2 & D2).
  rewrite !filter_app, !length_app. repeat split; lia.
Qed.

Ltac calls_done :=
  do 2 eexists;
  first
    [ exists []; split; [reflexivity |];
      split; [reflexivity |];
      split; [cbn [trace]; symmetry; apply app_nil_r |];
      unfold uses, count; cbn; repeat split; lia
    | eexists; split; [reflexivity |];
      split; [reflexivity |];
      split; [cbn [trace]; rewrite <- ?app_assoc; reflexivity |];
      unfold uses, count; cbn; repeat split; lia ].

Ltac index_step :=
  match goal with
  | |- context [respond W ?t ?c] => destruct (respond W t c)
  | |- context [construct W ?t ?c] => destruct (construct W t c)
  | |- context [py_contains ?k ?v] => destruct (py_contains k v) as [[|] |]
  | |- context [py_getitem ?v ?k] => destruct (py_getitem v k)
  | |- context [py_json_loads L ?v] => destruct (py_json_loads L v)
  | |- context [py_get ?v ?k ?d] => destruct (py_get v k d)
  end.

Lemma get_secrets_calls p :
  exists secrets p1 d,
    get_secrets L W cfg p = (Ok secrets, p1)
    /\ globals p1 = globals p
    /\ trace p1 = (trace p ++ d)%list
    /\ uses d 1 0 0 0.
Proof.
  unfold get_secrets, try_except, bind, lift, sdk, log, ret, called, logged.
  destruct (secret_name_of_arn cfg); [| calls_done].
  repeat index_step; calls_done.
Qed.

Lemma save_state_calls id state p :
  exists saved p1 d,
    save_state_to_dynamodb L W cfg id state p = (Ok saved, p1)
    /\ globals p1 = globals p
    /\ trace p1 = (trace p ++ d)%list
    /\ uses d 0 1 0 0.
Proof.
  unfold save_state_to_dynamodb, try_except, bind, lift, sdk, sdk_new, utcnow,
    log, ret, called, logged.
  repeat index_step; calls_done.
Qed.

Lemma upload_cache_calls key data p :
  exists uploaded p1 d,
    upload_cache_to_s3 L W cfg key data p = (Ok uploaded, p1)
    /\ globals p1 = globals p
    /\ trace p1 = (trace p ++ d)%list
    /\ uses d 0 0 1 0.
Proof.
  unfold upload_cache_to_s3, try_except, bind, sdk, log, ret, called, logged.
  repeat index_step; calls_done.
Qed.

(** X23. The calls of a run of [coordinate_daily_tasks]: it uploads the
    cache exactly once and publishes exactly one alert, which is its last
    call; it fetches the secrets at most once and writes at most two items
    to the table. *)
Theorem coordinate_daily_tasks_calls p :
  exists d d' alert,
    trace (snd (coordinate_daily_tasks L W cfg p)) = (trace p ++ d)%list
    /\ (count is_GetSecretValue d <= 1)%nat
    /\ (count is_PutItem d <= 2)%nat
    /\ count is_PutObject d = 1%nat
    /\ count is_SnsPublish d = 1%nat
    /\ d = (d' ++ [alert])%list
    /\ is_SnsPublish alert = true.
Proof.
  set (ts := isoformat (clock W (trace p))).
  set (p0 := stored (called p UtcNow) (initial_results ts)).
  destruct (get_secrets_calls p0)
    as (secrets & p1 & d1 & Hsec & Hg1 & Ht1 & Hu1).
  destruct (save_state_calls coordinator_id (state_data "running" ts)
              (logged p1 INFO "Secrets retrieved successfully"))
    as (saved & p2 & d2 & Hsave & Hg2 & Ht2 & Hu2).
  assert (Hres2 : globals p2 = results_of ts "success" 0 []).
  { rewrite Hg2. simpl. rewrite Hg1. reflexivity. }
  set (p2' := stored p2 (results_of ts "success" (successes saved false)
                           (failures saved true))).
  destruct (upload_cache_calls
              ("cache/" ++ coordinator_id ++ "/"
                 ++ date_str (clock W (trace p2')) ++ ".json")
              (cache_data ts) (called p2' UtcNow))
    as (uploaded & p3 & d3 & Hup & Hg3 & Ht3 & Hu3).
  set (p3' := stored p3 (results_of ts "success" (successes saved uploaded)
                           (failures saved uploaded))).
  destruct (save_state_calls coordinator_id (state_data "completed" ts) p3')
    as (saved' & p4 & d4 & Hsave' & Hg4 & Ht4 & Hu4).
  assert (Hstep1 :
    (if saved then count_task else record_error "Failed to save state to DynamoDB") p2
    = (Ok tt, p2')).
  { unfold p2'. destruct saved.
    - apply (count_task_ok _ _ _ _ _ Hres2).
    - apply (record_error_ok _ _ _ _ _ _ Hres2). }
  assert (Hstep2 :
    (if uploaded then count_task else record_error "Failed to upload cache to S3") p3
    = (Ok tt, p3')).
  { unfold p3'. assert (Hres3 : globals p3 = globals p2') by (rewrite Hg3; reflexivity).
    destruct uploaded.
    - rewrite (count_task_ok _ _ _ _ _ Hres3). destruct saved; reflexivity.
    - rewrite (record_error_ok _ _ _ _ _ _ Hres3). destruct saved; reflexivity. }
  assert (Hres4 : globals p4 = results_of ts "success" (successes saved uploaded)
                                (failures saved uploaded))
    by (rewrite Hg4; reflexivity).
  destruct (publish_outcome_runs W cfg ts p4 _ _ _ _ _ Hres4)
    as (published & message & l & line & Hpub).
  set (alert := SnsPublish (SNS_TOPIC_ARN cfg)
                  (outcome_subject (failures saved uploaded)) message) in *.
  assert (Hrun : snd (coordinate_daily_tasks L W cfg p)
                 = logged (called p4 alert) l line).
  { unfold coordinate_daily_tasks.
    unfold bind at 1, utcnow at 1. unfold bind at 1, set_globals at 1.
    fold ts. fold p0.
    rewrite (try_except_ok (run_tasks L W cfg ts) (run_failed W cfg) p0
               (VDict (globals (logged (called p4 alert) l line)))
               (logged (called p4 alert) l line)); [reflexivity |].
    unfold run_tasks.
    rewrite (bind_ok _ _ _ _ _ Hsec).
    unfold bind at 1, log at 1.
    rewrite (bind_ok _ _ _ _ _ Hsave).
    rewrite (bind_ok _ _ _ _ _ Hstep1).
    unfold bind at 1, utcnow at 1.
    fold p2'.
    rewrite (bind_ok _ _ _ _ _ Hup).
    rewrite (bind_ok _ _ _ _ _ Hstep2).
    rewrite (bind_ok _ _ _ _ _ Hsave').
    rewrite (bind_ok _ _ _ _ _ Hpub).
    reflexivity. }
  rewrite Hrun.
  exists ([UtcNow] ++ d1 ++ d2 ++ [UtcNow] ++ d3 ++ d4 ++ [alert])%list,
         ([UtcNow] ++ d1 ++ d2 ++ [UtcNow] ++ d3 ++ d4)%list, alert.
  assert (Hu : uses ([UtcNow] ++ d1 ++ d2 ++ [UtcNow] ++ d3 ++ d4 ++ [alert]) 1 2 1 1).
  { assert (Hnow : uses [UtcNow] 0 0 0 0)
      by (unfold uses, count; cbn; repeat split; lia).
    assert (Ha : uses [alert] 0 0 0 1)
      by (unfold uses, count; cbn; repeat split; lia).
    exact (uses_app _ _ _ _ _ _ _ _ _ _ Hnow
             (uses_app _ _ _ _ _ _ _ _ _ _ Hu1
                (uses_app _ _ _ _ _ _ _ _ _ _ Hu2
                   (uses_app _ _ _ _ _ _ _ _ _ _ Hnow
                      (uses_app _ _ _ _ _ _ _ _ _ _ Hu3
                         (uses_app _ _ _ _ _ _ _ _ _ _ Hu4 Ha)))))). }
  destruct Hu as (Hs & Hi & Ho & Ha).
  split; [| split; [exact Hs | split; [exact Hi | split; [exact Ho |
           split; [exact Ha | split; [| reflexivity]]]]]].
  - cbn [trace logged called]. rewrite Ht4. cbn [trace stored p3'].
    unfold p3'. cbn [trace stored]. rewrite Ht3. cbn [trace called stored].
    unfold p2'. cbn [trace stored]. rewrite Ht2. cbn [trace logged].
    rewrite Ht1. unfold p0. cbn [trace stored called].
    rewrite <- !app_assoc. reflexivity.
  - rewrite <- !app_assoc. reflexivity.
Qed.

End IndexMore.

(** ** The properties at sample inputs *)

Lemma slack_handler_posts_summary_witness :
  fst (SlackPosterHandler.lambda_handler Samples.lib (Samples.up MoreSamples.hook)
         MoreSamples.web_up MoreSamples.slack_handler_cfg
         (VDict [("task", VStr "backup")]) 0%nat MoreSamples.slack_fresh)
  = Ok (SlackPosterHandler.notification_sent Samples.lib
          (SlackPoster.Summary (VStr "backup") (VStr "updated") VNone VNone))
  /\ fst (SlackPosterHandler.lambda_handler Samples.lib (Samples.up MoreSamples.hook)
            MoreSamples.web_gone MoreSamples.slack_handler_cfg
            (VDict [("task", VStr "backup")]) 0%nat MoreSamples.slack_fresh)
     = Raise (Exn ServiceError "HTTP Error 404: Not Found").
Proof.
  split.
  - exact (proj1 (slack_handler_posts_summary Samples.lib
                    (Samples.up MoreSamples.hook) MoreSamples.web_up
                    MoreSamples.slack_handler_cfg
                    (VDict [("task", VStr "backup")]) 0%nat
                    MoreSamples.slack_fresh _ _ _ eq_refl eq_refl eq_refl)).
  - exact (proj1 (slack_handler_posts_summary Samples.lib
                    (Samples.up MoreSamples.hook) MoreSamples.web_gone
                    MoreSamples.slack_handler_cfg
                    (VDict [("task", VStr "backup")]) 0%nat
                    MoreSamples.slack_fresh _ _ _ eq_refl eq_refl eq_refl)).
Defined.

Lemma slack_handler_reuses_webhook_witness :
  fst (SlackPosterHandler.lambda_handler Samples.lib
         (Samples.up MoreSamples.hook) MoreSamples.web_flaky
         MoreSamples.slack_handler_cfg
         (VDict [("task", VStr "restore")]) 0%nat
         (snd (SlackPosterHandler.lambda_handler Samples.lib
                 (Samples.up MoreSamples.hook) MoreSamples.web_flaky
                 MoreSamples.slack_handler_cfg
                 (VDict [("task", VStr "backup")]) 0%nat
                 MoreSamples.slack_fresh)))
  = Raise (Exn ServiceError "HTTP Error 404: Not Found")
  /\ SlackPosterHandler.cached
       (globals
          (SlackPosterHandler.invocations Samples.lib
             (Samples.up MoreSamples.hook) MoreSamples.web_flaky
             MoreSamples.slack_handler_cfg
             [(VDict [("task", VStr "restore")], 0%nat);
              (VDict [("task", VStr "verify")], 0%nat)]
             (snd (SlackPosterHandler.lambda_handler Samples.lib
                     (Samples.up MoreSamples.hook) MoreSamples.web_flaky
                     MoreSamples.slack_handler_cfg
                     (VDict [("task", VStr "backup")]) 0%nat
                     MoreSamples.slack_fresh))))
     = Some (VStr MoreSamples.hook)
  /\ trace
       (SlackPosterHandler.invocations Samples.lib
          (Samples.up MoreSamples.hook) MoreSamples.web_flaky
          MoreSamples.slack_handler_cfg
          [(VDict [("task", VStr "restore")], 0%nat);
           (VDict [("task", VStr "verify")], 0%nat)]
          (snd (SlackPosterHandler.lambda_handler Samples.lib
                  (Samples.up MoreSamples.hook) MoreSamples.web_flaky
                  MoreSamples.slack_handler_cfg
                  (VDict [("task", VStr "backup")]) 0%nat
                  MoreSamples.slack_fresh)))
     = [GetSecretValue "slack"]
  /\ trace
       (snd (SlackPosterHandler.lambda_handler Samples.lib
               (Samples.up MoreSamples.hook) MoreSamples.web_flaky
               MoreSamples.slack_handler_cfg
               (VDict [("task", VStr "report")]) 0%nat
               (SlackPosterHandler.invocations Samples.lib
                  (Samples.up MoreSamples.hook) MoreSamples.web_flaky
                  MoreSamples.slack_handler_cfg
                  [(VDict [("task", VStr "restore")], 0%nat);
                   (VDict [("task", VStr "verify")], 0%nat)]
                  (snd (SlackPosterHandler.lambda_handler Samples.lib
                          (Samples.up MoreSamples.hook) MoreSamples.web_flaky
                          MoreSamples.slack_handler_cfg
                          (VDict [("task", VStr "backup")]) 0%nat
                          MoreSamples.slack_fresh)))))
     = [GetSecretValue "slack"].
Proof.
  destruct (slack_handler_reuses_webhook Samples.lib
              (Samples.up MoreSamples.hook) MoreSamples.web_flaky
              MoreSamples.slack_handler_cfg
              (VDict [("task", VStr "backup")]) 0%nat MoreSamples.slack_fresh
              _ _ eq_refl) as (w & Hw & Hlater).
  destruct (Hlater [(VDict [("task", VStr "restore")], 0%nat);
                    (VDict [("task", VStr "verify")], 0%nat)])
    as (Hc & Ht & _ & Hnext).
  split; [reflexivity |].
  split; [exact Hc |].
  split; [exact Ht |].
  exact (proj1 (Hnext (VDict [("task", VStr "report")]) 0%nat)).
Defined.

Lemma extract_summary_always_named_witness :
  truthy (VStr "Daily Coordinator") = true /\ truthy (VStr "updated") = true.
Proof.
  exact (extract_summary_always_named Samples.lib
           (VDict [("task_name", VStr ""); ("status", VNone)])
           (SlackPoster.Summary (VStr "Daily Coordinator") (VStr "updated")
              VNone VNone) eq_refl).
Defined.

Lemma extract_summary_edges_witness :
  SlackPoster._extract_summary Samples.lib (VStr "ping")
  = Ok (SlackPoster.default_summary)
  /\ SlackPoster._extract_summary Samples.lib MoreSamples.s3_envelope
     = Ok (SlackPoster.default_summary)
  /\ SlackPoster._extract_summary Samples.lib (VDict [("Records", VInt 3)])
     = Raise (Exn TypeError "'int' object is not iterable")
  /\ SlackPoster._extract_summary Samples.lib
       (VDict [("Records", VList [VStr "x"])])
     = Raise (attribute_error (VStr "x") "get").
Proof.
  destruct (extract_summary_edges Samples.lib) as (H1 & H2 & H3 & H4).
  split; [| split; [| split]].
  - apply H1. reflexivity.
  - apply (H2 _ [VDict [("EventSource", VStr "aws:s3")]]); [reflexivity |].
    constructor; [| constructor]. eexists. split; reflexivity.
  - apply (H3 _ (VInt 3)); reflexivity.
  - apply (H4 _ (VStr "x") []); reflexivity.
Defined.

Lemma load_webhook_url_failure_witness :
  globals (Proc (@None pyval) [GetSecretValue "slack"]
             [(ERROR, "Unable to load Slack webhook secret: service unavailable")])
  = globals (Samples.fresh (@None pyval)).
Proof.
  exact (proj1 (load_webhook_url_failure Samples.lib Samples.down
                  Samples.slack_cfg (Samples.fresh None) _ _ eq_refl)).
Defined.

Lemma load_webhook_url_reads_secret_witness :
  fst (SlackPoster._load_webhook_url Samples.lib (Samples.up MoreSamples.hook)
         Samples.slack_cfg (Samples.fresh None))
  = Ok (VStr MoreSamples.hook).
Proof.
  apply (load_webhook_url_reads_secret Samples.lib (Samples.up MoreSamples.hook)
           Samples.slack_cfg (Samples.fresh None) "slack"
           (VDict [("SecretString", VStr MoreSamples.hook)]) MoreSamples.hook);
    try reflexivity.
  discriminate.
Defined.

Lemma get_publisher_client_once_witness :
  GcpPubsub._get_publisher_client Samples.lib (Samples.up "{}")
    Samples.pubsub_cfg
    (Proc (Some 2%nat) [GetSecretValue "gcp-key"; UtcNow] [])
  = (Ok 2%nat, Proc (Some 2%nat) [GetSecretValue "gcp-key"; UtcNow] []).
Proof.
  apply (proj2 (get_publisher_client_once Samples.lib (Samples.up "{}")
                  Samples.pubsub_cfg (Samples.fresh None) _ _ eq_refl)).
  reflexivity.
Defined.

Lemma get_publisher_client_failure_witness :
  globals (Samples.fresh (@None handle)) = None.
Proof.
  exact (proj1 (proj2 (get_publisher_client_failure Samples.lib Samples.down
                         Samples.pubsub_cfg (Samples.fresh None) _ _ eq_refl))).
Defined.

Lemma publish_to_pubsub_calls_witness :
  fst (GcpPubsub.publish_to_pubsub Samples.lib (Samples.up "{}")
         Samples.pubsub_cfg (VDict [("status", VStr "success")])
         (Samples.fresh (Some 7%nat)))
  = Ok (VStr "id-1")
  /\ trace (snd (GcpPubsub.publish_to_pubsub Samples.lib (Samples.up "{}")
                   Samples.pubsub_cfg (VDict [("status", VStr "success")])
                   (Samples.fresh (Some 7%nat))))
     = [TopicPath 7%nat (Some "proj") "daily-coordinator-events";
        Publish 7%nat (VStr "id-1")
          (Samples.dumps (VDict [("status", VStr "success")]))
          [("source", VStr "daily-coordinator");
           ("event_type", VStr "success");
           ("coordinator_id", VStr "")];
        FutureResult 1%nat 10].
Proof.
  exact (publish_to_pubsub_calls Samples.lib (Samples.up "{}")
           Samples.pubsub_cfg (Samples.fresh (Some 7%nat)) 7%nat
           [("status", VStr "success")] eq_refl).
Defined.

Lemma publish_to_pubsub_needs_object_witness :
  filter is_Publish
    (trace (snd (GcpPubsub.publish_to_pubsub Samples.lib (Samples.up "{}")
                   Samples.pubsub_cfg (VList []) (Samples.fresh None))))
  = [].
Proof.
  exact (proj2 (publish_to_pubsub_needs_object Samples.lib (Samples.up "{}")
                  Samples.pubsub_cfg (VList []) (Samples.fresh None) eq_refl)).
Defined.

Lemma pubsub_to_firestore_drops_empty_witness :
  CloudFunction.pubsub_to_firestore Samples.lib Samples.down
    (VDict [("attributes", VDict [])]) 0%nat (Samples.fresh tt)
  = (Ok tt, Proc tt [] [(WARNING, "No data in Pub/Sub message")]).
Proof.
  exact (pubsub_to_firestore_drops_empty Samples.lib Samples.down
           (VDict [("attributes", VDict [])]) 0%nat (Samples.fresh tt) eq_refl).
Defined.

Lemma lambda_handler_no_event_data_witness :
  fst (WhatsappSender.lambda_handler Samples.lib Samples.down
         Samples.whatsapp_cfg (VDict []) 0%nat (Samples.fresh None))
  = Ok (VDict [("statusCode", VInt 400);
               ("body", VStr (Samples.dumps
                                (VDict [("error", VStr "No event data")])))])
  /\ trace (snd (WhatsappSender.lambda_handler Samples.lib Samples.down
                   Samples.whatsapp_cfg MoreSamples.s3_envelope 0%nat
                   (Samples.fresh None)))
     = [].
Proof.
  split.
  - rewrite (proj1 (lambda_handler_no_event_data Samples.lib Samples.down
                      Samples.whatsapp_cfg (VDict []) 0%nat (Samples.fresh None))
               (VDict []) eq_refl eq_refl).
    reflexivity.
  - rewrite (proj2 (lambda_handler_no_event_data Samples.lib Samples.down
                      Samples.whatsapp_cfg MoreSamples.s3_envelope 0%nat
                      (Samples.fresh None))
               _ [VDict [("EventSource", VStr "aws:s3")]] eq_refl eq_refl).
    + reflexivity.
    + constructor; [| constructor]. eexists. split; reflexivity.
Defined.

Lemma lambda_handler_not_configured_witness :
  trace (snd (WhatsappSender.lambda_handler Samples.lib Samples.down
                MoreSamples.whatsapp_unset_cfg
                (VDict [("status", VStr "success")]) 0%nat (Samples.fresh None)))
  = [].
Proof.
  rewrite (lambda_handler_not_configured Samples.lib Samples.down
             MoreSamples.whatsapp_unset_cfg
             (VDict [("status", VStr "success")]) 0%nat (Samples.fresh None)
             (VDict [("status", VStr "success")]) eq_refl eq_refl eq_refl).
  reflexivity.
Defined.

Lemma get_twilio_client_failure_witness :
  globals (Samples.fresh (@None handle)) = None.
Proof.
  exact (proj1 (proj2 (get_twilio_client_failure Samples.lib Samples.down
                         Samples.whatsapp_cfg (Samples.fresh None) _ _ eq_refl))).
Defined.

Lemma lambda_handler_one_call_each_witness :
  map (fun c => match c with MessagesCreate _ _ to _ => to | _ => EmptyString end)
      (trace (snd (WhatsappSender.lambda_handler Samples.lib
                     (Samples.refusing "whatsapp:+15550001") Samples.whatsapp_cfg
                     (VDict [("status", VStr "success")]) 0%nat
                     (Samples.fresh (Some 1%nat)))))
  = ["whatsapp:+15550001"; "whatsapp:+15550002"].
Proof.
  rewrite (lambda_handler_one_call_each Samples.lib
             (Samples.refusing "whatsapp:+15550001") Samples.whatsapp_cfg
             (VDict [("status", VStr "success")]) 0%nat
             (Samples.fresh (Some 1%nat))
             (VDict [("status", VStr "success")])
             "+15550001, whatsapp:+15550002" 1%nat _
             eq_refl eq_refl eq_refl eq_refl eq_refl).
  reflexivity.
Defined.

Lemma lambda_handler_unformattable_witness :
  filter is_MessagesCreate
    (trace (snd (WhatsappSender.lambda_handler Samples.lib (Samples.up "{}")
                   Samples.whatsapp_cfg (VList [VInt 1]) 0%nat
                   (Samples.fresh (Some 1%nat)))))
  = [].
Proof.
  exact (proj1 (lambda_handler_unformattable Samples.lib (Samples.up "{}")
                  Samples.whatsapp_cfg (VList [VInt 1]) 0%nat
                  (Samples.fresh (Some 1%nat)) (VList [VInt 1])
                  "+15550001, whatsapp:+15550002"
                  eq_refl eq_refl eq_refl eq_refl)).
Defined.

Lemma non_json_notification_is_generic_witness :
  WhatsappSender.extract_event_data Samples.lib (VDict MoreSamples.text_envelope)
  = Ok (VDict [("message", VStr "disk full")]).
Proof.
  exact (proj1 (non_json_notification_is_generic Samples.lib
                  MoreSamples.text_envelope _ _ _ "disk full"
                  eq_refl eq_refl eq_refl eq_refl eq_refl)).
Defined.

Lemma get_secrets_never_raises_witness :
  fst (Index.get_secrets Samples.lib
         (Samples.up (Samples.dumps Samples.twilio_creds)) Samples.index_cfg
         (Samples.fresh []))
  = Ok Samples.twilio_creds
  /\ trace (snd (Index.get_secrets Samples.lib
                   (Samples.up (Samples.dumps Samples.twilio_creds))
                   Samples.index_cfg (Samples.fresh [])))
     = [GetSecretValue "dc"]
  /\ logs (snd (Index.get_secrets Samples.lib
                  (Samples.up (Samples.dumps Samples.twilio_creds))
                  Samples.index_cfg (Samples.fresh [])))
     = []
  /\ fst (Index.get_secrets Samples.lib (Samples.up "not json")
            Samples.index_cfg (Samples.fresh []))
     = Ok (VDict [])
  /\ fst (Index.get_secrets Samples.lib Samples.down Samples.index_cfg
            (Samples.fresh []))
     = Ok (VDict []).
Proof.
  pose proof (get_secrets_never_raises Samples.lib
                (Samples.up (Samples.dumps Samples.twilio_creds))
                Samples.index_cfg (Samples.fresh [])) as (Hv & _ & Ht & Hl).
  split; [exact Hv | split; [exact Ht | split]].
  - destruct (logs (snd (Index.get_secrets Samples.lib
                           (Samples.up (Samples.dumps Samples.twilio_creds))
                           Samples.index_cfg (Samples.fresh []))));
      [reflexivity | discriminate Hl].
  - split.
    + exact (proj1 (get_secrets_never_raises Samples.lib (Samples.up "not json")
                      Samples.index_cfg (Samples.fresh []))).
    + exact (proj1 (get_secrets_never_raises Samples.lib Samples.down
                      Samples.index_cfg (Samples.fresh []))).
Defined.
